(** * tempstore: a temporary artifact store

    Shallow embedding of the [tempstore] Python package (engine.py,
    datastore.py, database.py) and proofs about its behaviour.

    - Python [bytes] are [list byte], [str] is [string], [int] is [Z];
    - [st_mtime] (a float) is an exact rational [Q];
    - the datastore directory is a finite map from file names to files;
    - the SQLite tables are lists of rows in rowid order;
    - exceptions are an inductive type and every operation returns a
      [result] together with the new state. *)

From Stdlib Require Import ZArith List String Ascii QArith Lia Bool.
From Stdlib.Strings Require Import Byte.
From Stdlib Require Import DecimalString Sorted Permutation.
From stdpp Require Import base option gmap strings list fin_maps.

Import ListNotations.
Local Open Scope Z_scope.
Local Open Scope string_scope.

(** ** Python values, exceptions and results *)

Abbreviation bytes := (list byte).

Inductive exn : Type :=
| DatabaseException (msg : string)
| DatastoreException (msg : string)
| IntegrityError
| ProgrammingError
| OperationalError
| AssertionError
| FileExistsError
| FileNotFoundError
| OverflowError.

(** The 64-bit signed integers: SQLite's INTEGER and the platform's
    [time_t]. *)
Definition int64 (n : Z) : bool :=
  ((- 2 ^ 63 <=? n) && (n <? 2 ^ 63))%Z.

Inductive result (A : Type) : Type :=
| Ok (a : A)
| Raise (e : exn).
Arguments Ok {A} a.
Arguments Raise {A} e.

(** Values a caller can pass where a boolean is expected. *)
Inductive pyvalue : Type :=
| PyBool (b : bool)
| PyInt (z : Z)
| PyStr (s : string)
| PyNone.

(** ** hashlib.sha256 and binascii.hexlify *)

Module SHA256.

Definition wrap (x : Z) : Z := x mod 2 ^ 32.
Definition add32 (a b : Z) : Z := wrap (a + b).
Definition not32 (x : Z) : Z := wrap (Z.lnot x).
Definition rotr (n x : Z) : Z :=
  Z.lor (Z.shiftr x n) (wrap (Z.shiftl x (32 - n))).

Definition Ch (x y z : Z) : Z := Z.lxor (Z.land x y) (Z.land (not32 x) z).
Definition Maj (x y z : Z) : Z :=
  Z.lxor (Z.lxor (Z.land x y) (Z.land x z)) (Z.land y z).
Definition Sigma0 (x : Z) : Z :=
  Z.lxor (Z.lxor (rotr 2 x) (rotr 13 x)) (rotr 22 x).
Definition Sigma1 (x : Z) : Z :=
  Z.lxor (Z.lxor (rotr 6 x) (rotr 11 x)) (rotr 25 x).
Definition sigma0 (x : Z) : Z :=
  Z.lxor (Z.lxor (rotr 7 x) (rotr 18 x)) (Z.shiftr x 3).
Definition sigma1 (x : Z) : Z :=
  Z.lxor (Z.lxor (rotr 17 x) (rotr 19 x)) (Z.shiftr x 10).

(** The first primes, by trial division. *)
Definition is_prime (n : Z) : bool :=
  forallb (fun d => negb (n mod Z.of_nat d =? 0)%Z) (seq 2 (Z.to_nat n - 2)).

Definition primes : list Z :=
  List.filter is_prime (map Z.of_nat (seq 2 310)).

(** Largest [r] below [2 ^ bits] with [r ^ 3 <= n], one bit at a time. *)
Fixpoint cube_root (bits : nat) (n r : Z) : Z :=
  match bits with
  | O => r
  | S bits' =>
      let r' := r + 2 ^ Z.of_nat bits' in
      cube_root bits' n (if (r' * r' * r' <=? n)%Z then r' else r)
  end.

(** Round constants: the first 32 bits of the fractional parts of the
    cube roots of the first 64 primes. *)
Definition K : list Z :=
  map (fun p => wrap (cube_root 40 (p * 2 ^ 96) 0)) (firstn 64 primes).

(** The eight working variables / chaining values. *)
Record state : Type := State {
  ha : Z; hb : Z; hc : Z; hd : Z; he : Z; hf : Z; hg : Z; hh : Z }.

(** Initial hash value: the first 32 bits of the fractional parts of
    the square roots of the first 8 primes. *)
Definition root_bits (i : nat) : Z :=
  wrap (Z.sqrt (nth i primes 0 * 2 ^ 64)).

Definition H0 : state :=
  State (root_bits 0) (root_bits 1) (root_bits 2) (root_bits 3)
        (root_bits 4) (root_bits 5) (root_bits 6) (root_bits 7).

Definition byte_val (b : byte) : Z := Z.of_N (Byte.to_N b).
Definition byte_of_Z (z : Z) : byte :=
  match Byte.of_N (Z.to_N (z mod 256)) with
  | Some b => b
  | None => x00
  end.

(** The [n] low bytes of [z], most significant first. *)
Definition be_bytes (n : nat) (z : Z) : bytes :=
  map (fun i => byte_of_Z (Z.shiftr z (8 * Z.of_nat i))) (rev (seq 0 n)).

(** Message padding: 0x80, zeros up to 56 mod 64, 64-bit bit length. *)
Definition pad (msg : bytes) : bytes :=
  let len := Z.of_nat (length msg) in
  msg ++ [x80] ++ repeat x00 (Z.to_nat ((55 - len) mod 64))
      ++ be_bytes 8 (8 * len).

Fixpoint words_of (bs : bytes) : list Z :=
  match bs with
  | b0 :: b1 :: b2 :: b3 :: rest =>
      (byte_val b0 * 2 ^ 24 + byte_val b1 * 2 ^ 16
       + byte_val b2 * 2 ^ 8 + byte_val b3) :: words_of rest
  | _ => []
  end.

(** Message schedule, kept most recent word first. *)
Fixpoint extend (n : nat) (r : list Z) : list Z :=
  match n with
  | O => r
  | S n' =>
      let w := add32 (add32 (sigma1 (nth 1 r 0)) (nth 6 r 0))
                     (add32 (sigma0 (nth 14 r 0)) (nth 15 r 0)) in
      extend n' (w :: r)
  end.

Definition schedule (block : list Z) : list Z := rev (extend 48 (rev block)).

Definition round (s : state) (kw : Z * Z) : state :=
  let t1 := add32 (add32 (add32 (hh s) (Sigma1 (he s)))
                         (add32 (Ch (he s) (hf s) (hg s)) (fst kw)))
                  (snd kw) in
  let t2 := add32 (Sigma0 (ha s)) (Maj (ha s) (hb s) (hc s)) in
  State (add32 t1 t2) (ha s) (hb s) (hc s)
        (add32 (hd s) t1) (he s) (hf s) (hg s).

Definition compress (s : state) (block : list Z) : state :=
  let r := fold_left round (combine K (schedule block)) s in
  State (add32 (ha s) (ha r)) (add32 (hb s) (hb r))
        (add32 (hc s) (hc r)) (add32 (hd s) (hd r))
        (add32 (he s) (he r)) (add32 (hf s) (hf r))
        (add32 (hg s) (hg r)) (add32 (hh s) (hh r)).

Fixpoint blocks (n : nat) (ws : list Z) (s : state) : state :=
  match n with
  | O => s
  | S n' => blocks n' (skipn 16 ws) (compress s (firstn 16 ws))
  end.

Definition digest (msg : bytes) : bytes :=
  let ws := words_of (pad msg) in
  let s := blocks (Nat.div (length ws) 16) ws H0 in
  concat (map (be_bytes 4)
              [ha s; hb s; hc s; hd s; he s; hf s; hg s; hh s]).

End SHA256.

Definition hex_digit (d : Z) : ascii :=
  match String.get (Z.to_nat d) "0123456789abcdef" with
  | Some c => c
  | None => "0"%char
  end.

(** [binascii.hexlify(b).decode()] *)
Fixpoint hexlify (bs : bytes) : string :=
  match bs with
  | [] => ""
  | b :: rest =>
      let v := SHA256.byte_val b in
      String (hex_digit (v / 16)) (String (hex_digit (v mod 16)) (hexlify rest))
  end.

Definition bytes_of_string (s : string) : bytes :=
  map byte_of_ascii (list_ascii_of_string s).

(** ** State-and-exception monad

    Every method of the package mutates an object (the directory, the
    database) and either returns or raises. *)

Definition M (S A : Type) : Type := S -> result A * S.

Definition ret {S A} (a : A) : M S A := fun s => (Ok a, s).
Definition raise {S A} (e : exn) : M S A := fun s => (Raise e, s).
Definition bind {S A B} (m : M S A) (k : A -> M S B) : M S B :=
  fun s =>
    match m s with
    | (Ok a, s') => k a s'
    | (Raise e, s') => (Raise e, s')
    end.
Definition get {S} : M S S := fun s => (Ok s, s).
Definition put {S} (s : S) : M S unit := fun _ => (Ok tt, s).
Definition modify {S} (f : S -> S) : M S unit := fun s => (Ok tt, f s).

(** [try: body except e if handles e: handler] *)
Definition try_except {S A} (body : M S A) (handles : exn -> bool)
    (handler : M S A) : M S A :=
  fun s =>
    match body s with
    | (Ok a, s') => (Ok a, s')
    | (Raise e, s') => if handles e then handler s' else (Raise e, s')
    end.

Declare Scope monad_scope.
Delimit Scope monad_scope with monad.
Notation "x <- m ;; k" := (bind m (fun x => k))
  (at level 100, m at next level, right associativity) : monad_scope.
Notation "m ;;; k" := (bind m (fun _ => k))
  (at level 100, right associativity) : monad_scope.

(** ** Regular expressions used by the validators

    Both patterns have the shape [^ class-repetition $] and are used with
    [search]. Without [re.MULTILINE], [^] only matches at the start of
    the string, and [$] matches at the end of the string or just before
    a newline that is the last character of the string. *)

Definition in_range (lo hi c : ascii) : bool :=
  (N_of_ascii lo <=? N_of_ascii c)%N && (N_of_ascii c <=? N_of_ascii hi)%N.

(** [[0-9a-zA-Z_.-]] *)
Definition name_class (c : ascii) : bool :=
  in_range "0" "9" c || in_range "a" "z" c || in_range "A" "Z" c
  || Ascii.eqb c "_" || Ascii.eqb c "." || Ascii.eqb c "-".

(** [[0-9a-f]] *)
Definition hex_class (c : ascii) : bool :=
  in_range "0" "9" c || in_range "a" "f" c.

Definition newline : ascii := "010"%char.

(** [$] at the position where [rest] remains to be read. *)
Definition at_dollar (rest : string) : bool :=
  match rest with
  | EmptyString => true
  | String c EmptyString => Ascii.eqb c newline
  | _ => false
  end.

(** [cls+$] from the current position. *)
Fixpoint plus_dollar (cls : ascii -> bool) (s : string) : bool :=
  match s with
  | EmptyString => false
  | String c rest => cls c && (at_dollar rest || plus_dollar cls rest)
  end.

(** [cls{n}$] from the current position. *)
Fixpoint repeat_dollar (cls : ascii -> bool) (n : nat) (s : string) : bool :=
  match n with
  | O => at_dollar s
  | S n' =>
      match s with
      | EmptyString => false
      | String c rest => cls c && repeat_dollar cls n' rest
      end
  end.

(** [re.compile('^[0-9a-zA-Z_.-]+$').search(name)] is not [None]. *)
Definition name_regex_search (name : string) : bool :=
  plus_dollar name_class name.

(** [re.compile('^[0-9a-f]{64}$').search(sha256)] is not [None]. *)
Definition sha256_regex_search (sha256 : string) : bool :=
  repeat_dollar hex_class 64 sha256.

(** [x in xs] for strings. *)
Definition str_in (x : string) (xs : list string) : bool :=
  existsb (String.eqb x) xs.

(** ** datastore.py: filesystem-backed blob store *)

Module Datastore.

Local Open Scope monad_scope.

Definition BUFFER_SIZE : N := 65536.

(** A seekable binary stream ([io.BytesIO], an uploaded file). *)
Record Stream : Type := { data : bytes; pos : nat }.

Definition BytesIO (b : bytes) : Stream := {| data := b; pos := 0 |}.

(** The first [n] elements of a list, [l[:n]]. *)
Fixpoint slice_to {A : Type} (n : N) (l : list A) : list A :=
  match l with
  | [] => []
  | x :: l' => if (n =? 0)%N then [] else x :: slice_to (N.pred n) l'
  end.

(** [stream.read(n)] *)
Definition read (n : N) (s : Stream) : bytes * Stream :=
  let buffer := slice_to n (skipn (pos s) (data s)) in
  (buffer, {| data := data s; pos := (pos s + length buffer)%nat |}).

(** [stream.seek(p)] *)
Definition seek (p : nat) (s : Stream) : Stream :=
  {| data := data s; pos := p |}.

(** [iter(lambda: stream.read(n), b'')]: the buffers read until the
    first empty one. [None] when the fuel runs out before that. *)
Fixpoint iter_read (fuel : nat) (n : N) (s : Stream)
    : option (list bytes * Stream) :=
  match fuel with
  | O => None
  | S fuel' =>
      match read n s with
      | ([], s') => Some ([], s')
      | (buffer, s') =>
          match iter_read fuel' n s' with
          | Some (buffers, s'') => Some (buffer :: buffers, s'')
          | None => None
          end
      end
  end.

(** One more iteration than there are bytes always reaches the empty
    read (lemma [iter_read_enough_fuel]). *)
Definition read_buffers (s : Stream) : list bytes * Stream :=
  match iter_read (S (length (data s))) BUFFER_SIZE s with
  | Some r => r
  | None => ([], s)
  end.

(** A [hashlib.sha256()] object: the bytes fed to it so far. *)
Record hasher : Type := { absorbed : bytes }.
Definition sha256_new : hasher := {| absorbed := [] |}.
Definition update (h : hasher) (buffer : bytes) : hasher :=
  {| absorbed := absorbed h ++ buffer |}.
Definition digest (h : hasher) : bytes := SHA256.digest (absorbed h).

Definition validate_sha256 {S : Type} (sha256 : string) : M S unit :=
  if sha256_regex_search sha256 then ret tt
  else raise (DatastoreException "Invalid SHA-256 hash").

(** Returns the SHA-256 hash of a stream, read from its current
    position; the stream is left at its end. *)
Definition sha256_sum (stream : Stream) : string * Stream :=
  let (buffers, stream') := read_buffers stream in
  let sha256 := fold_left update buffers sha256_new in
  (hexlify (digest sha256), stream').

(** A regular file of the data directory. *)
Record File : Type := { content : bytes; mtime : Q }.

(** The data directory: file name to file. *)
Abbreviation directory := (gmap string File).

(** [open(path, 'xb')]: creates an empty file, fails if it exists. *)
Definition open_x (path : string) (wtime : Q) : M directory unit :=
  fun d =>
    match d !! path with
    | Some _ => (Raise FileExistsError, d)
    | None => (Ok tt, <[path := {| content := []; mtime := wtime |}]> d)
    end.

(** [f.write(buffer)] on the file opened at [path]. *)
Definition write (path : string) (wtime : Q) (buffer : bytes)
    : M directory unit :=
  modify (alter (fun f => {| content := content f ++ buffer;
                             mtime := wtime |}) path).

Fixpoint write_all (path : string) (wtime : Q) (buffers : list bytes)
    : M directory unit :=
  match buffers with
  | [] => ret tt
  | buffer :: rest => write path wtime buffer ;;; write_all path wtime rest
  end.

(** [os.utime(path, (t, t))]. The times are converted to the platform's
    [time_t], 64 bits here, before the file is looked at: an [int]
    outside it raises [OverflowError]. *)
Definition utime (path : string) (t : Z) : M directory unit :=
  fun d =>
    if negb (int64 t) then (Raise OverflowError, d)
    else
      match d !! path with
      | Some f => (Ok tt, <[path := {| content := content f;
                                       mtime := inject_Z t |}]> d)
      | None => (Raise FileNotFoundError, d)
      end.

(** [os.replace(src, dst)] *)
Definition replace (src dst : string) : M directory unit :=
  fun d =>
    match d !! src with
    | Some f => (Ok tt, <[dst := f]> (delete src d))
    | None => (Raise FileNotFoundError, d)
    end.

(** [os.listdir(data_dir)] *)
Definition listdir (d : directory) : list string :=
  map fst (map_to_list d).

(** [os.stat(path)] *)
Definition stat (path : string) : M directory File :=
  fun d =>
    match d !! path with
    | Some f => (Ok f, d)
    | None => (Raise FileNotFoundError, d)
    end.

(** [os.unlink(path)] *)
Definition unlink (path : string) : M directory unit :=
  fun d =>
    match d !! path with
    | Some _ => (Ok tt, delete path d)
    | None => (Raise FileNotFoundError, d)
    end.

(** [a > b] for a float and an int. *)
Definition Qgtb (a b : Q) : bool := negb (Qle_bool a b).

(** First half of [create_blob]: names the files, then writes the
    stream to the temporary file. [suffix] is [uuid.uuid4().hex] and
    [wtime] the modification time the writes leave on the file. *)
Definition create_blob_temp (stream : Stream) (suffix : string) (wtime : Q)
    : M directory (string * string * Stream) :=
  let (sha256, stream1) := sha256_sum stream in
  let file_path := sha256 in
  let temp_file_path := file_path ++ "-" ++ suffix in
  let stream2 := seek 0 stream1 in
  open_x temp_file_path wtime ;;;
  let (buffers, stream3) := read_buffers stream2 in
  write_all temp_file_path wtime buffers ;;;
  ret (sha256, temp_file_path, stream3).

(** Second half of [create_blob]: fixes the timestamp and publishes
    the temporary file under the hash. [now] is [int(time.time())]. *)
Definition create_blob_publish (sha256 temp_file_path : string)
    (age now : Z) : M directory unit :=
  let timestamp := now - age in
  utime temp_file_path timestamp ;;;
  replace temp_file_path sha256.

(** Creates a blob. Returns its SHA-256 hash. *)
Definition create_blob (stream : Stream) (age : Z)
    (suffix : string) (wtime : Q) (now : Z)
    : M directory (string * Stream) :=
  r <- create_blob_temp stream suffix wtime ;;
  let '(sha256, temp_file_path, stream') := r in
  create_blob_publish sha256 temp_file_path age now ;;;
  ret (sha256, stream').

(** Retrieves a blob from its SHA-256 hash. Returns a stream. *)
Definition retrieve_blob (sha256 : string) : M directory Stream :=
  validate_sha256 sha256 ;;;
  fun d =>
    match d !! sha256 with
    | Some f => (Ok (BytesIO (content f)), d)
    | None => (Raise (DatastoreException "Blob not found"), d)
    end.

(** The loop of [delete_unreferenced_blobs] over the listed names. *)
Fixpoint scan (now : Z) (sha256s : list string) (names : list string)
    : M directory unit :=
  match names with
  | [] => ret tt
  | file_name :: rest =>
      st <- stat file_name ;;
      if Qgtb (mtime st) (inject_Z (now - 60)) then
        scan now sha256s rest
      else if negb (str_in file_name sha256s) then
        unlink file_name ;;; scan now sha256s rest
      else
        scan now sha256s rest
  end.

(** Deletes the unreferenced blobs from the datastore. *)
Definition delete_unreferenced_blobs (sha256s : list string) (now : Z)
    : M directory unit :=
  fun d => scan now sha256s (listdir d) d.

(** The same call when other processes changed the directory from
    [listed] to the current one between [os.listdir] and the loop. *)
Definition delete_unreferenced_blobs_raced (listed : directory)
    (sha256s : list string) (now : Z) : M directory unit :=
  scan now sha256s (listdir listed).

End Datastore.

(** ** database.py: SQLite-backed index of projects, versions, files *)

Module Database.

Local Open Scope Z_scope.
Local Open Scope monad_scope.

(** Rows of the three tables. [star] is the 0/1 of the BOOLEAN column. *)
Record ProjectRow : Type := {
  p_id : Z; p_name : string }.
Record VersionRow : Type := {
  v_id : Z; v_project_id : Z; v_name : string;
  v_timestamp : Z; v_star : bool }.
Record FileRow : Type := {
  f_id : Z; f_version_id : Z; f_name : string; f_sha256 : string }.

Record Tables : Type := {
  projects : list ProjectRow;
  versions : list VersionRow;
  files : list FileRow }.

(** What [create_schema] leaves in a new database file. *)
Definition empty_tables : Tables :=
  {| projects := []; versions := []; files := [] |}.

(** A connection; [journal] holds the tables as they were at BEGIN
    while a transaction is open. *)
Record Connection : Type := { journal : option Tables }.

(** The [Database] object: the tables as its connection sees them,
    and [self.connection]. *)
Record Database : Type := {
  tables : Tables;
  connection : option Connection }.

(** The tables as committed in the database file. *)
Definition committed (db : Database) : Tables :=
  match connection db with
  | Some {| journal := Some snapshot |} => snapshot
  | _ => tables db
  end.

Definition validate_name {S : Type} (name : string) : M S unit :=
  if (String.eqb name ".") || (String.eqb name "..") then
    raise (DatabaseException "Invalid name")
  else if negb (name_regex_search name) then
    raise (DatabaseException "Invalid name")
  else ret tt.

Definition validate_sha256 {S : Type} (sha256 : string) : M S unit :=
  if negb (sha256_regex_search sha256) then
    raise (DatabaseException "Invalid SHA-256 hash")
  else ret tt.

Definition validate_star {S : Type} (star : pyvalue) : M S bool :=
  match star with
  | PyBool b => ret b
  | _ => raise (DatabaseException "Invalid star state")
  end.

(** [open]: a fresh connection replaces [self.connection]; whatever
    the replaced connection had not committed is lost. *)
Definition open (self : Database) : Database :=
  {| tables := committed self;
     connection := Some {| journal := None |} |}.

(** [close]: an open transaction is rolled back. *)
Definition close (self : Database) : Database :=
  {| tables := committed self; connection := None |}.

(** The decorator: the generator-based context manager runs [open],
    yields, and runs [close] only when it is resumed normally; an
    exception thrown into it at the [yield] leaves it at once. *)
Definition database_context_manager {A : Type} (method : M Database A)
    : M Database A :=
  fun self =>
    let database := open self in
    match method database with
    | (Ok a, database') => (Ok a, close database')
    | (Raise e, database') => (Raise e, database')
    end.

(** *** Statements *)

(** Runs a statement on the cursor of the open connection. *)
Definition execute {A : Type} (stmt : Tables -> result A * Tables)
    : M Database A :=
  fun db =>
    match connection db with
    | None => (Raise ProgrammingError, db)
    | Some c =>
        let (r, t) := stmt (tables db) in
        (r, {| tables := t; connection := Some c |})
    end.

Definition query {A : Type} (q : Tables -> A) : M Database A :=
  execute (fun t => (Ok (q t), t)).

(** Binding an [int] parameter of a statement: SQLite's INTEGER is a
    64-bit signed integer, and [sqlite3] raises [OverflowError] for a
    Python [int] outside it, before the statement runs. *)
Definition bind_integer (n : Z) : M Database unit :=
  if int64 n then ret tt else raise OverflowError.

(** BEGIN, BEGIN IMMEDIATE *)
Definition execute_begin : M Database unit :=
  fun db =>
    match connection db with
    | None => (Raise ProgrammingError, db)
    | Some {| journal := Some _ |} => (Raise OperationalError, db)
    | Some {| journal := None |} =>
        (Ok tt, {| tables := tables db;
                   connection := Some {| journal := Some (tables db) |} |})
    end.

Definition execute_commit : M Database unit :=
  fun db =>
    match connection db with
    | None => (Raise ProgrammingError, db)
    | Some {| journal := None |} => (Raise OperationalError, db)
    | Some {| journal := Some _ |} =>
        (Ok tt, {| tables := tables db;
                   connection := Some {| journal := None |} |})
    end.

Definition execute_rollback : M Database unit :=
  fun db =>
    match connection db with
    | None => (Raise ProgrammingError, db)
    | Some {| journal := None |} => (Raise OperationalError, db)
    | Some {| journal := Some snapshot |} =>
        (Ok tt, {| tables := snapshot;
                   connection := Some {| journal := None |} |})
    end.

(** INTEGER PRIMARY KEY of a new row: one more than the largest in use. *)
Definition next_id (ids : list Z) : Z := 1 + fold_right Z.max 0 ids.

(** INSERT OR IGNORE INTO projects(name) VALUES(?) *)
Definition insert_or_ignore_project (name : string) (t : Tables) : Tables :=
  if existsb (fun p => String.eqb (p_name p) name) (projects t) then t
  else {| projects := projects t ++
            [{| p_id := next_id (map p_id (projects t)); p_name := name |}];
          versions := versions t;
          files := files t |}.

(** SELECT id FROM projects WHERE name=? *)
Definition select_project_ids (name : string) (t : Tables) : list Z :=
  map p_id (List.filter (fun p => String.eqb (p_name p) name) (projects t)).

(** INSERT OR IGNORE INTO versions(project_id, name, timestamp)
    VALUES(?, ?, ?). A conflict on [unique_version] is ignored, a
    missing parent project is not. *)
Definition insert_or_ignore_version (project_id : Z) (name : string)
    (timestamp : Z) (t : Tables) : result unit * Tables :=
  if existsb (fun v => (v_project_id v =? project_id)
                       && String.eqb (v_name v) name) (versions t)
  then (Ok tt, t)
  else if negb (existsb (fun p => p_id p =? project_id) (projects t))
  then (Raise IntegrityError, t)
  else (Ok tt,
        {| projects := projects t;
           versions := versions t ++
             [{| v_id := next_id (map v_id (versions t));
                 v_project_id := project_id; v_name := name;
                 v_timestamp := timestamp; v_star := false |}];
           files := files t |}).

(** SELECT id FROM versions WHERE project_id=? AND name=? *)
Definition select_version_ids (project_id : Z) (name : string)
    (t : Tables) : list Z :=
  map v_id (List.filter (fun v => (v_project_id v =? project_id)
                             && String.eqb (v_name v) name) (versions t)).

(** INSERT INTO files(version_id, name, sha256) VALUES(?, ?, ?) *)
Definition insert_file (version_id : Z) (name sha256 : string)
    (t : Tables) : result unit * Tables :=
  if existsb (fun f => (f_version_id f =? version_id)
                       && String.eqb (f_name f) name) (files t)
  then (Raise IntegrityError, t)
  else if negb (existsb (fun v => v_id v =? version_id) (versions t))
  then (Raise IntegrityError, t)
  else (Ok tt,
        {| projects := projects t;
           versions := versions t;
           files := files t ++
             [{| f_id := next_id (map f_id (files t));
                 f_version_id := version_id; f_name := name;
                 f_sha256 := sha256 |}] |}).

(** SELECT files.sha256 FROM projects
    INNER JOIN versions ON projects.id=versions.project_id
    INNER JOIN files ON versions.id=files.version_id
    WHERE projects.name=? AND versions.name=? AND files.name=? *)
Definition select_file_sha256s (project_name version_name file_name : string)
    (t : Tables) : list string :=
  flat_map (fun p =>
    flat_map (fun v =>
      flat_map (fun f =>
        if (p_id p =? v_project_id v) && (v_id v =? f_version_id f)
           && String.eqb (p_name p) project_name
           && String.eqb (v_name v) version_name
           && String.eqb (f_name f) file_name
        then [f_sha256 f] else [])
        (files t))
      (versions t))
    (projects t).

(** SELECT versions.id FROM versions
    INNER JOIN projects ON projects.id=versions.project_id
    WHERE projects.name=? and versions.name=? *)
Definition select_version_ids_by_names (project_name version_name : string)
    (t : Tables) : list Z :=
  flat_map (fun v =>
    flat_map (fun p =>
      if (p_id p =? v_project_id v)
         && String.eqb (p_name p) project_name
         && String.eqb (v_name v) version_name
      then [v_id v] else [])
      (projects t))
    (versions t).

(** ORDER BY: a stable insertion sort on a [<=] test. *)
Fixpoint insert_sorted {A : Type} (le : A -> A -> bool) (x : A)
    (l : list A) : list A :=
  match l with
  | [] => [x]
  | y :: l' => if le x y then x :: l else y :: insert_sorted le x l'
  end.
Definition order_by {A : Type} (le : A -> A -> bool) (l : list A) : list A :=
  fold_right (insert_sorted le) [] l.

(** SELECT name, timestamp, star FROM versions WHERE project_id=?
    ORDER BY timestamp DESC. SQLite reads the rows of a project through
    the index of [unique_version], that is by name, and its sort keeps
    rows of equal timestamp in that order. *)
Definition select_versions_of_project (project_id : Z) (t : Tables)
    : list VersionRow :=
  order_by (fun a b => v_timestamp b <=? v_timestamp a)
    (order_by (fun a b => String.leb (v_name a) (v_name b))
       (List.filter (fun v => v_project_id v =? project_id) (versions t))).

(** SELECT DISTINCT *)
Fixpoint distinct (l : list string) : list string :=
  match l with
  | [] => []
  | x :: l' => x :: List.filter (fun y => negb (String.eqb x y)) (distinct l')
  end.

(** UPDATE versions SET star=? WHERE id=? *)
Definition update_version_star (star : bool) (version_id : Z)
    (t : Tables) : Tables :=
  {| projects := projects t;
     versions := map (fun v =>
       if v_id v =? version_id
       then {| v_id := v_id v; v_project_id := v_project_id v;
               v_name := v_name v; v_timestamp := v_timestamp v;
               v_star := star |}
       else v) (versions t);
     files := files t |}.

(** WHERE star=? AND timestamp<=? with parameters [False, timestamp]. *)
Definition obsolete (timestamp : Z) (v : VersionRow) : bool :=
  Bool.eqb (v_star v) false && (v_timestamp v <=? timestamp).

(** DELETE FROM versions WHERE star=? AND timestamp<=?, with the
    ON DELETE CASCADE of [files.version_id]: the files that reference
    a deleted version go with it. *)
Definition delete_versions_where_obsolete (timestamp : Z) (t : Tables)
    : Tables :=
  let deleted := List.filter (obsolete timestamp) (versions t) in
  {| projects := projects t;
     versions :=
       List.filter (fun v => negb (obsolete timestamp v)) (versions t);
     files := List.filter (fun f =>
       negb (existsb (fun v => v_id v =? f_version_id f) deleted))
       (files t) |}.

Definition py_assert (b : bool) : M Database unit :=
  if b then ret tt else raise AssertionError.

Definition is_integrity_error (e : exn) : bool :=
  match e with IntegrityError => true | _ => false end.

(** *** Methods, before decoration *)

Definition create_file_method (project_name version_name file_name
    sha256 : string) (age now : Z) : M Database unit :=
  validate_name project_name ;;;
  validate_name version_name ;;;
  validate_name file_name ;;;
  validate_sha256 sha256 ;;;
  let timestamp := now - age in
  execute_begin ;;;
  execute (fun t => (Ok tt, insert_or_ignore_project project_name t)) ;;;
  rows <- query (select_project_ids project_name) ;;
  py_assert (length rows =? 1)%nat ;;;
  let project_id := nth 0 rows 0 in
  bind_integer timestamp ;;;
  execute (insert_or_ignore_version project_id version_name timestamp) ;;;
  rows <- query (select_version_ids project_id version_name) ;;
  py_assert (length rows =? 1)%nat ;;;
  let version_id := nth 0 rows 0 in
  try_except
    (execute (insert_file version_id file_name sha256) ;;;
     execute_commit)
    is_integrity_error
    (execute_rollback ;;;
     raise (DatabaseException "Unable to create file")).

Definition retrieve_file_sha256_method
    (project_name version_name file_name : string) : M Database string :=
  validate_name project_name ;;;
  validate_name version_name ;;;
  validate_name file_name ;;;
  rows <- query (select_file_sha256s project_name version_name file_name) ;;
  if negb (length rows =? 1)%nat then
    raise (DatabaseException "File not found")
  else
    ret (nth 0 rows "").

Definition retrieve_projects_method : M Database (list string) :=
  query (fun t => order_by String.leb (map p_name (projects t))).

Definition retrieve_versions_method (project_name : string)
    : M Database (list (string * Z * bool)) :=
  validate_name project_name ;;;
  execute_begin ;;;
  rows <- query (select_project_ids project_name) ;;
  if negb (length rows =? 1)%nat then
    execute_rollback ;;;
    raise (DatabaseException "Project not found")
  else
    let project_id := nth 0 rows 0 in
    rows <- query (select_versions_of_project project_id) ;;
    let versions :=
      map (fun row => (v_name row, v_timestamp row, v_star row)) rows in
    execute_commit ;;;
    ret versions.

Definition retrieve_files_method (project_name version_name : string)
    : M Database (list (string * string)) :=
  validate_name project_name ;;;
  validate_name version_name ;;;
  execute_begin ;;;
  rows <- query (select_version_ids_by_names project_name version_name) ;;
  if negb (length rows =? 1)%nat then
    execute_rollback ;;;
    raise (DatabaseException "Version not found")
  else
    let version_id := nth 0 rows 0 in
    rows <- query (fun t =>
      order_by (fun a b => String.leb (f_name a) (f_name b))
        (List.filter (fun f => f_version_id f =? version_id) (files t))) ;;
    let files := map (fun row => (f_name row, f_sha256 row)) rows in
    execute_commit ;;;
    ret files.

Definition retrieve_sha256s_method : M Database (list string) :=
  query (fun t => distinct (map f_sha256 (files t))).

Definition update_star_method (project_name version_name : string)
    (star : pyvalue) : M Database unit :=
  validate_name project_name ;;;
  validate_name version_name ;;;
  star <- validate_star star ;;
  execute_begin ;;;
  rows <- query (select_version_ids_by_names project_name version_name) ;;
  if negb (length rows =? 1)%nat then
    execute_rollback ;;;
    raise (DatabaseException "Version not found")
  else
    let version_id := nth 0 rows 0 in
    execute (fun t => (Ok tt, update_version_star star version_id t)) ;;;
    execute_commit.

Definition delete_obsolete_versions_method (age now : Z)
    : M Database unit :=
  let timestamp := now - age in
  bind_integer timestamp ;;;
  execute (fun t => (Ok tt, delete_versions_where_obsolete timestamp t)).

(** *** The public, decorated methods. [now] is [int(time.time())]. *)

Definition create_file (project_name version_name file_name sha256 : string)
    (age now : Z) : M Database unit :=
  database_context_manager
    (create_file_method project_name version_name file_name sha256 age now).

Definition retrieve_file_sha256 (project_name version_name file_name : string)
    : M Database string :=
  database_context_manager
    (retrieve_file_sha256_method project_name version_name file_name).

Definition retrieve_projects : M Database (list string) :=
  database_context_manager retrieve_projects_method.

Definition retrieve_versions (project_name : string)
    : M Database (list (string * Z * bool)) :=
  database_context_manager (retrieve_versions_method project_name).

Definition retrieve_files (project_name version_name : string)
    : M Database (list (string * string)) :=
  database_context_manager (retrieve_files_method project_name version_name).

Definition retrieve_sha256s : M Database (list string) :=
  database_context_manager retrieve_sha256s_method.

Definition update_star (project_name version_name : string) (star : pyvalue)
    : M Database unit :=
  database_context_manager
    (update_star_method project_name version_name star).

Definition delete_obsolete_versions (age now : Z) : M Database unit :=
  database_context_manager (delete_obsolete_versions_method age now).

End Database.

(** ** engine.py: the datastore and the database combined *)

Module Engine.

Local Open Scope Z_scope.
Local Open Scope monad_scope.

Record Engine : Type := {
  datastore : Datastore.directory;
  database : Database.Database;
  obsolete_age : Z }.

(** A call on [self.datastore]. *)
Definition on_datastore {A : Type} (m : M Datastore.directory A)
    : M Engine A :=
  fun self =>
    let (r, d) := m (datastore self) in
    (r, {| datastore := d; database := database self;
           obsolete_age := obsolete_age self |}).

(** A call on [self.database]. *)
Definition on_database {A : Type} (m : M Database.Database A)
    : M Engine A :=
  fun self =>
    let (r, db) := m (database self) in
    (r, {| datastore := datastore self; database := db;
           obsolete_age := obsolete_age self |}).

(** Uploads a file. [suffix], [wtime] and [now_blob] are what
    [create_blob] draws from [uuid4], the file system clock and
    [time.time()]; [now_file] is the [time.time()] of [create_file]. *)
Definition upload (project_name version_name file_name : string)
    (stream : Datastore.Stream) (age : Z)
    (suffix : string) (wtime : Q) (now_blob now_file : Z) : M Engine unit :=
  r <- on_datastore (Datastore.create_blob stream age suffix wtime now_blob) ;;
  let sha256 := fst r in
  on_database
    (Database.create_file project_name version_name file_name sha256
       age now_file).

(** Downloads a file. *)
Definition download (project_name version_name file_name : string)
    : M Engine Datastore.Stream :=
  sha256 <- on_database
    (Database.retrieve_file_sha256 project_name version_name file_name) ;;
  stream <- on_datastore (Datastore.retrieve_blob sha256) ;;
  ret stream.

(** Stars a version. *)
Definition star_version (project_name version_name : string)
    : M Engine unit :=
  on_database (Database.update_star project_name version_name (PyBool true)).

(** Unstars a version. *)
Definition unstar_version (project_name version_name : string)
    : M Engine unit :=
  on_database (Database.update_star project_name version_name (PyBool false)).

(** Cleans up the obsolete database versions and the unreferenced
    datastore blobs. [now_versions] and [now_blobs] are the clock
    readings of the first and of the last step. *)
Definition cleanup (now_versions now_blobs : Z) : M Engine unit :=
  self <- get ;;
  on_database
    (Database.delete_obsolete_versions (obsolete_age self) now_versions) ;;;
  sha256s <- on_database Database.retrieve_sha256s ;;
  on_datastore (Datastore.delete_unreferenced_blobs sha256s now_blobs).

(** Lists all the projects. *)
Definition list_projects : M Engine (list string) :=
  on_database Database.retrieve_projects.

(** Lists all the files for a version. *)
Definition list_files (project_name version_name : string)
    : M Engine (list (string * string)) :=
  on_database (Database.retrieve_files project_name version_name).

(** [str(n)] for an [int]. *)
Definition str (n : Z) : string := NilZero.string_of_int (Z.to_int n).

Definition format_unit (expiry : Z) (unit : string) : string :=
  let plural := if expiry >? 1 then "s" else "" in
  (str expiry ++ " " ++ unit ++ plural)%string.

Definition format_approximate (expiry : Z) : string :=
  if expiry >=? 60 then
    let expiry := (expiry + 30) / 60 in
    if expiry >=? 60 then
      let expiry := (expiry + 30) / 60 in
      if expiry >=? 24 then
        let expiry := (expiry + 12) / 24 in
        format_unit expiry "day"
      else format_unit expiry "hour"
    else format_unit expiry "minute"
  else format_unit expiry "second".

(** Formats nicely the time until expiry. *)
Definition format_expiry (expiry : Z) : string :=
  if expiry <=? 0 then "expired"
  else ("expires in " ++ format_approximate expiry)%string.


(** The formatter as section 4.5 of the specification words it: the
    cascade with its cut-offs, singular exactly at a count of one. *)
Definition spec_unit (s : Z) (unit : string) : string :=
  (str s ++ " " ++ unit ++ (if (s =? 1)%Z then "" else "s"))%string.

Definition spec_format_expiry (seconds : Z) : string :=
  if seconds <=? 0 then "expired"
  else
    ("expires in " ++
     (if (seconds <? 60)%Z then spec_unit seconds "second"
      else
        let s := ((seconds + 30) / 60)%Z in
        if (s <? 60)%Z then spec_unit s "minute"
        else
          let s := ((s + 30) / 60)%Z in
          if (s <? 24)%Z then spec_unit s "hour"
          else
            let s := ((s + 12) / 24)%Z in
            spec_unit s "day"))%string.

End Engine.

(** ** Predicates used in the statements *)

(** An entry the blob scan removes: not modified within the last 60
    seconds and not named by the live hashes. *)
Definition unreferenced_and_old (now : Z) (sha256s : list string)
    (file_name : string) (f : Datastore.File) : bool :=
  negb (Datastore.Qgtb (Datastore.mtime f) (inject_Z (now - 60)))
  && negb (str_in file_name sha256s).

(** What [validate_name] and [validate_sha256] let through. *)
Definition valid_name (name : string) : bool :=
  negb (String.eqb name "." || String.eqb name "..")
  && name_regex_search name.

(** The unique constraints, the version key and the foreign keys of
    the schema. SQLite maintains them: [reachable_well_formed]. *)
Record well_formed (t : Database.Tables) : Prop := {
  unique_project :
    NoDup (map Database.p_name (Database.projects t));
  unique_version :
    NoDup (map (fun v => (Database.v_project_id v, Database.v_name v))
               (Database.versions t));
  unique_file :
    NoDup (map (fun f => (Database.f_version_id f, Database.f_name f))
               (Database.files t));
  version_key : NoDup (map Database.v_id (Database.versions t));
  version_project :
    Forall (fun v => In (Database.v_project_id v)
                        (map Database.p_id (Database.projects t)))
           (Database.versions t);
  file_version :
    Forall (fun f => In (Database.f_version_id f)
                        (map Database.v_id (Database.versions t)))
           (Database.files t) }.

(** The statements [create_file] runs between BEGIN and COMMIT. *)
Definition create_file_statements (project_name version_name file_name
    sha256 : string) (timestamp : Z) (t : Database.Tables)
    : result unit * Database.Tables :=
  let t1 := Database.insert_or_ignore_project project_name t in
  let project_id := nth 0 (Database.select_project_ids project_name t1) 0 in
  let t2 := snd (Database.insert_or_ignore_version
                   project_id version_name timestamp t1) in
  let version_id :=
    nth 0 (Database.select_version_ids project_id version_name t2) 0 in
  Database.insert_file version_id file_name sha256 t2.

(** Some character of the string is outside [[0-9a-zA-Z_.-]]. *)
Definition has_char_outside_class (s : string) : bool :=
  existsb (fun c => negb (name_class c)) (list_ascii_of_string s).

(** The string without one final line feed, if it ends in one. *)
Fixpoint without_final_newline (s : string) : string :=
  match s with
  | EmptyString => EmptyString
  | String c EmptyString =>
      if Ascii.eqb c newline then EmptyString else s
  | String c rest => String c (without_final_newline rest)
  end.

(** The names this development proves rejected: the two dot names,
    and the names with a character outside the class somewhere else
    than in one final line feed. *)
Definition rejected_name (s : string) : Prop :=
  s = "." \/ s = ".."
  \/ has_char_outside_class (without_final_newline s) = true.

(** The error kinds of section 7 of the specification, and the kind
    each exception raised by the package falls under by its message. *)
Inductive error_kind : Type :=
| invalid_name
| invalid_sha256
| invalid_star_state
| not_found
| duplicate_file
| internal.

Definition kind_of_message (msg : string) : error_kind :=
  if String.eqb msg "Invalid name" then invalid_name
  else if String.eqb msg "Invalid SHA-256 hash" then invalid_sha256
  else if String.eqb msg "Invalid star state" then invalid_star_state
  else if String.eqb msg "Project not found"
          || String.eqb msg "Version not found"
          || String.eqb msg "File not found"
          || String.eqb msg "Blob not found" then not_found
  else if String.eqb msg "Unable to create file" then duplicate_file
  else internal.

Definition error_kind_of (e : exn) : error_kind :=
  match e with
  | DatabaseException msg => kind_of_message msg
  | DatastoreException msg => kind_of_message msg
  | _ => internal
  end.

(** ** Concrete states used by the examples *)

(** A new, empty database file with no connection open. *)
Definition new_database : Database.Database :=
  {| Database.tables := Database.empty_tables;
     Database.connection := None |}.

(** The engine after [create()], with the default obsolete age. *)
Definition new_engine : Engine.Engine :=
  {| Engine.datastore := ∅;
     Engine.database := new_database;
     Engine.obsolete_age := 30 * 24 * 60 * 60 |}.

Definition foo : bytes := bytes_of_string "foo".

(** The sample hashes of the test suite. *)
Definition SHA256_FOO : string :=
  "2c26b46b68ffc68ff99b453c1d30413413422d706483bfa0f98a5e886266e7ae".
Definition SHA256_EMPTY : string :=
  "e3b0c44298fc1c149afbf4c8996fb92427ae41e4649b934ca495991b7852b855".
Definition SHA256_TEST1 : string :=
  "e6f96beba7edddcbe06e2b526419ab151300fc271ee13f42eb11ee45f74dd152".
Definition SHA256_TEST2 : string :=
  "245a80eeee4c1c2b2cc7e6b921c7a71c36c39a22bbd8ef5613fe414b0c9f74a4".

(** A value [uuid.uuid4().hex] can return. *)
Definition sample_suffix : string := "0123456789abcdef0123456789abcdef".

(** The new engine after one upload of the bytes [foo]. *)
Definition engine_with_foo : Engine.Engine :=
  snd (Engine.upload "ProjectX" "1.0" "fileA" (Datastore.BytesIO foo)
         0 sample_suffix (inject_Z 1000) 1000 1000 new_engine).

(** The index after the first two calls of the duplicate scenario. *)
Definition database_fileA : Database.Database :=
  snd (Database.create_file "ProjectX" "1.0" "fileA" SHA256_TEST1
         0 1000 new_database).
Definition database_fileAB : Database.Database :=
  snd (Database.create_file "ProjectX" "1.0" "fileB" SHA256_TEST2
         0 1000 database_fileA).

(** The index of the obsolete-cleanup scenario: two projects with a
    60-second-old and a 20-second-old version each, the versions of the
    first project starred. *)
Definition database_two_projects : Database.Database :=
  let run {A : Type} (m : M Database.Database A) (db : Database.Database) :=
    snd (m db) in
  run (Database.update_star "ProjectX" "2.0" (PyBool true))
    (run (Database.update_star "ProjectX" "1.0" (PyBool true))
      (run (Database.create_file "ProjectY" "2.0" "fileA" SHA256_TEST1 20 1000)
        (run (Database.create_file "ProjectY" "1.0" "fileA" SHA256_TEST1
                60 1000)
          (run (Database.create_file "ProjectX" "2.0" "fileA" SHA256_TEST1
                  20 1000)
            (run (Database.create_file "ProjectX" "1.0" "fileA" SHA256_TEST1
                    60 1000)
               new_database))))).

(** Directories of the scan examples: two blobs written 120 seconds
    before time 1000, and the same directory after another process has
    removed the first listed one. *)
Definition old_blob (b : bytes) : Datastore.File :=
  {| Datastore.content := b; Datastore.mtime := inject_Z (1000 - 120) |}.
Definition directory_two_blobs : Datastore.directory :=
  <[SHA256_FOO := old_blob foo]> (<[SHA256_EMPTY := old_blob []]> ∅).
Definition directory_one_vanished : Datastore.directory :=
  <[SHA256_FOO := old_blob foo]> ∅.

(** The directory left when [create_blob] is killed after writing its
    temporary file, and the name of that file. *)
Definition directory_interrupted : Datastore.directory :=
  snd (Datastore.create_blob_temp (Datastore.BytesIO foo) sample_suffix
         (inject_Z 1000) ∅).
Definition interrupted_temp_name : string :=
  (SHA256_FOO ++ "-" ++ sample_suffix)%string.

(** The engine after the upload of [foo], with the blob removed from
    the data directory behind the engine's back. *)
Definition engine_blob_removed : Engine.Engine :=
  {| Engine.datastore := ∅;
     Engine.database := Engine.database engine_with_foo;
     Engine.obsolete_age := Engine.obsolete_age engine_with_foo |}.

(** The states of the [Database] object that calls of its public
    methods can produce from a new database. *)
Inductive reachable : Database.Database -> Prop :=
| reachable_new : reachable new_database
| reachable_create_file db a b c sha256 age now :
    reachable db ->
    reachable (snd (Database.create_file a b c sha256 age now db))
| reachable_retrieve_file_sha256 db a b c :
    reachable db ->
    reachable (snd (Database.retrieve_file_sha256 a b c db))
| reachable_retrieve_projects db :
    reachable db -> reachable (snd (Database.retrieve_projects db))
| reachable_retrieve_versions db a :
    reachable db -> reachable (snd (Database.retrieve_versions a db))
| reachable_retrieve_files db a b :
    reachable db -> reachable (snd (Database.retrieve_files a b db))
| reachable_retrieve_sha256s db :
    reachable db -> reachable (snd (Database.retrieve_sha256s db))
| reachable_update_star db a b star :
    reachable db -> reachable (snd (Database.update_star a b star db))
| reachable_delete_obsolete_versions db age now :
    reachable db ->
    reachable (snd (Database.delete_obsolete_versions age now db)).

(** * Proofs *)

Lemma int64_iff (n : Z) :
  int64 n = true <-> (- 2 ^ 63 <= n < 2 ^ 63)%Z.
Proof.
  unfold int64. rewrite andb_true_iff, Z.leb_le, Z.ltb_lt. reflexivity.
Qed.

Lemma int64_false (n : Z) :
  int64 n = false <-> (n < - 2 ^ 63 \/ 2 ^ 63 <= n)%Z.
Proof.
  unfold int64. rewrite andb_false_iff, Z.leb_gt, Z.ltb_ge. reflexivity.
Qed.

(** ** The expiry formatter *)

Section FormatExpiry.

Import Engine.
Local Open Scope Z_scope.

Lemma format_unit_spec_unit (count : Z) (unit : string) :
  1 <= count -> format_unit count unit = spec_unit count unit.
Proof.
  intros Hpos. unfold format_unit, spec_unit.
  destruct (Z.gtb_spec count 1) as [Hgt | Hle];
    destruct (Z.eqb_spec count 1) as [Heq | Hne];
    try reflexivity; lia.
Qed.

Lemma round_half_up_pos (count half unit_size : Z) :
  0 < unit_size -> 0 <= half -> unit_size <= count ->
  1 <= (count + half) / unit_size.
Proof.
  intros Hu Hh Hc.
  apply (Z.div_le_lower_bound (count + half) unit_size 1); lia.
Qed.

Lemma format_expiry_refines (seconds : Z) :
  format_expiry seconds = spec_format_expiry seconds.
Proof.
  unfold format_expiry, spec_format_expiry, format_approximate.
  destruct (Z.leb_spec seconds 0) as [Hle | Hpos]; [reflexivity |].
  f_equal.
  destruct (Z.geb_spec seconds 60) as [H1 | H1];
    destruct (Z.ltb_spec seconds 60) as [H1' | H1']; try lia.
  2: { apply format_unit_spec_unit. lia. }
  cbv zeta.
  assert (1 <= (seconds + 30) / 60) by (apply round_half_up_pos; lia).
  destruct (Z.geb_spec ((seconds + 30) / 60) 60) as [H2 | H2];
    destruct (Z.ltb_spec ((seconds + 30) / 60) 60) as [H2' | H2']; try lia.
  2: { apply format_unit_spec_unit. lia. }
  assert (1 <= ((seconds + 30) / 60 + 30) / 60)
    by (apply round_half_up_pos; lia).
  destruct (Z.geb_spec (((seconds + 30) / 60 + 30) / 60) 24) as [H3 | H3];
    destruct (Z.ltb_spec (((seconds + 30) / 60 + 30) / 60) 24) as [H3' | H3'];
    try lia.
  2: { apply format_unit_spec_unit. lia. }
  apply format_unit_spec_unit. apply round_half_up_pos; lia.
Qed.

End FormatExpiry.

(** C9. [format_expiry] is total on the integers, answers "expired"
    for every count that is zero or negative, agrees everywhere with the
    round-half-up cascade of the specification (cut-offs 60, 60, 24,
    offsets 30, 30, 12, singular exactly at one), and returns the strings
    pinned by the test suite. *)
Theorem format_expiry_contract :
  (forall n : nat, Engine.format_expiry (- Z.of_nat n) = "expired")
  /\ (forall seconds : Z,
        Engine.format_expiry seconds = Engine.spec_format_expiry seconds)
  /\ Engine.format_expiry (-5) = "expired"
  /\ Engine.format_expiry 0 = "expired"
  /\ Engine.format_expiry 1 = "expires in 1 second"
  /\ Engine.format_expiry 55 = "expires in 55 seconds"
  /\ Engine.format_expiry 60 = "expires in 1 minute"
  /\ Engine.format_expiry 65 = "expires in 1 minute"
  /\ Engine.format_expiry 115 = "expires in 2 minutes"
  /\ Engine.format_expiry 3300 = "expires in 55 minutes"
  /\ Engine.format_expiry 3600 = "expires in 1 hour"
  /\ Engine.format_expiry 72000 = "expires in 20 hours"
  /\ Engine.format_expiry 86400 = "expires in 1 day"
  /\ Engine.format_expiry 172800 = "expires in 2 days".
Proof.
  split.
  { intros n. unfold Engine.format_expiry.
    destruct (Z.leb_spec (- Z.of_nat n) 0); [reflexivity | lia]. }
  split; [exact format_expiry_refines |].
  repeat split; vm_compute; reflexivity.
Qed.

(** ** Streams and hashing *)

Section Streams.

Import Datastore.

Lemma slice_to_take {A : Type} (n : N) (l : list A) :
  slice_to n l = take (N.to_nat n) l.
Proof.
  revert n. induction l as [| x l IH]; intros n.
  - destruct (N.to_nat n); reflexivity.
  - cbn [slice_to]. destruct (N.eqb_spec n 0) as [-> | Hn]; [reflexivity |].
    rewrite IH.
    replace (N.to_nat n) with (S (N.to_nat (N.pred n))) by lia.
    reflexivity.
Qed.

Lemma iter_read_enough_fuel (n : N) (fuel : nat) (s : Stream) :
  (0 < n)%N ->
  (length (data s) - pos s < fuel)%nat ->
  exists buffers s',
    iter_read fuel n s = Some (buffers, s')
    /\ concat buffers = drop (pos s) (data s)
    /\ data s' = data s.
Proof.
  intros Hn. revert s.
  induction fuel as [| fuel IH]; intros s Hfuel; [lia |].
  cbn [iter_read]. unfold read. rewrite slice_to_take.
  set (k := N.to_nat n).
  assert (Hk : (0 < k)%nat) by (subst k; lia).
  remember (drop (pos s) (data s)) as remaining eqn:Hrem.
  assert (Hlen : length remaining = (length (data s) - pos s)%nat)
    by (subst remaining; apply length_drop).
  destruct (take k remaining) as [| b buffer] eqn:Htake.
  - eexists [], _. split; [reflexivity |]. split; [| reflexivity].
    destruct remaining as [| x remaining]; [reflexivity |].
    destruct k; [lia | discriminate].
  - set (s1 := {| data := data s;
                  pos := (pos s + length (b :: buffer))%nat |}).
    assert (Hb : length (b :: buffer) = Nat.min k (length remaining))
      by (rewrite <- Htake; apply length_take).
    destruct (IH s1) as (buffers & s' & Hiter & Hcat & Hdata).
    { cbn [data pos s1]. cbn [length] in Hb |- *. lia. }
    rewrite Hiter. eexists (_ :: buffers), s'.
    split; [reflexivity |]. split; [| exact Hdata].
    cbn [concat]. rewrite Hcat. cbn [data pos s1].
    rewrite <- drop_drop, <- Hrem, Hb, <- Htake.
    replace (drop (Nat.min k (length remaining)) remaining)
      with (drop k remaining).
    + apply take_drop.
    + destruct (Nat.le_ge_cases k (length remaining)) as [Hle | Hge].
      * rewrite Nat.min_l by exact Hle. reflexivity.
      * rewrite Nat.min_r by exact Hge.
        rewrite !drop_ge by lia. reflexivity.
Qed.

Lemma BUFFER_SIZE_pos : (0 < BUFFER_SIZE)%N.
Proof. reflexivity. Qed.

(** The read loop ends and yields the rest of the stream. *)
Lemma read_buffers_spec (s : Stream) :
  exists buffers s',
    read_buffers s = (buffers, s')
    /\ concat buffers = drop (pos s) (data s)
    /\ data s' = data s.
Proof.
  unfold read_buffers.
  destruct (iter_read_enough_fuel BUFFER_SIZE (S (length (data s))) s)
    as (buffers & s' & Hiter & Hcat & Hdata);
    [exact BUFFER_SIZE_pos | lia |].
  rewrite Hiter. eauto.
Qed.

Lemma fold_update_absorbed (buffers : list bytes) (h : hasher) :
  absorbed (fold_left update buffers h) = (absorbed h ++ concat buffers)%list.
Proof.
  revert h. induction buffers as [| b buffers IH]; intros h; cbn.
  - symmetry. apply app_nil_r.
  - rewrite IH. cbn. symmetry. apply app_assoc.
Qed.

(** [sha256_sum] hashes what is left of the stream. *)
Lemma sha256_sum_spec (s : Stream) :
  exists s',
    sha256_sum s = (hexlify (SHA256.digest (drop (pos s) (data s))), s')
    /\ data s' = data s.
Proof.
  unfold sha256_sum.
  destruct (read_buffers_spec s) as (buffers & s' & Hread & Hcat & Hdata).
  rewrite Hread. exists s'. split; [| exact Hdata].
  unfold digest. rewrite fold_update_absorbed, Hcat. reflexivity.
Qed.

(** The two hashes pinned by the test suite. *)
Lemma sha256_sum_test_vectors :
  fst (sha256_sum (BytesIO foo)) = SHA256_FOO
  /\ fst (sha256_sum (BytesIO [])) = SHA256_EMPTY.
Proof. split; vm_compute; reflexivity. Qed.

Lemma digest_length (msg : bytes) : length (SHA256.digest msg) = 32%nat.
Proof.
  unfold SHA256.digest.
  generalize (SHA256.blocks
    (length (SHA256.words_of (SHA256.pad msg)) `div` 16)
    (SHA256.words_of (SHA256.pad msg)) SHA256.H0).
  intros s. reflexivity.
Qed.

Lemma hex_digits_of_byte (b : byte) :
  hex_class (hex_digit (SHA256.byte_val b / 16)) = true
  /\ hex_class (hex_digit (SHA256.byte_val b mod 16)) = true.
Proof. destruct b; split; reflexivity. Qed.

Lemma hexlify_length (bs : bytes) :
  String.length (hexlify bs) = (2 * length bs)%nat.
Proof.
  induction bs as [| b bs IH]; [reflexivity |].
  cbn [hexlify String.length length]. rewrite IH. lia.
Qed.

Lemma hexlify_repeat_dollar (bs : bytes) :
  repeat_dollar hex_class (2 * length bs) (hexlify bs) = true.
Proof.
  induction bs as [| b bs IH]; [reflexivity |].
  replace (2 * length (b :: bs))%nat with (S (S (2 * length bs)))
    by (cbn [length]; lia).
  cbn [hexlify repeat_dollar].
  destruct (hex_digits_of_byte b) as [-> ->]. exact IH.
Qed.

(** A hex digest always passes [validate_sha256]. *)
Lemma hexdigest_valid (msg : bytes) :
  sha256_regex_search (hexlify (SHA256.digest msg)) = true.
Proof.
  unfold sha256_regex_search.
  pose proof (hexlify_repeat_dollar (SHA256.digest msg)) as H.
  rewrite digest_length in H. exact H.
Qed.

Lemma repeat_dollar_dash (cls : ascii -> bool) (s rest : string) :
  repeat_dollar cls (String.length s) (s ++ String "-" rest) = false.
Proof.
  induction s as [| c s IH].
  - cbn. destruct rest; reflexivity.
  - simpl. rewrite IH. apply andb_false_r.
Qed.

(** The name of a temporary file never passes for a hash. *)
Lemma temp_name_not_hash (msg : bytes) (suffix : string) :
  sha256_regex_search (hexlify (SHA256.digest msg) ++ "-" ++ suffix) = false.
Proof.
  unfold sha256_regex_search.
  pose proof (repeat_dollar_dash hex_class
                (hexlify (SHA256.digest msg)) suffix) as H.
  rewrite hexlify_length, digest_length in H. exact H.
Qed.

End Streams.

(** ** The data directory *)

Section Directory.

Import Datastore.
Local Open Scope monad_scope.

Implicit Types (d : directory) (f : File).

Lemma Qgtb_true (a b : Q) : Qgtb a b = true <-> (b < a)%Q.
Proof.
  unfold Qgtb. rewrite negb_true_iff.
  split.
  - intros H. apply Qnot_le_lt. intros Hle.
    apply Qle_bool_iff in Hle. congruence.
  - intros H. destruct (Qle_bool a b) eqn:E; [| reflexivity].
    apply Qle_bool_iff in E. exfalso. exact (Qlt_not_le _ _ H E).
Qed.

Lemma Qgtb_false (a b : Q) : Qgtb a b = false <-> (a <= b)%Q.
Proof.
  unfold Qgtb. rewrite negb_false_iff. apply Qle_bool_iff.
Qed.

Lemma str_in_In (x : string) (xs : list string) :
  str_in x xs = true <-> In x xs.
Proof.
  unfold str_in. rewrite existsb_exists. split.
  - intros (y & Hy & Heq). apply String.eqb_eq in Heq. subst. exact Hy.
  - intros H. exists x. split; [exact H | apply String.eqb_refl].
Qed.

Lemma write_all_spec (path : string) (wtime : Q) (buffers : list bytes)
    d (c : bytes) :
  d !! path = Some {| content := c; mtime := wtime |} ->
  write_all path wtime buffers d =
    (Ok tt, <[path := {| content := (c ++ concat buffers)%list;
                         mtime := wtime |}]> d).
Proof.
  revert d c. induction buffers as [| b buffers IH]; intros d c Hd.
  - cbn. rewrite app_nil_r. rewrite insert_id by exact Hd. reflexivity.
  - cbn [write_all]. unfold bind, write, modify.
    rewrite (IH _ (c ++ b)%list).
    + f_equal. cbn [concat]. rewrite app_assoc.
      apply map_eq. intros i.
      destruct (decide (path = i)) as [-> | Hne].
      * rewrite !lookup_insert_eq. reflexivity.
      * rewrite !lookup_insert_ne by exact Hne.
        apply lookup_alter_ne. exact Hne.
    + rewrite lookup_alter_eq, Hd. reflexivity.
Qed.

(** The first half of [create_blob] on a fresh stream. *)
Lemma create_blob_temp_spec (b : bytes) (suffix : string) (wtime : Q) d :
  let sha256 := hexlify (SHA256.digest b) in
  let temp := (sha256 ++ "-" ++ suffix)%string in
  d !! temp = None ->
  exists stream',
    create_blob_temp (BytesIO b) suffix wtime d =
      (Ok (sha256, temp, stream'),
       <[temp := {| content := b; mtime := wtime |}]> d).
Proof.
  intros sha256 temp Hfree. unfold create_blob_temp.
  destruct (sha256_sum_spec (BytesIO b)) as (s1 & Hsum & Hdata1).
  change (drop (pos (BytesIO b)) (data (BytesIO b))) with b in Hsum.
  change (data (BytesIO b)) with b in Hdata1.
  rewrite Hsum. fold sha256. fold temp.
  unfold bind at 1. unfold open_x. rewrite Hfree.
  destruct (read_buffers_spec (seek 0 s1))
    as (buffers & s3 & Hread & Hcat & Hdata3).
  change (drop (pos (seek 0 s1)) (data (seek 0 s1))) with (data s1) in Hcat.
  rewrite Hdata1 in Hcat. rewrite Hread.
  unfold bind.
  erewrite write_all_spec by apply lookup_insert_eq.
  exists s3. unfold ret. rewrite insert_insert_eq. cbn [app].
  rewrite Hcat. reflexivity.
Qed.

Lemma create_blob_temp_exists (stream : Stream) (suffix : string)
    (wtime : Q) d :
  is_Some (d !! (fst (sha256_sum stream) ++ "-" ++ suffix)%string) ->
  create_blob_temp stream suffix wtime d = (Raise FileExistsError, d).
Proof.
  intros [f Hf]. unfold create_blob_temp.
  destruct (sha256_sum stream) as [sha256 s1]. cbn [fst] in Hf.
  unfold bind at 1. unfold open_x. rewrite Hf. reflexivity.
Qed.

(** [create_blob] on a fresh stream: the blob appears under its hash,
    with the bytes of the stream and the fixed timestamp. *)
Lemma create_blob_spec (b : bytes) (age : Z) (suffix : string)
    (wtime : Q) (now : Z) d :
  let sha256 := hexlify (SHA256.digest b) in
  int64 (now - age) = true ->
  d !! (sha256 ++ "-" ++ suffix)%string = None ->
  exists stream',
    create_blob (BytesIO b) age suffix wtime now d =
      (Ok (sha256, stream'),
       <[sha256 := {| content := b; mtime := inject_Z (now - age) |}]> d).
Proof.
  intros sha256 Hrange Hfree. unfold create_blob.
  destruct (create_blob_temp_spec b suffix wtime d Hfree) as (s' & Htemp).
  unfold bind at 1. rewrite Htemp. fold sha256.
  unfold create_blob_publish, bind, utime, replace, ret.
  rewrite Hrange. cbn [negb].
  rewrite lookup_insert_eq. cbn [content].
  rewrite lookup_insert_eq.
  exists s'. f_equal.
  rewrite insert_insert_eq, delete_insert_eq.
  rewrite delete_id by exact Hfree. reflexivity.
Qed.

(** A timestamp outside the 64-bit range stops [create_blob] at
    [os.utime]: the temporary file has been written and stays. *)
Lemma create_blob_overflow (b : bytes) (age : Z) (suffix : string)
    (wtime : Q) (now : Z) d :
  let temp := (hexlify (SHA256.digest b) ++ "-" ++ suffix)%string in
  int64 (now - age) = false ->
  d !! temp = None ->
  create_blob (BytesIO b) age suffix wtime now d =
    (Raise OverflowError,
     <[temp := {| content := b; mtime := wtime |}]> d).
Proof.
  intros temp Hrange Hfree. unfold create_blob.
  destruct (create_blob_temp_spec b suffix wtime d Hfree) as (s' & Htemp).
  unfold bind at 1. rewrite Htemp.
  unfold create_blob_publish, bind, utime. rewrite Hrange. reflexivity.
Qed.

Lemma retrieve_blob_found (sha256 : string) d f :
  sha256_regex_search sha256 = true ->
  d !! sha256 = Some f ->
  retrieve_blob sha256 d = (Ok (BytesIO (content f)), d).
Proof.
  intros Hvalid Hf. unfold retrieve_blob, bind, validate_sha256.
  rewrite Hvalid. unfold ret. rewrite Hf. reflexivity.
Qed.

Lemma retrieve_blob_missing (sha256 : string) d :
  sha256_regex_search sha256 = true ->
  d !! sha256 = None ->
  retrieve_blob sha256 d = (Raise (DatastoreException "Blob not found"), d).
Proof.
  intros Hvalid Hf. unfold retrieve_blob, bind, validate_sha256.
  rewrite Hvalid. unfold ret. rewrite Hf. reflexivity.
Qed.

(** The scan over names that are all present and listed once. *)
Lemma scan_spec (now : Z) (sha256s names : list string) d :
  NoDup names ->
  (forall name, name ∈ names -> is_Some (d !! name)) ->
  exists d',
    scan now sha256s names d = (Ok tt, d')
    /\ forall name,
         d' !! name =
           match d !! name with
           | Some f =>
               if bool_decide (name ∈ names)
                  && unreferenced_and_old now sha256s name f
               then None else Some f
           | None => None
           end.
Proof.
  intros Hnodup. revert d.
  induction Hnodup as [| n names Hnotin Hnodup IH]; intros d Hall.
  - exists d. split; [reflexivity |]. intros name.
    destruct (d !! name); reflexivity.
  - destruct (Hall n) as [f Hf]; [left |].
    cbn [scan]. unfold bind at 1. unfold stat. rewrite Hf.
    assert (Hstep : forall d0 : directory,
      (d0 = d \/ (d0 = delete n d
                  /\ unreferenced_and_old now sha256s n f = true)) ->
      (d0 = d -> unreferenced_and_old now sha256s n f = false) ->
      exists d', scan now sha256s names d0 = (Ok tt, d')
        /\ forall name,
             d' !! name =
               match d !! name with
               | Some f0 =>
                   if bool_decide (name ∈ n :: names)
                      && unreferenced_and_old now sha256s name f0
                   then None else Some f0
               | None => None
               end).
    { intros d0 Hd0 Hkeep.
      destruct (IH d0) as (d' & Hscan & Hlook).
      { intros name Hin.
        destruct Hd0 as [-> | [-> _]].
        - apply Hall. right. exact Hin.
        - rewrite lookup_delete_ne by (intros ->; contradiction).
          apply Hall. right. exact Hin. }
      exists d'. split; [exact Hscan |].
      intros name. rewrite Hlook.
      destruct (decide (name = n)) as [-> | Hne].
      - rewrite (bool_decide_eq_false_2 (n ∈ names)) by exact Hnotin.
        rewrite (bool_decide_eq_true_2 (n ∈ n :: names)) by left.
        rewrite Hf. cbn [andb].
        destruct Hd0 as [-> | [-> Hdoomed]].
        + rewrite Hf, (Hkeep eq_refl). reflexivity.
        + rewrite lookup_delete_eq, Hdoomed. reflexivity.
      - assert (Hd0n : d0 !! name = d !! name).
        { destruct Hd0 as [-> | [-> _]]; [reflexivity |].
          apply lookup_delete_ne. congruence. }
        rewrite Hd0n.
        destruct (d !! name) as [f0 |]; [| reflexivity].
        destruct (decide (name ∈ names)) as [Hin | Hnin].
        + rewrite !bool_decide_eq_true_2; [reflexivity | right | ]; exact Hin.
        + rewrite !bool_decide_eq_false_2; [reflexivity | | exact Hnin].
          intros [? | ?]%elem_of_cons; contradiction. }
    unfold unreferenced_and_old in Hstep at 1 2.
    destruct (Qgtb (mtime f) (inject_Z (now - 60))) eqn:Hrecent.
    + apply Hstep; [left; reflexivity | reflexivity].
    + cbn [negb andb] in Hstep.
      destruct (negb (str_in n sha256s)) eqn:Hunref.
      * unfold bind, unlink. rewrite Hf.
        apply Hstep; [right; split; reflexivity |].
        intros Heq. exfalso.
        assert (Hdel : delete n d !! n = d !! n) by (rewrite Heq; reflexivity).
        rewrite lookup_delete_eq, Hf in Hdel. discriminate.
      * apply Hstep; [left; reflexivity | reflexivity].
Qed.

Lemma listdir_elem_of d (name : string) :
  name ∈ listdir d <-> is_Some (d !! name).
Proof.
  unfold listdir. rewrite list_elem_of_fmap. split.
  - intros ([k f] & -> & Hin). apply elem_of_map_to_list in Hin.
    cbn. eauto.
  - intros [f Hf]. exists (name, f). split; [reflexivity |].
    apply elem_of_map_to_list. exact Hf.
Qed.

(** Without interference the scan never fails, and it removes exactly
    the old unreferenced entries. *)
Lemma delete_unreferenced_blobs_spec (sha256s : list string) (now : Z) d :
  exists d',
    delete_unreferenced_blobs sha256s now d = (Ok tt, d')
    /\ forall name,
         d' !! name =
           match d !! name with
           | Some f =>
               if unreferenced_and_old now sha256s name f
               then None else Some f
           | None => None
           end.
Proof.
  unfold delete_unreferenced_blobs.
  destruct (scan_spec now sha256s (listdir d) d) as (d' & Hscan & Hlook).
  - apply NoDup_fst_map_to_list.
  - intros name. apply listdir_elem_of.
  - exists d'. split; [exact Hscan |].
    intros name. rewrite Hlook.
    destruct (d !! name) as [f |] eqn:Hf; [| reflexivity].
    rewrite bool_decide_eq_true_2; [reflexivity |].
    apply listdir_elem_of. eauto.
Qed.

End Directory.

(** ** Lists of rows *)

Section Rows.

Context {A K : Type}.
Variable key : A -> K.

Lemma filter_none (test : A -> bool) (l : list A) :
  (forall x, In x l -> test x = false) -> List.filter test l = [].
Proof.
  induction l as [| a l IH]; intros H; [reflexivity |].
  cbn. rewrite (H a) by (left; reflexivity).
  apply IH. intros x Hx. apply H. right. exact Hx.
Qed.

(** A key that identifies its row selects exactly that row. *)
Lemma filter_unique_key (test : A -> bool) (l : list A) (x : A) :
  NoDup (map key l) -> In x l ->
  (forall y, test y = true <-> key y = key x) ->
  List.filter test l = [x].
Proof.
  intros Hnodup Hin Htest.
  induction l as [| a l IH]; [destruct Hin |].
  cbn [map] in Hnodup. apply NoDup_cons in Hnodup as [Hnotin Hnodup].
  rewrite list_elem_of_In in Hnotin.
  cbn [List.filter].
  destruct Hin as [-> | Hin].
  - rewrite (proj2 (Htest x) eq_refl). f_equal.
    apply filter_none. intros y Hy.
    destruct (test y) eqn:E; [| reflexivity].
    exfalso. apply Hnotin. apply Htest in E. rewrite <- E.
    apply in_map. exact Hy.
  - destruct (test a) eqn:E.
    + exfalso. apply Hnotin. apply Htest in E. rewrite E.
      apply in_map. exact Hin.
    + apply IH; assumption.
Qed.

Lemma existsb_false_key (test : A -> bool) (l : list A) (k : K) :
  (forall y, test y = true <-> key y = k) ->
  existsb test l = false -> ~ In k (map key l).
Proof.
  intros Htest Hex Hin.
  apply in_map_iff in Hin as (y & Hy & Hin).
  assert (existsb test l = true); [| congruence].
  apply existsb_exists. exists y. split; [exact Hin |].
  apply Htest. exact Hy.
Qed.

Lemma existsb_true_key (test : A -> bool) (l : list A) (k : K) :
  (forall y, test y = true <-> key y = k) ->
  existsb test l = true -> exists x, In x l /\ key x = k.
Proof.
  intros Htest Hex.
  apply existsb_exists in Hex as (x & Hin & Hx).
  exists x. split; [exact Hin | apply Htest; exact Hx].
Qed.

Lemma NoDup_map_snoc (l : list A) (x : A) :
  NoDup (map key l) -> ~ In (key x) (map key l) ->
  NoDup (map key (l ++ [x])).
Proof.
  intros Hnodup Hnotin. rewrite map_app. cbn [map].
  apply NoDup_app. split; [exact Hnodup |]. split.
  - intros k Hk Hk'. apply list_elem_of_singleton in Hk' as ->.
    apply Hnotin. apply list_elem_of_In. exact Hk.
  - apply NoDup_singleton.
Qed.

Lemma filter_sublist (test : A -> bool) (l : list A) :
  sublist (List.filter test l) l.
Proof.
  induction l as [| a l IH]; [constructor |].
  cbn [List.filter]. destruct (test a); constructor; exact IH.
Qed.

Lemma flat_map_nil {B : Type} (g : A -> list B) (l : list A) :
  (forall y, In y l -> g y = []) -> flat_map g l = [].
Proof.
  induction l as [| a l IH]; intros H; [reflexivity |].
  cbn [flat_map]. rewrite (H a) by (left; reflexivity).
  apply IH. intros y Hy. apply H. right. exact Hy.
Qed.

(** A join step that only the row with the wanted key contributes to. *)
Lemma flat_map_unique_key {B : Type} (g : A -> list B) (l : list A) (x : A) :
  NoDup (map key l) -> In x l ->
  (forall y, In y l -> key y <> key x -> g y = []) ->
  flat_map g l = g x.
Proof.
  intros Hnodup Hin Hother.
  induction l as [| a l IH]; [destruct Hin |].
  cbn [map] in Hnodup. apply NoDup_cons in Hnodup as [Hnotin Hnodup].
  rewrite list_elem_of_In in Hnotin.
  cbn [flat_map].
  destruct Hin as [-> | Hin].
  - rewrite flat_map_nil; [apply app_nil_r |].
    intros y Hy. apply Hother; [right; exact Hy |].
    intros Heq. apply Hnotin. rewrite <- Heq. apply in_map. exact Hy.
  - rewrite (Hother a); [| left; reflexivity |].
    + apply IH; [exact Hnodup | exact Hin |].
      intros y Hy. apply Hother. right. exact Hy.
    + intros Heq. apply Hnotin. rewrite Heq. apply in_map. exact Hin.
Qed.

End Rows.

(** ** The statements of the index *)

Section Statements.

Import Database.
Local Open Scope Z_scope.

Implicit Types (t : Tables) (p : ProjectRow) (v : VersionRow) (f : FileRow).

Lemma project_test (name : string) p :
  String.eqb (p_name p) name = true <-> p_name p = name.
Proof. apply String.eqb_eq. Qed.

Lemma version_test (project_id : Z) (name : string) v :
  (v_project_id v =? project_id) && String.eqb (v_name v) name = true
  <-> (v_project_id v, v_name v) = (project_id, name).
Proof.
  rewrite andb_true_iff, Z.eqb_eq, String.eqb_eq.
  split; [intros [-> ->]; reflexivity | intros [= -> ->]; auto].
Qed.

Lemma file_test (version_id : Z) (name : string) f :
  (f_version_id f =? version_id) && String.eqb (f_name f) name = true
  <-> (f_version_id f, f_name f) = (version_id, name).
Proof.
  rewrite andb_true_iff, Z.eqb_eq, String.eqb_eq.
  split; [intros [-> ->]; reflexivity | intros [= -> ->]; auto].
Qed.

Lemma next_id_fresh (ids : list Z) : ~ In (next_id ids) ids.
Proof.
  assert (Hmax : forall x, In x ids -> x <= fold_right Z.max 0 ids).
  { induction ids as [| a ids IH]; intros x Hx; [destruct Hx |].
    cbn [fold_right]. destruct Hx as [-> | Hx]; [lia |].
    specialize (IH x Hx). lia. }
  intros Hin. apply Hmax in Hin. unfold next_id in Hin. lia.
Qed.

(** The project upsert followed by the project SELECT. *)
Lemma insert_or_ignore_project_spec (name : string) t :
  NoDup (map p_name (projects t)) ->
  let t1 := insert_or_ignore_project name t in
  NoDup (map p_name (projects t1))
  /\ versions t1 = versions t
  /\ files t1 = files t
  /\ incl (projects t) (projects t1)
  /\ exists p, In p (projects t1) /\ p_name p = name
               /\ select_project_ids name t1 = [p_id p].
Proof.
  intros Hnodup t1. subst t1. unfold insert_or_ignore_project.
  destruct (existsb _ (projects t)) eqn:Hex.
  - repeat split; [exact Hnodup | apply incl_refl |].
    apply (existsb_true_key p_name _ _ name (project_test name)) in Hex
      as (p & Hin & Hp).
    exists p. repeat split; [exact Hin | exact Hp |].
    unfold select_project_ids.
    rewrite (filter_unique_key p_name _ _ p Hnodup Hin); [reflexivity |].
    intros y. rewrite Hp. apply project_test.
  - cbn [projects versions files].
    set (p := {| p_id := next_id (map p_id (projects t)); p_name := name |}).
    assert (Hnodup' : NoDup (map p_name (projects t ++ [p]))).
    { apply NoDup_map_snoc; [exact Hnodup |].
      apply (existsb_false_key p_name _ _ name (project_test name) Hex). }
    repeat split; [exact Hnodup' | apply incl_appl, incl_refl |].
    assert (Hin : In p (projects t ++ [p]))
      by (apply in_or_app; right; left; reflexivity).
    exists p. repeat split; [exact Hin |].
    unfold select_project_ids. cbn [projects].
    rewrite (filter_unique_key p_name _ _ p Hnodup' Hin); [reflexivity |].
    intros y. apply project_test.
Qed.

(** The version upsert followed by the version SELECT. *)
Lemma insert_or_ignore_version_spec (project_id : Z) (name : string)
    (timestamp : Z) t :
  NoDup (map (fun v => (v_project_id v, v_name v)) (versions t)) ->
  In project_id (map p_id (projects t)) ->
  exists t2,
    insert_or_ignore_version project_id name timestamp t = (Ok tt, t2)
    /\ projects t2 = projects t
    /\ files t2 = files t
    /\ NoDup (map (fun v => (v_project_id v, v_name v)) (versions t2))
    /\ (versions t2 = versions t
        \/ exists v, versions t2 = (versions t ++ [v])%list
             /\ v_id v = next_id (map v_id (versions t))
             /\ v_project_id v = project_id)
    /\ exists v, In v (versions t2)
         /\ v_project_id v = project_id /\ v_name v = name
         /\ select_version_ids project_id name t2 = [v_id v].
Proof.
  intros Hnodup Hproject. unfold insert_or_ignore_version.
  pose proof (version_test project_id name) as Htest.
  destruct (existsb _ (versions t)) eqn:Hex.
  - exists t. repeat split; [exact Hnodup | left; reflexivity |].
    apply (existsb_true_key (fun v => (v_project_id v, v_name v))
             _ _ (project_id, name) Htest) in Hex as (v & Hin & Hv).
    injection Hv as Hv1 Hv2.
    exists v. repeat split; [exact Hin | exact Hv1 | exact Hv2 |].
    unfold select_version_ids.
    rewrite (filter_unique_key (fun v => (v_project_id v, v_name v))
               _ _ v Hnodup Hin); [reflexivity |].
    intros y. rewrite Hv1, Hv2. apply Htest.
  - assert (Hfk : existsb (fun p => p_id p =? project_id) (projects t) = true).
    { apply existsb_exists. apply in_map_iff in Hproject as (p & Hp & Hin).
      exists p. split; [exact Hin | apply Z.eqb_eq; exact Hp]. }
    rewrite Hfk. cbn [negb].
    set (v := {| v_id := next_id (map v_id (versions t));
                 v_project_id := project_id; v_name := name;
                 v_timestamp := timestamp; v_star := false |}).
    assert (Hnodup' : NoDup (map (fun v => (v_project_id v, v_name v))
                                 (versions t ++ [v]))).
    { apply NoDup_map_snoc; [exact Hnodup |].
      apply (existsb_false_key (fun v => (v_project_id v, v_name v))
               _ _ (project_id, name) Htest Hex). }
    assert (Hin : In v (versions t ++ [v]))
      by (apply in_or_app; right; left; reflexivity).
    eexists. split; [reflexivity |]. cbn [projects versions files].
    repeat split; [exact Hnodup' | right; exists v; auto |].
    exists v. repeat split; [exact Hin |].
    unfold select_version_ids. cbn [versions].
    rewrite (filter_unique_key (fun v => (v_project_id v, v_name v))
               _ _ v Hnodup' Hin); [reflexivity |].
    intros y. apply Htest.
Qed.

(** The file INSERT: refused exactly on a duplicate, when the parent
    version exists. *)
Lemma insert_file_spec (version_id : Z) (name sha256 : string) t :
  In version_id (map v_id (versions t)) ->
  let duplicate :=
    existsb (fun f => (f_version_id f =? version_id)
                      && String.eqb (f_name f) name) (files t) in
  insert_file version_id name sha256 t =
    if duplicate then (Raise IntegrityError, t)
    else (Ok tt,
          {| projects := projects t; versions := versions t;
             files := files t ++
               [{| f_id := next_id (map f_id (files t));
                   f_version_id := version_id; f_name := name;
                   f_sha256 := sha256 |}] |}).
Proof.
  intros Hversion duplicate. subst duplicate. unfold insert_file.
  destruct (existsb _ (files t)); [reflexivity |].
  assert (Hfk : existsb (fun v => v_id v =? version_id) (versions t) = true).
  { apply existsb_exists. apply in_map_iff in Hversion as (v & Hv & Hin).
    exists v. split; [exact Hin | apply Z.eqb_eq; exact Hv]. }
  rewrite Hfk. reflexivity.
Qed.

End Statements.

(** ** Running the methods of the index *)

Section Methods.

Import Database.
Local Open Scope Z_scope.
Local Open Scope monad_scope.

Implicit Types (t : Tables) (db : Database).

Lemma committed_open db : committed (open db) = committed db.
Proof. reflexivity. Qed.

Lemma validate_name_run {S : Type} (name : string) (s : S) :
  validate_name name s =
    if valid_name name then (Ok tt, s)
    else (Raise (DatabaseException "Invalid name"), s).
Proof.
  unfold validate_name, valid_name.
  destruct (String.eqb name "." || String.eqb name ".."); [reflexivity |].
  destruct (name_regex_search name); reflexivity.
Qed.

Lemma validate_sha256_run {S : Type} (sha256 : string) (s : S) :
  Database.validate_sha256 sha256 s =
    if sha256_regex_search sha256 then (Ok tt, s)
    else (Raise (DatabaseException "Invalid SHA-256 hash"), s).
Proof.
  unfold Database.validate_sha256.
  destruct (sha256_regex_search sha256); reflexivity.
Qed.

Lemma bind_ok {S A B : Type} (m : M S A) (k : A -> M S B) (s s' : S) (a : A) :
  m s = (Ok a, s') -> bind m k s = k a s'.
Proof. intros H. unfold bind. rewrite H. reflexivity. Qed.

Lemma bind_raise {S A B : Type} (m : M S A) (k : A -> M S B) (s s' : S)
    (e : exn) :
  m s = (Raise e, s') -> bind m k s = (Raise e, s').
Proof. intros H. unfold bind. rewrite H. reflexivity. Qed.

(** The transaction of [create_file] on well-formed tables: both
    assertions hold and the outcome is that of the file INSERT. *)
Lemma create_file_statements_spec
    (project_name version_name file_name sha256 : string) (timestamp : Z) t :
  well_formed t ->
  exists p v t2,
    let t1 := insert_or_ignore_project project_name t in
    select_project_ids project_name t1 = [p_id p]
    /\ insert_or_ignore_version (p_id p) version_name timestamp t1
       = (Ok tt, t2)
    /\ select_version_ids (p_id p) version_name t2 = [v_id v]
    /\ create_file_statements project_name version_name file_name sha256
         timestamp t = insert_file (v_id v) file_name sha256 t2
    /\ In p (projects t2) /\ p_name p = project_name
    /\ In v (versions t2) /\ v_project_id v = p_id p
    /\ v_name v = version_name
    /\ files t2 = files t
    /\ well_formed t2.
Proof.
  intros Hwf.
  destruct (insert_or_ignore_project_spec project_name t (unique_project t Hwf))
    as (Hnodup1 & Hversions1 & Hfiles1 & Hincl1 & p & Hp & Hpname & Hsel1).
  set (t1 := insert_or_ignore_project project_name t) in *.
  destruct (insert_or_ignore_version_spec (p_id p) version_name timestamp t1)
    as (t2 & Hins2 & Hprojects2 & Hfiles2 & Hnodup2 & Hgrow & v & Hv
        & Hvproject & Hvname & Hsel2).
  { rewrite Hversions1. exact (unique_version t Hwf). }
  { apply in_map. exact Hp. }
  exists p, v, t2. cbn zeta. fold t1.
  split; [exact Hsel1 |]. split; [exact Hins2 |]. split; [exact Hsel2 |].
  split.
  { unfold create_file_statements. fold t1.
    rewrite Hsel1. cbn [nth]. rewrite Hins2. cbn [snd].
    rewrite Hsel2. reflexivity. }
  split; [rewrite Hprojects2; exact Hp |]. split; [exact Hpname |].
  split; [exact Hv |]. split; [exact Hvproject |]. split; [exact Hvname |].
  split; [rewrite Hfiles2; exact Hfiles1 |].
  assert (Hprojects_incl :
    forall x, In x (map p_id (projects t)) -> In x (map p_id (projects t2))).
  { intros x Hx. rewrite Hprojects2.
    apply in_map_iff in Hx as (q & <- & Hq).
    apply in_map. apply Hincl1. exact Hq. }
  constructor.
  - rewrite Hprojects2. exact Hnodup1.
  - exact Hnodup2.
  - rewrite Hfiles2, Hfiles1. exact (unique_file t Hwf).
  - destruct Hgrow as [-> | (v' & -> & Hid & _)].
    + rewrite Hversions1. exact (version_key t Hwf).
    + apply NoDup_map_snoc.
      * rewrite Hversions1. exact (version_key t Hwf).
      * rewrite Hid. apply next_id_fresh.
  - assert (Hold : Forall (fun v0 => In (v_project_id v0)
                                        (map p_id (projects t2)))
                          (versions t1)).
    { rewrite Hversions1.
      eapply Forall_impl; [exact (version_project t Hwf) |].
      intros v0. apply Hprojects_incl. }
    destruct Hgrow as [-> | (v' & -> & _ & Hpid)]; [exact Hold |].
    apply Forall_app. split; [exact Hold |].
    constructor; [| constructor]. rewrite Hpid, Hprojects2.
    apply in_map. exact Hp.
  - rewrite Hfiles2, Hfiles1.
    eapply Forall_impl; [exact (file_version t Hwf) |].
    intros f0 Hf0. cbn beta in Hf0 |- *.
    destruct Hgrow as [-> | (v' & -> & _)].
    + rewrite Hversions1. exact Hf0.
    + rewrite map_app. apply in_or_app. left.
      rewrite Hversions1. exact Hf0.
Qed.

(** A rejected name stops the method before its first statement. *)
Lemma create_file_invalid_name
    (project_name version_name file_name sha256 : string) (age now : Z) db :
  valid_name project_name && valid_name version_name
    && valid_name file_name = false ->
  create_file project_name version_name file_name sha256 age now db =
    (Raise (DatabaseException "Invalid name"), open db).
Proof.
  intros Hinvalid.
  unfold create_file, database_context_manager, create_file_method.
  unfold bind at 1. rewrite validate_name_run.
  destruct (valid_name project_name); [| reflexivity].
  unfold bind at 1. rewrite validate_name_run.
  destruct (valid_name version_name); [| reflexivity].
  unfold bind at 1. rewrite validate_name_run.
  destruct (valid_name file_name); [discriminate | reflexivity].
Qed.

(** [create_file] on a well-formed index. *)
Lemma create_file_run
    (project_name version_name file_name sha256 : string) (age now : Z) db :
  well_formed (committed db) ->
  create_file project_name version_name file_name sha256 age now db =
    if negb (valid_name project_name && valid_name version_name
             && valid_name file_name)
    then (Raise (DatabaseException "Invalid name"), open db)
    else if negb (sha256_regex_search sha256)
    then (Raise (DatabaseException "Invalid SHA-256 hash"), open db)
    else if negb (int64 (now - age))
    then (Raise OverflowError,
          {| tables := insert_or_ignore_project project_name (committed db);
             connection := Some {| journal := Some (committed db) |} |})
    else
      match create_file_statements project_name version_name file_name
              sha256 (now - age) (committed db) with
      | (Ok _, t3) => (Ok tt, {| tables := t3; connection := None |})
      | (Raise _, _) =>
          (Raise (DatabaseException "Unable to create file"), open db)
      end.
Proof.
  intros Hwf.
  destruct (valid_name project_name && valid_name version_name
            && valid_name file_name) eqn:Hnames; cbn [negb].
  2: { apply create_file_invalid_name. exact Hnames. }
  apply andb_true_iff in Hnames as [Hnames Hf].
  apply andb_true_iff in Hnames as [Hp Hv].
  unfold create_file, database_context_manager, create_file_method.
  unfold bind at 1. rewrite validate_name_run, Hp.
  unfold bind at 1. rewrite validate_name_run, Hv.
  unfold bind at 1. rewrite validate_name_run, Hf.
  unfold bind at 1. rewrite validate_sha256_run.
  destruct (sha256_regex_search sha256); cbn [negb]; [| reflexivity].
  destruct (create_file_statements_spec project_name version_name file_name
              sha256 (now - age) (committed db) Hwf)
    as (p & v & t2 & Hsel1 & Hins2 & Hsel2 & Hstmts & Hrest).
  cbn zeta in Hsel1, Hins2.
  rewrite Hstmts.
  assert (Hparent : In (v_id v) (map v_id (versions t2)))
    by (apply in_map; apply Hrest).
  rewrite (insert_file_spec (v_id v) file_name sha256 t2 Hparent).
  change (open db) with
    {| tables := committed db; connection := Some {| journal := None |} |}.
  unfold bind at 1. cbn [execute_begin connection journal tables].
  unfold bind at 1. unfold execute at 1. cbn [connection tables].
  unfold bind at 1. unfold query, execute at 1. cbn [connection tables].
  rewrite Hsel1.
  unfold bind at 1. cbn [length Nat.eqb py_assert ret nth].
  unfold bind at 1. unfold bind_integer.
  destruct (int64 (now - age)); cbn [negb]; [| reflexivity].
  unfold ret at 1.
  unfold bind at 1. unfold execute at 1. cbn [connection tables].
  rewrite Hins2.
  unfold bind at 1. unfold query, execute at 1. cbn [connection tables].
  rewrite Hsel2.
  unfold bind at 1. cbn [length Nat.eqb py_assert ret nth].
  unfold try_except, bind. unfold execute at 1. cbn [connection tables].
  rewrite (insert_file_spec (v_id v) file_name sha256 t2 Hparent).
  destruct (existsb _ (files t2)); reflexivity.
Qed.

(** The three-table join finds the one file named by the three names. *)
Lemma select_file_sha256s_unique
    (project_name version_name file_name : string) t
    (p : ProjectRow) (v : VersionRow) (f : FileRow) :
  well_formed t ->
  In p (projects t) -> p_name p = project_name ->
  In v (versions t) -> v_project_id v = p_id p -> v_name v = version_name ->
  In f (files t) -> f_version_id f = v_id v -> f_name f = file_name ->
  select_file_sha256s project_name version_name file_name t = [f_sha256 f].
Proof.
  intros Hwf Hp Hpname Hv Hvproject Hvname Hf Hfversion Hfname.
  unfold select_file_sha256s.
  rewrite (flat_map_unique_key p_name _ _ p (unique_project t Hwf) Hp).
  2: { intros q _ Hq. apply flat_map_nil. intros v' _.
       apply flat_map_nil. intros f' _.
       destruct (String.eqb_spec (p_name q) project_name) as [Heq | Hne];
         [congruence |].
       rewrite !andb_false_r. reflexivity. }
  rewrite (flat_map_unique_key (fun v => (v_project_id v, v_name v))
             _ _ v (unique_version t Hwf) Hv).
  2: { intros v' _ Hv'. apply flat_map_nil. intros f' _.
       destruct (Z.eqb_spec (p_id p) (v_project_id v')) as [Heq | Hne];
         [| reflexivity].
       destruct (String.eqb_spec (v_name v') version_name) as [Heq' | Hne'];
         [| rewrite !andb_false_r; reflexivity].
       exfalso. apply Hv'. congruence. }
  rewrite (flat_map_unique_key (fun f => (f_version_id f, f_name f))
             _ _ f (unique_file t Hwf) Hf).
  2: { intros f' _ Hf'.
       destruct (Z.eqb_spec (v_id v) (f_version_id f')) as [Heq | Hne];
         [| rewrite !andb_false_r; reflexivity].
       destruct (String.eqb_spec (f_name f') file_name) as [Heq' | Hne'];
         [| rewrite !andb_false_r; reflexivity].
       exfalso. apply Hf'. congruence. }
  rewrite Hvproject, Hfversion, !Z.eqb_refl.
  rewrite (proj2 (String.eqb_eq _ _) Hpname),
    (proj2 (String.eqb_eq _ _) Hvname), (proj2 (String.eqb_eq _ _) Hfname).
  reflexivity.
Qed.

Lemma retrieve_file_sha256_invalid_name
    (project_name version_name file_name : string) db :
  valid_name project_name && valid_name version_name
    && valid_name file_name = false ->
  retrieve_file_sha256 project_name version_name file_name db =
    (Raise (DatabaseException "Invalid name"), open db).
Proof.
  intros Hinvalid.
  unfold retrieve_file_sha256, database_context_manager,
    retrieve_file_sha256_method.
  unfold bind at 1. rewrite validate_name_run.
  destruct (valid_name project_name); [| reflexivity].
  unfold bind at 1. rewrite validate_name_run.
  destruct (valid_name version_name); [| reflexivity].
  unfold bind at 1. rewrite validate_name_run.
  destruct (valid_name file_name); [discriminate | reflexivity].
Qed.

(** [retrieve_file_sha256] in terms of the rows of the join. *)
Lemma retrieve_file_sha256_run
    (project_name version_name file_name : string) db :
  valid_name project_name && valid_name version_name
    && valid_name file_name = true ->
  retrieve_file_sha256 project_name version_name file_name db =
    let rows := select_file_sha256s project_name version_name file_name
                  (committed db) in
    if (length rows =? 1)%nat
    then (Ok (nth 0 rows ""), {| tables := committed db; connection := None |})
    else (Raise (DatabaseException "File not found"), open db).
Proof.
  intros Hnames.
  apply andb_true_iff in Hnames as [Hnames Hf].
  apply andb_true_iff in Hnames as [Hp Hv].
  unfold retrieve_file_sha256, database_context_manager,
    retrieve_file_sha256_method.
  unfold bind at 1. rewrite validate_name_run, Hp.
  unfold bind at 1. rewrite validate_name_run, Hv.
  unfold bind at 1. rewrite validate_name_run, Hf.
  unfold bind at 1. unfold query, execute.
  change (connection (open db)) with (Some {| journal := None |}).
  change (tables (open db)) with (committed db).
  cbv beta iota zeta.
  destruct (length _ =? 1)%nat; reflexivity.
Qed.

(** An accepted file INSERT keeps the constraints and adds the row. *)
Lemma insert_file_ok (version_id : Z) (name sha256 : string) t t3 :
  well_formed t ->
  In version_id (map v_id (versions t)) ->
  insert_file version_id name sha256 t = (Ok tt, t3) ->
  well_formed t3
  /\ projects t3 = projects t
  /\ versions t3 = versions t
  /\ exists f, In f (files t3) /\ f_version_id f = version_id
               /\ f_name f = name /\ f_sha256 f = sha256.
Proof.
  intros Hwf Hparent Hins.
  rewrite (insert_file_spec version_id name sha256 t Hparent) in Hins.
  destruct (existsb _ (files t)) eqn:Hdup; [discriminate |].
  injection Hins as <-. cbn [projects versions files].
  split; [| split; [reflexivity | split; [reflexivity |]]].
  - constructor; cbn [projects versions files].
    + exact (unique_project t Hwf).
    + exact (unique_version t Hwf).
    + apply NoDup_map_snoc; [exact (unique_file t Hwf) |].
      apply (existsb_false_key (fun f => (f_version_id f, f_name f))
               _ _ (version_id, name) (file_test version_id name) Hdup).
    + exact (version_key t Hwf).
    + exact (version_project t Hwf).
    + apply Forall_app. split; [exact (file_version t Hwf) |].
      constructor; [exact Hparent | constructor].
  - eexists. split; [apply in_or_app; right; left; reflexivity |].
    repeat split.
Qed.

(** A successful [create_file]: the arguments were valid, the
    connection is closed, the constraints still hold, and the join
    finds the new file. *)
Lemma create_file_ok
    (project_name version_name file_name sha256 : string) (age now : Z)
    db db' :
  well_formed (committed db) ->
  create_file project_name version_name file_name sha256 age now db
    = (Ok tt, db') ->
  valid_name project_name && valid_name version_name
    && valid_name file_name = true
  /\ sha256_regex_search sha256 = true
  /\ connection db' = None
  /\ well_formed (tables db')
  /\ select_file_sha256s project_name version_name file_name (tables db')
     = [sha256].
Proof.
  intros Hwf Hrun. rewrite (create_file_run _ _ _ _ _ _ _ Hwf) in Hrun.
  destruct (valid_name project_name && valid_name version_name
            && valid_name file_name); [| discriminate].
  destruct (sha256_regex_search sha256); [| discriminate].
  cbn [negb] in Hrun.
  destruct (int64 (now - age)); [| discriminate].
  cbn [negb] in Hrun.
  destruct (create_file_statements_spec project_name version_name file_name
              sha256 (now - age) (committed db) Hwf)
    as (p & v & t2 & _ & _ & _ & Hstmts & Hp & Hpname & Hv & Hvproject
        & Hvname & _ & Hwf2).
  rewrite Hstmts in Hrun.
  destruct (insert_file (v_id v) file_name sha256 t2) as [[[] | e] t3] eqn:Hins;
    [| discriminate].
  injection Hrun as <-. cbn [connection tables].
  destruct (insert_file_ok _ _ _ _ _ Hwf2 (in_map v_id _ _ Hv) Hins)
    as (Hwf3 & Hprojects3 & Hversions3 & f & Hf & Hfversion & Hfname & Hsha).
  split; [reflexivity |]. split; [reflexivity |].
  split; [reflexivity |]. split; [exact Hwf3 |].
  rewrite <- Hsha.
  apply (select_file_sha256s_unique _ _ _ t3 p v f Hwf3);
    try assumption.
  - rewrite Hprojects3. exact Hp.
  - rewrite Hversions3. exact Hv.
Qed.

End Methods.

(** ** Upload and download *)

Section RoundTrip.

Import Datastore Database Engine.
Local Open Scope monad_scope.

Lemma create_blob_collision (b : bytes) (age : Z) (suffix : string)
    (wtime : Q) (now : Z) (d : directory) :
  is_Some (d !! (hexlify (SHA256.digest b) ++ "-" ++ suffix)%string) ->
  create_blob (BytesIO b) age suffix wtime now d = (Raise FileExistsError, d).
Proof.
  intros Hexists. unfold create_blob, bind.
  rewrite create_blob_temp_exists; [reflexivity |].
  destruct (sha256_sum_spec (BytesIO b)) as (s' & Hsum & _).
  rewrite Hsum. exact Hexists.
Qed.

(** What a successful upload leaves behind. *)
Lemma upload_ok (e e' : Engine) (project_name version_name file_name : string)
    (b : bytes) (age : Z) (suffix : string) (wtime : Q)
    (now_blob now_file : Z) :
  well_formed (committed (database e)) ->
  upload project_name version_name file_name (BytesIO b) age suffix wtime
    now_blob now_file e = (Ok tt, e') ->
  let sha256 := hexlify (SHA256.digest b) in
  datastore e' =
    <[sha256 := {| content := b; mtime := inject_Z (now_blob - age) |}]>
      (datastore e)
  /\ valid_name project_name && valid_name version_name
       && valid_name file_name = true
  /\ connection (database e') = None
  /\ well_formed (tables (database e'))
  /\ select_file_sha256s project_name version_name file_name
       (tables (database e')) = [sha256].
Proof.
  intros Hwf Hup sha256. unfold upload in Hup.
  unfold bind, on_datastore in Hup.
  destruct (datastore e !! (sha256 ++ "-" ++ suffix)%string) as [f |] eqn:Htemp.
  - rewrite create_blob_collision in Hup by (fold sha256; eauto).
    discriminate.
  - destruct (int64 (now_blob - age)) eqn:Hrange.
    2: { rewrite (create_blob_overflow b age suffix wtime now_blob _ Hrange
                    Htemp) in Hup. discriminate. }
    destruct (create_blob_spec b age suffix wtime now_blob (datastore e)
                Hrange Htemp) as (stream' & Hblob).
    rewrite Hblob in Hup. cbn [fst] in Hup.
    unfold on_database in Hup. cbn [database datastore obsolete_age] in Hup.
    destruct (create_file _ _ _ _ _ _ (database e))
      as [[[] | err] db'] eqn:Hfile; [| discriminate].
    injection Hup as <-. cbn [datastore database].
    split; [reflexivity |].
    destruct (create_file_ok _ _ _ _ _ _ _ _ Hwf Hfile)
      as (Hnames & _ & Hclosed & Hwf' & Hsel).
    auto.
Qed.

End RoundTrip.

(** C1. After a successful upload of a byte sequence under a project,
    version and file name, downloading the same three names returns a
    stream holding exactly those bytes, and the hash recorded for the
    file is the SHA-256 hex digest of the bytes. *)
Theorem upload_download_round_trip
    (e e' : Engine.Engine) (project_name version_name file_name : string)
    (b : bytes) (age : Z) (suffix : string) (wtime : Q)
    (now_blob now_file : Z) :
  well_formed (Database.committed (Engine.database e)) ->
  Engine.upload project_name version_name file_name (Datastore.BytesIO b)
    age suffix wtime now_blob now_file e = (Ok tt, e') ->
  fst (Engine.download project_name version_name file_name e')
    = Ok (Datastore.BytesIO b)
  /\ fst (Database.retrieve_file_sha256 project_name version_name file_name
            (Engine.database e'))
     = Ok (hexlify (SHA256.digest b)).
Proof.
  intros Hwf Hup.
  destruct (upload_ok _ _ _ _ _ _ _ _ _ _ _ Hwf Hup)
    as (Hstore & Hnames & Hclosed & Hwf' & Hsel).
  assert (Hcommitted :
    Database.committed (Engine.database e')
    = Database.tables (Engine.database e')).
  { unfold Database.committed. rewrite Hclosed. reflexivity. }
  assert (Hretrieve :
    Database.retrieve_file_sha256 project_name version_name file_name
      (Engine.database e')
    = (Ok (hexlify (SHA256.digest b)),
       {| Database.tables := Database.tables (Engine.database e');
          Database.connection := None |})).
  { rewrite (retrieve_file_sha256_run _ _ _ _ Hnames).
    cbn zeta. rewrite Hcommitted, Hsel. reflexivity. }
  split; [| rewrite Hretrieve; reflexivity].
  unfold Engine.download, bind.
  unfold Engine.on_database at 1. rewrite Hretrieve.
  unfold Engine.on_datastore. cbn [Engine.datastore].
  rewrite Hstore.
  rewrite (retrieve_blob_found _ _
             {| Datastore.content := b;
                Datastore.mtime := inject_Z (now_blob - age) |}
             (hexdigest_valid b) (lookup_insert_eq _ _ _)).
  reflexivity.
Qed.

Lemma well_formed_empty : well_formed Database.empty_tables.
Proof. constructor; cbn; constructor. Qed.

Lemma upload_download_round_trip_witness :
  fst (Engine.download "ProjectX" "1.0" "fileA" engine_with_foo)
    = Ok (Datastore.BytesIO foo)
  /\ fst (Database.retrieve_file_sha256 "ProjectX" "1.0" "fileA"
            (Engine.database engine_with_foo))
     = Ok (hexlify (SHA256.digest foo)).
Proof.
  apply (upload_download_round_trip new_engine engine_with_foo
           "ProjectX" "1.0" "fileA"
           foo 0 sample_suffix (inject_Z 1000) 1000 1000).
  - exact well_formed_empty.
  - vm_compute. reflexivity.
Defined.

(** ** Duplicate files *)

Section Duplicates.

Import Database.
Local Open Scope Z_scope.

Implicit Types (t : Tables) (db : Database).

Lemma existsb_of_In {A : Type} (test : A -> bool) (l : list A) (x : A) :
  In x l -> test x = true -> existsb test l = true.
Proof. intros Hin Hx. apply existsb_exists. eauto. Qed.

(** The rows behind a result of the three-table join. *)
Lemma select_file_sha256s_In
    (project_name version_name file_name sha256 : string) t :
  In sha256 (select_file_sha256s project_name version_name file_name t) ->
  exists p v f,
    In p (projects t) /\ p_name p = project_name
    /\ In v (versions t) /\ v_project_id v = p_id p
    /\ v_name v = version_name
    /\ In f (files t) /\ f_version_id f = v_id v /\ f_name f = file_name
    /\ f_sha256 f = sha256.
Proof.
  unfold select_file_sha256s. intros Hin.
  apply in_flat_map in Hin as (p & Hp & Hin).
  apply in_flat_map in Hin as (v & Hv & Hin).
  apply in_flat_map in Hin as (f & Hf & Hin).
  destruct (_ && _) eqn:Hcond in Hin; [| destruct Hin].
  destruct Hin as [<- | []].
  repeat (apply andb_true_iff in Hcond as [Hcond ?]).
  exists p, v, f.
  repeat match goal with
         | H : (_ =? _) = true |- _ => apply Z.eqb_eq in H
         | H : String.eqb _ _ = true |- _ => apply String.eqb_eq in H
         end.
  repeat split; auto.
Qed.

(** When the file is already there the transaction ends in a refused
    INSERT, with the tables as they were. *)
Lemma create_file_statements_duplicate
    (project_name version_name file_name sha256 : string) (timestamp : Z) t
    (p : ProjectRow) (v : VersionRow) (f : FileRow) :
  well_formed t ->
  In p (projects t) -> p_name p = project_name ->
  In v (versions t) -> v_project_id v = p_id p -> v_name v = version_name ->
  In f (files t) -> f_version_id f = v_id v -> f_name f = file_name ->
  create_file_statements project_name version_name file_name sha256
    timestamp t = (Raise IntegrityError, t).
Proof.
  intros Hwf Hp Hpname Hv Hvproject Hvname Hf Hfversion Hfname.
  unfold create_file_statements.
  assert (Ht1 : insert_or_ignore_project project_name t = t).
  { unfold insert_or_ignore_project.
    rewrite (existsb_of_In _ _ p Hp); [reflexivity |].
    apply project_test. exact Hpname. }
  rewrite Ht1.
  assert (Hsel1 : select_project_ids project_name t = [p_id p]).
  { unfold select_project_ids.
    rewrite (filter_unique_key p_name _ _ p (unique_project t Hwf) Hp);
      [reflexivity |].
    intros y. rewrite Hpname. apply project_test. }
  rewrite Hsel1. cbn [nth].
  assert (Ht2 : insert_or_ignore_version (p_id p) version_name timestamp t
                = (Ok tt, t)).
  { unfold insert_or_ignore_version.
    rewrite (existsb_of_In _ _ v Hv); [reflexivity |].
    apply version_test. congruence. }
  rewrite Ht2. cbn [snd].
  assert (Hsel2 : select_version_ids (p_id p) version_name t = [v_id v]).
  { unfold select_version_ids.
    rewrite (filter_unique_key (fun v => (v_project_id v, v_name v))
               _ _ v (unique_version t Hwf) Hv); [reflexivity |].
    intros y. rewrite Hvproject, Hvname. apply version_test. }
  rewrite Hsel2. cbn [nth].
  unfold insert_file.
  rewrite (existsb_of_In _ _ f Hf); [reflexivity |].
  apply file_test. congruence.
Qed.

(** Whatever makes [create_file] fail, the committed tables stay. *)
Lemma create_file_raise_unchanged
    (project_name version_name file_name sha256 : string) (age now : Z)
    db db' (e : exn) :
  well_formed (committed db) ->
  create_file project_name version_name file_name sha256 age now db
    = (Raise e, db') ->
  committed db' = committed db.
Proof.
  intros Hwf Hrun. rewrite (create_file_run _ _ _ _ _ _ _ Hwf) in Hrun.
  destruct (negb _); [injection Hrun as _ <-; reflexivity |].
  destruct (negb _); [injection Hrun as _ <-; reflexivity |].
  destruct (negb _); [injection Hrun as _ <-; reflexivity |].
  destruct (create_file_statements _ _ _ _ _ _) as [[[] | err] t3];
    [discriminate | injection Hrun as _ <-; reflexivity].
Qed.

End Duplicates.

(** C5. When the file named by the three names is already in a
    well-formed index, and the timestamp [now - age] that the version
    INSERT binds is a 64-bit integer, [create_file] reaches the file
    INSERT, the INSERT is refused on the unique constraint, the call
    fails with the duplicate-file error, the transaction is rolled back
    so that the committed tables are unchanged, and the file still
    resolves to the hash it had. *)
Theorem create_file_duplicate_rolls_back
    (db db1 : Database.Database)
    (project_name version_name file_name h0 sha256 : string) (age now : Z) :
  well_formed (Database.committed db) ->
  Database.retrieve_file_sha256 project_name version_name file_name db
    = (Ok h0, db1) ->
  sha256_regex_search sha256 = true ->
  (- 2 ^ 63 <= now - age < 2 ^ 63)%Z ->
  fst (create_file_statements project_name version_name file_name sha256
         (now - age) (Database.committed db)) = Raise IntegrityError
  /\ exists db',
       Database.create_file project_name version_name file_name sha256
         age now db
         = (Raise (DatabaseException "Unable to create file"), db')
       /\ Database.committed db' = Database.committed db
       /\ fst (Database.retrieve_file_sha256 project_name version_name
                 file_name db') = Ok h0.
Proof.
  intros Hwf Hfound Hsha Hrange. apply int64_iff in Hrange.
  destruct (valid_name project_name && valid_name version_name
            && valid_name file_name) eqn:Hnames.
  2: { rewrite (retrieve_file_sha256_invalid_name _ _ _ _ Hnames) in Hfound.
       discriminate. }
  pose proof Hfound as Hrows.
  rewrite (retrieve_file_sha256_run _ _ _ _ Hnames) in Hrows.
  cbn zeta in Hrows.
  destruct (Database.select_file_sha256s project_name version_name file_name
              (Database.committed db)) as [| h [| h' rows]] eqn:Hsel;
    try discriminate.
  cbn in Hrows. injection Hrows as -> _.
  destruct (select_file_sha256s_In project_name version_name file_name h0
              (Database.committed db))
    as (p & v & f & Hp & Hpname & Hv & Hvproject & Hvname & Hf & Hfversion
        & Hfname & _).
  { rewrite Hsel. left. reflexivity. }
  pose proof (create_file_statements_duplicate project_name version_name
                file_name sha256 (now - age) _ p v f Hwf Hp Hpname Hv
                Hvproject Hvname Hf Hfversion Hfname) as Hdup.
  split; [rewrite Hdup; reflexivity |].
  exists (Database.open db).
  split.
  - rewrite (create_file_run _ _ _ _ _ _ _ Hwf), Hnames, Hsha, Hrange, Hdup.
    reflexivity.
  - split; [reflexivity |].
    rewrite (retrieve_file_sha256_run _ _ _ _ Hnames).
    cbn zeta. rewrite committed_open, Hsel. reflexivity.
Qed.

(** Constraints of concrete tables, by evaluation. *)
Ltac solve_well_formed :=
  constructor; vm_compute;
  first [ apply (bool_decide_unpack _); vm_compute; exact I
        | repeat (constructor; [tauto |]); constructor ].

Lemma create_file_duplicate_rolls_back_witness :
  fst (Database.create_file "ProjectX" "1.0" "fileA" SHA256_TEST1
         0 1000 new_database) = Ok tt
  /\ fst (Database.create_file "ProjectX" "1.0" "fileB" SHA256_TEST2
            0 1000 database_fileA) = Ok tt
  /\ fst (create_file_statements "ProjectX" "1.0" "fileA" SHA256_TEST1
            (1000 - 0) (Database.committed database_fileAB))
     = Raise IntegrityError
  /\ exists db',
       Database.create_file "ProjectX" "1.0" "fileA" SHA256_TEST1
         0 1000 database_fileAB
         = (Raise (DatabaseException "Unable to create file"), db')
       /\ Database.committed db' = Database.committed database_fileAB
       /\ fst (Database.retrieve_file_sha256 "ProjectX" "1.0" "fileA" db')
          = Ok SHA256_TEST1.
Proof.
  split; [vm_compute; reflexivity |].
  split; [vm_compute; reflexivity |].
  apply (create_file_duplicate_rolls_back database_fileAB
           (snd (Database.retrieve_file_sha256 "ProjectX" "1.0" "fileA"
                   database_fileAB))
           "ProjectX" "1.0" "fileA" SHA256_TEST1 SHA256_TEST1 0 1000).
  - solve_well_formed.
  - vm_compute. reflexivity.
  - vm_compute. reflexivity.
  - lia.
Defined.

(** When the timestamp is not a 64-bit integer the duplicate is never
    looked at: the bind of the version INSERT raises [OverflowError],
    inside the transaction, and nothing is committed. *)
Example create_file_duplicate_overflow :
  fst (Database.create_file "ProjectX" "1.0" "fileA" SHA256_TEST1
         (2 ^ 64) 1000 database_fileAB) = Raise OverflowError
  /\ Database.committed
       (snd (Database.create_file "ProjectX" "1.0" "fileA" SHA256_TEST1
               (2 ^ 64) 1000 database_fileAB))
     = Database.committed database_fileAB.
Proof. split; vm_compute; reflexivity. Qed.

(** ** Obsolete versions *)

Section Obsolete.

Import Database.
Local Open Scope Z_scope.

Implicit Types (t : Tables) (db : Database).

Lemma obsolete_iff (timestamp : Z) (v : VersionRow) :
  obsolete timestamp v = true
  <-> v_star v = false /\ v_timestamp v <= timestamp.
Proof.
  unfold obsolete. rewrite andb_true_iff, Z.leb_le.
  destruct (v_star v); cbn; intuition discriminate.
Qed.

Lemma delete_obsolete_versions_run (age now : Z) db :
  delete_obsolete_versions age now db =
    if int64 (now - age)
    then
      (Ok tt,
       {| tables := delete_versions_where_obsolete (now - age) (committed db);
          connection := None |})
    else (Raise OverflowError, open db).
Proof.
  unfold delete_obsolete_versions, database_context_manager,
    delete_obsolete_versions_method, bind, bind_integer.
  destruct (int64 (now - age)); reflexivity.
Qed.

(** A file outlives the DELETE exactly when no deleted version has the
    id it references. *)
Lemma cascade_iff (timestamp : Z) t (f : FileRow) :
  existsb (fun v => v_id v =? f_version_id f)
          (List.filter (obsolete timestamp) (versions t)) = true
  <-> exists v, In v (versions t) /\ v_id v = f_version_id f
                /\ v_star v = false /\ v_timestamp v <= timestamp.
Proof.
  rewrite existsb_exists. split.
  - intros (v & Hin & Hid). apply filter_In in Hin as [Hin Hobs].
    apply obsolete_iff in Hobs. apply Z.eqb_eq in Hid. eauto.
  - intros (v & Hin & Hid & Hobs). exists v.
    split; [| apply Z.eqb_eq; exact Hid].
    apply filter_In. split; [exact Hin |]. apply obsolete_iff. exact Hobs.
Qed.

End Obsolete.

(** C4. When the timestamp [now - age] that the DELETE binds is a
    64-bit integer, [delete_obsolete_versions(age)] succeeds and deletes
    exactly the versions with [star = false] and
    [timestamp <= now - age]; by cascade it deletes exactly the files
    that reference one of them; every other version row and file row, in
    particular every file of a starred or younger version, and every
    project row are as they were and in the same order. *)
Theorem delete_obsolete_versions_exact
    (db : Database.Database) (age now : Z) :
  well_formed (Database.committed db) ->
  (- 2 ^ 63 <= now - age < 2 ^ 63)%Z ->
  exists db',
    Database.delete_obsolete_versions age now db = (Ok tt, db')
    /\ Database.projects (Database.committed db')
       = Database.projects (Database.committed db)
    /\ (forall v,
          In v (Database.versions (Database.committed db'))
          <-> In v (Database.versions (Database.committed db))
              /\ ~ (Database.v_star v = false
                    /\ Database.v_timestamp v <= now - age))
    /\ (forall f,
          In f (Database.files (Database.committed db'))
          <-> In f (Database.files (Database.committed db))
              /\ ~ exists v,
                    In v (Database.versions (Database.committed db))
                    /\ Database.v_id v = Database.f_version_id f
                    /\ Database.v_star v = false
                    /\ Database.v_timestamp v <= now - age)
    /\ (forall f v,
          In f (Database.files (Database.committed db)) ->
          In v (Database.versions (Database.committed db')) ->
          Database.f_version_id f = Database.v_id v ->
          In f (Database.files (Database.committed db')))
    /\ sublist (Database.versions (Database.committed db'))
               (Database.versions (Database.committed db))
    /\ sublist (Database.files (Database.committed db'))
               (Database.files (Database.committed db)).
Proof.
  intros Hwf Hrange. apply int64_iff in Hrange. eexists.
  split; [rewrite delete_obsolete_versions_run, Hrange; reflexivity |].
  set (t := Database.committed db).
  change (Database.committed _) with
    (Database.delete_versions_where_obsolete (now - age) t).
  unfold Database.delete_versions_where_obsolete.
  cbn [Database.projects Database.versions Database.files].
  assert (Hversions : forall v,
    In v (List.filter (fun v => negb (Database.obsolete (now - age) v))
            (Database.versions t))
    <-> In v (Database.versions t)
        /\ ~ (Database.v_star v = false
              /\ Database.v_timestamp v <= now - age)).
  { intros v. rewrite filter_In, negb_true_iff, <- obsolete_iff.
    destruct (Database.obsolete (now - age) v); intuition congruence. }
  assert (Hfiles : forall f,
    In f (List.filter
            (fun f => negb (existsb
               (fun v => (Database.v_id v =? Database.f_version_id f)%Z)
               (List.filter (Database.obsolete (now - age))
                  (Database.versions t))))
            (Database.files t))
    <-> In f (Database.files t)
        /\ ~ exists v, In v (Database.versions t)
                 /\ Database.v_id v = Database.f_version_id f
                 /\ Database.v_star v = false
                 /\ Database.v_timestamp v <= now - age).
  { intros f. rewrite filter_In, negb_true_iff, <- cascade_iff.
    destruct (existsb _ _); intuition congruence. }
  split; [reflexivity |]. split; [exact Hversions |].
  split; [exact Hfiles |]. split.
  - intros f v Hf Hv Hid. apply Hfiles. split; [exact Hf |].
    intros (v' & Hv' & Hid' & Hobs).
    apply Hversions in Hv as [Hv Hkept]. apply Hkept.
    assert (v' = v); [| subst; exact Hobs].
    pose proof (version_key t Hwf) as Hkey.
    clear - Hkey Hv Hv' Hid Hid'.
    assert (Heq : Database.v_id v' = Database.v_id v) by congruence.
    clear Hid Hid'.
    induction (Database.versions t) as [| a l IH]; [destruct Hv |].
    cbn [map] in Hkey. apply NoDup_cons in Hkey as [Hnotin Hkey].
    rewrite list_elem_of_In in Hnotin.
    destruct Hv as [-> | Hv], Hv' as [-> | Hv']; auto.
    + exfalso. apply Hnotin. rewrite <- Heq. apply in_map. exact Hv'.
    + exfalso. apply Hnotin. rewrite Heq. apply in_map. exact Hv.
  - split; apply filter_sublist.
Qed.

Lemma delete_obsolete_versions_exact_witness :
  well_formed (Database.committed database_two_projects)
  /\ (exists db',
        Database.delete_obsolete_versions 40 1000 database_two_projects
          = (Ok tt, db')
        /\ Database.projects (Database.committed db')
           = Database.projects (Database.committed database_two_projects)
        /\ fst (Database.retrieve_versions "ProjectX" db')
           = Ok [("2.0", 980, true); ("1.0", 940, true)]
        /\ fst (Database.retrieve_versions "ProjectY" db')
           = Ok [("2.0", 980, false)]
        /\ fst (Database.retrieve_files "ProjectY" "1.0" db')
           = Raise (DatabaseException "Version not found")).
Proof.
  assert (Hwf : well_formed (Database.committed database_two_projects))
    by solve_well_formed.
  split; [exact Hwf |].
  destruct (delete_obsolete_versions_exact database_two_projects 40 1000 Hwf
              ltac:(lia))
    as (db' & Hrun & Hprojects & _).
  exists db'. split; [exact Hrun |]. split; [exact Hprojects |].
  rewrite delete_obsolete_versions_run in Hrun.
  change (int64 (1000 - 40)) with true in Hrun.
  injection Hrun as <-.
  repeat split; vm_compute; reflexivity.
Defined.

(** Outside the 64-bit range the bind raises [OverflowError] and the
    DELETE does not run: an age that would make every unstarred version
    obsolete deletes none. *)
Example delete_obsolete_versions_overflow :
  fst (Database.delete_obsolete_versions (- 2 ^ 64) 1000
         database_two_projects) = Raise OverflowError
  /\ Database.committed
       (snd (Database.delete_obsolete_versions (- 2 ^ 64) 1000
               database_two_projects))
     = Database.committed database_two_projects.
Proof. split; vm_compute; reflexivity. Qed.

(** ** Cleanup *)

Section Cleanup.

Import Datastore Database Engine.
Local Open Scope Z_scope.

Lemma unreferenced_and_old_iff (now : Z) (sha256s : list string)
    (name : string) (f : File) :
  unreferenced_and_old now sha256s name f = true
  <-> (mtime f <= inject_Z (now - 60))%Q /\ ~ In name sha256s.
Proof.
  unfold unreferenced_and_old.
  rewrite andb_true_iff, !negb_true_iff, Qgtb_false.
  rewrite <- str_in_In.
  destruct (str_in name sha256s); intuition congruence.
Qed.

Lemma unreferenced_and_old_false (now : Z) (sha256s : list string)
    (name : string) (f : File) :
  unreferenced_and_old now sha256s name f = false
  <-> (inject_Z (now - 60) < mtime f)%Q \/ In name sha256s.
Proof.
  unfold unreferenced_and_old.
  rewrite andb_false_iff, !negb_false_iff, Qgtb_true, str_in_In.
  reflexivity.
Qed.

Lemma retrieve_sha256s_run (db : Database) :
  retrieve_sha256s db =
    (Ok (distinct (map f_sha256 (files (committed db)))),
     {| tables := committed db; connection := None |}).
Proof. reflexivity. Qed.

Lemma distinct_In (x : string) (l : list string) :
  In x (distinct l) <-> In x l.
Proof.
  induction l as [| a l IH]; [reflexivity |].
  cbn [distinct In]. rewrite filter_In, IH, negb_true_iff.
  destruct (String.eqb_spec a x) as [-> | Hne]; intuition congruence.
Qed.

(** [cleanup] step by step. *)
Lemma cleanup_run (now_versions now_blobs : Z) (e : Engine) :
  let t' := delete_versions_where_obsolete
              (now_versions - obsolete_age e) (committed (database e)) in
  let live := distinct (map f_sha256 (files t')) in
  cleanup now_versions now_blobs e =
    if int64 (now_versions - obsolete_age e)
    then
      let (r, d) :=
        delete_unreferenced_blobs live now_blobs (datastore e) in
      (r, {| datastore := d;
             database := {| tables := t'; connection := None |};
             obsolete_age := obsolete_age e |})
    else
      (Raise OverflowError,
       {| datastore := datastore e; database := open (database e);
          obsolete_age := obsolete_age e |}).
Proof.
  cbn zeta. unfold cleanup, bind, get, on_database.
  rewrite delete_obsolete_versions_run.
  destruct (int64 (now_versions - obsolete_age e)); reflexivity.
Qed.

End Cleanup.

(** C3. [cleanup()] run on its own, with a timestamp
    [now - obsolete_age] that is a 64-bit integer, completes; the live
    hashes are read after the obsolete versions are deleted; the scan
    unlinks exactly the entries whose mtime is at most [now - 60] and
    whose name is not among the live hashes, and leaves every other
    entry as it was; so every file that remains is either within the
    grace window or named by [retrieve_sha256s()]. *)
Theorem cleanup_keeps_recent_or_referenced
    (e : Engine.Engine) (now_versions now_blobs : Z) :
  (- 2 ^ 63 <= now_versions - Engine.obsolete_age e < 2 ^ 63)%Z ->
  exists e' live,
    Engine.cleanup now_versions now_blobs e = (Ok tt, e')
    /\ fst (Database.retrieve_sha256s (Engine.database e')) = Ok live
    /\ Database.committed (Engine.database e')
       = Database.delete_versions_where_obsolete
           (now_versions - Engine.obsolete_age e)
           (Database.committed (Engine.database e))
    /\ (forall name f,
          Engine.datastore e' !! name = Some f ->
          (inject_Z (now_blobs - 60) < Datastore.mtime f)%Q
          \/ In name live)
    /\ (forall name,
          Engine.datastore e' !! name = None
          <-> Engine.datastore e !! name = None
              \/ exists f,
                   Engine.datastore e !! name = Some f
                   /\ (Datastore.mtime f <= inject_Z (now_blobs - 60))%Q
                   /\ ~ In name live)
    /\ (forall name f,
          Engine.datastore e' !! name = Some f ->
          Engine.datastore e !! name = Some f).
Proof.
  intros Hrange. apply int64_iff in Hrange.
  pose proof (cleanup_run now_versions now_blobs e) as Hrun.
  cbn zeta in Hrun. rewrite Hrange in Hrun.
  set (t' := Database.delete_versions_where_obsolete
               (now_versions - Engine.obsolete_age e)
               (Database.committed (Engine.database e))) in *.
  set (live := Database.distinct
                 (map Database.f_sha256 (Database.files t'))) in *.
  destruct (delete_unreferenced_blobs_spec live now_blobs (Engine.datastore e))
    as (d' & Hscan & Hlook).
  rewrite Hscan in Hrun.
  eexists _, live. split; [exact Hrun |].
  cbn [Engine.database Engine.datastore].
  split; [reflexivity |]. split; [reflexivity |].
  split; [| split].
  - intros name f Hf. rewrite Hlook in Hf.
    destruct (Engine.datastore e !! name) as [f0 |]; [| discriminate].
    destruct (unreferenced_and_old now_blobs live name f0) eqn:Hold;
      [discriminate |].
    injection Hf as <-. apply unreferenced_and_old_false in Hold. exact Hold.
  - intros name. rewrite Hlook.
    destruct (Engine.datastore e !! name) as [f0 |].
    + destruct (unreferenced_and_old now_blobs live name f0) eqn:Hold.
      * apply unreferenced_and_old_iff in Hold.
        split; [intros _; right; exists f0; tauto | reflexivity].
      * split; [discriminate |].
        intros [Hnone | (f & [= <-] & Hmtime & Hlive)]; [discriminate |].
        assert (unreferenced_and_old now_blobs live name f0 = true)
          by (apply unreferenced_and_old_iff; tauto).
        congruence.
    + split; [intros _; left; reflexivity | reflexivity].
  - intros name f Hf. rewrite Hlook in Hf.
    destruct (Engine.datastore e !! name) as [f0 |]; [| discriminate].
    destruct (unreferenced_and_old now_blobs live name f0);
      [discriminate | exact Hf].
Qed.

Lemma cleanup_keeps_recent_or_referenced_witness :
  exists e' live,
    Engine.cleanup 5000 5000 engine_with_foo = (Ok tt, e')
    /\ fst (Database.retrieve_sha256s (Engine.database e')) = Ok live
    /\ Database.committed (Engine.database e')
       = Database.delete_versions_where_obsolete
           (5000 - Engine.obsolete_age engine_with_foo)
           (Database.committed (Engine.database engine_with_foo))
    /\ (forall name f,
          Engine.datastore e' !! name = Some f ->
          (inject_Z (5000 - 60) < Datastore.mtime f)%Q
          \/ In name live)
    /\ (forall name,
          Engine.datastore e' !! name = None
          <-> Engine.datastore engine_with_foo !! name = None
              \/ exists f,
                   Engine.datastore engine_with_foo !! name = Some f
                   /\ (Datastore.mtime f <= inject_Z (5000 - 60))%Q
                   /\ ~ In name live)
    /\ (forall name f,
          Engine.datastore e' !! name = Some f ->
          Engine.datastore engine_with_foo !! name = Some f).
Proof.
  apply (cleanup_keeps_recent_or_referenced engine_with_foo 5000 5000).
  vm_compute. split; [discriminate | reflexivity].
Defined.

(** The blob scenario of the test suite: of two blobs written with an
    age of 120 seconds the unreferenced one is removed and the referenced
    one kept, and a blob written with age 0 is kept whatever the live
    hashes are. *)
Lemma blob_grace_scenario :
  Datastore.delete_unreferenced_blobs [SHA256_FOO; SHA256_TEST1] 1000
    directory_two_blobs
  = (Ok tt, directory_one_vanished)
  /\ fst (Datastore.retrieve_blob SHA256_FOO directory_one_vanished)
     = Ok (Datastore.BytesIO foo)
  /\ fst (Datastore.retrieve_blob SHA256_EMPTY directory_one_vanished)
     = Raise (DatastoreException "Blob not found")
  /\ snd (Datastore.delete_unreferenced_blobs [] 1000
            (snd (Datastore.create_blob (Datastore.BytesIO foo) 0
                    sample_suffix (inject_Z 1000) 1000 ∅)))
       !! SHA256_FOO
     = Some {| Datastore.content := foo; Datastore.mtime := inject_Z 1000 |}.
Proof. repeat split; vm_compute; reflexivity. Qed.

(** ** Temporary files and interrupted scans *)

Section Scan.

Import Datastore.
Local Open Scope monad_scope.

Implicit Types (d : directory).

(** What the first half of [create_blob] leaves when it returns. *)
Lemma create_blob_temp_ok (stream stream' : Stream) (suffix : string)
    (wtime : Q) (sha256 temp : string) d d1 :
  create_blob_temp stream suffix wtime d = (Ok (sha256, temp, stream'), d1) ->
  sha256 = hexlify (SHA256.digest (drop (pos stream) (data stream)))
  /\ temp = (sha256 ++ "-" ++ suffix)%string
  /\ exists b, d1 !! temp = Some {| content := b; mtime := wtime |}.
Proof.
  unfold create_blob_temp.
  destruct (sha256_sum_spec stream) as (s1 & Hsum & _). rewrite Hsum.
  set (h := hexlify (SHA256.digest (drop (pos stream) (data stream)))).
  unfold bind at 1. unfold open_x.
  destruct (d !! (h ++ "-" ++ suffix)%string); [discriminate |].
  destruct (read_buffers (seek 0 s1)) as [buffers s3].
  unfold bind.
  erewrite write_all_spec by apply lookup_insert_eq.
  unfold ret. intros [= <- <- <- <-].
  split; [reflexivity |]. split; [reflexivity |].
  rewrite lookup_insert_eq. eauto.
Qed.

(** The scan over two runs of names. *)
Lemma scan_app (now : Z) (sha256s before after : list string) d :
  scan now sha256s (before ++ after) d =
    match scan now sha256s before d with
    | (Ok _, d1) => scan now sha256s after d1
    | (Raise e, d1) => (Raise e, d1)
    end.
Proof.
  revert d. induction before as [| n before IH]; intros d; [reflexivity |].
  cbn [app scan]. unfold bind at 1 3. unfold stat.
  destruct (d !! n) as [f |]; [| reflexivity].
  destruct (Qgtb (mtime f) (inject_Z (now - 60))); [apply IH |].
  destruct (negb (str_in n sha256s)); [| apply IH].
  unfold bind, unlink. destruct (d !! n); [apply IH | reflexivity].
Qed.

End Scan.

(** C10. A temporary file left by a [create_blob] that was interrupted
    after writing it carries the name [<sha256>-<suffix>]; whenever it is
    still in the directory with an mtime at least 60 seconds old, a call
    of [delete_unreferenced_blobs] with live hashes that are hashes
    completes and removes it. *)
Theorem interrupted_temp_file_collected
    (stream stream' : Datastore.Stream) (suffix : string) (wtime : Q)
    (sha256 temp : string) (d d1 later : Datastore.directory)
    (f : Datastore.File) (sha256s : list string) (now : Z) :
  Datastore.create_blob_temp stream suffix wtime d
    = (Ok (sha256, temp, stream'), d1) ->
  later !! temp = Some f ->
  (Datastore.mtime f <= inject_Z (now - 60))%Q ->
  Forall (fun h => sha256_regex_search h = true) sha256s ->
  temp = (sha256 ++ "-" ++ suffix)%string
  /\ is_Some (d1 !! temp)
  /\ ~ In temp sha256s
  /\ exists d',
       Datastore.delete_unreferenced_blobs sha256s now later = (Ok tt, d')
       /\ d' !! temp = None.
Proof.
  intros Htemp Hlater Hold Hlive.
  destruct (create_blob_temp_ok _ _ _ _ _ _ _ _ Htemp)
    as (Hsha & Hname & b & Hleft).
  assert (Hnotin : ~ In temp sha256s).
  { intros Hin. rewrite Forall_forall in Hlive.
    specialize (Hlive temp (proj2 (list_elem_of_In _ _) Hin)).
    rewrite Hname, Hsha, temp_name_not_hash in Hlive. discriminate. }
  split; [exact Hname |]. split; [eauto |]. split; [exact Hnotin |].
  destruct (delete_unreferenced_blobs_spec sha256s now later)
    as (d' & Hscan & Hlook).
  exists d'. split; [exact Hscan |].
  rewrite Hlook, Hlater.
  rewrite (proj2 (unreferenced_and_old_iff now sha256s temp f));
    [reflexivity | tauto].
Qed.

Lemma interrupted_temp_file_collected_witness :
  interrupted_temp_name = (SHA256_FOO ++ "-" ++ sample_suffix)%string
  /\ is_Some (directory_interrupted !! interrupted_temp_name)
  /\ ~ In interrupted_temp_name [SHA256_FOO; SHA256_EMPTY]
  /\ exists d',
       Datastore.delete_unreferenced_blobs [SHA256_FOO; SHA256_EMPTY] 1060
         directory_interrupted = (Ok tt, d')
       /\ d' !! interrupted_temp_name = None.
Proof.
  apply (interrupted_temp_file_collected
           (Datastore.BytesIO foo)
           {| Datastore.data := foo; Datastore.pos := 3 |}
           sample_suffix (inject_Z 1000) SHA256_FOO interrupted_temp_name
           ∅ directory_interrupted directory_interrupted
           {| Datastore.content := foo; Datastore.mtime := inject_Z 1000 |}
           [SHA256_FOO; SHA256_EMPTY] 1060).
  - vm_compute. reflexivity.
  - vm_compute. reflexivity.
  - vm_compute. discriminate.
  - repeat constructor.
Defined.

(** C8, as stated, fails: [os.stat] on an entry that another process
    removed after [os.listdir] raises, nothing catches it, the call ends
    with [FileNotFoundError], and the entry listed after it, old and
    unreferenced, is still there although an undisturbed scan of the
    same directory removes it. *)
Lemma scan_aborted_by_vanished_entry :
  Datastore.listdir directory_two_blobs = [SHA256_EMPTY; SHA256_FOO]
  /\ Datastore.delete_unreferenced_blobs_raced directory_two_blobs [] 1000
       directory_one_vanished
     = (Raise FileNotFoundError, directory_one_vanished)
  /\ directory_one_vanished !! SHA256_FOO = Some (old_blob foo)
  /\ snd (Datastore.delete_unreferenced_blobs [] 1000 directory_one_vanished)
       !! SHA256_FOO = None.
Proof. repeat split; vm_compute; reflexivity. Qed.

(** C8, amended. An entry that is missing when the scan reaches it
    aborts the scan: the call raises [FileNotFoundError], the entries
    listed before it have been processed and the entries listed after it
    are left unexamined. A scan that nothing interferes with never
    meets such an entry and completes. *)
Theorem scan_stops_at_missing_entry
    (listed d d1 : Datastore.directory) (sha256s : list string) (now : Z)
    (before after : list string) (name : string) :
  Datastore.listdir listed = (before ++ name :: after)%list ->
  Datastore.scan now sha256s before d = (Ok tt, d1) ->
  d1 !! name = None ->
  Datastore.delete_unreferenced_blobs_raced listed sha256s now d
    = (Raise FileNotFoundError, d1)
  /\ exists d', Datastore.delete_unreferenced_blobs sha256s now d = (Ok tt, d').
Proof.
  intros Hlisted Hbefore Hmissing. split.
  - unfold Datastore.delete_unreferenced_blobs_raced.
    rewrite Hlisted, scan_app, Hbefore.
    cbn [Datastore.scan]. unfold bind, Datastore.stat.
    rewrite Hmissing. reflexivity.
  - destruct (delete_unreferenced_blobs_spec sha256s now d) as (d' & H & _).
    eauto.
Qed.

Lemma scan_stops_at_missing_entry_witness :
  Datastore.delete_unreferenced_blobs_raced directory_two_blobs [] 1000
    directory_one_vanished
    = (Raise FileNotFoundError, directory_one_vanished)
  /\ exists d',
       Datastore.delete_unreferenced_blobs [] 1000 directory_one_vanished
         = (Ok tt, d').
Proof.
  apply (scan_stops_at_missing_entry directory_two_blobs
           directory_one_vanished directory_one_vanished [] 1000
           [] [SHA256_FOO] SHA256_EMPTY).
  - vm_compute. reflexivity.
  - reflexivity.
  - vm_compute. reflexivity.
Defined.

(** ** Rejected names *)

Section Validation.

Import Datastore Database Engine.
Local Open Scope monad_scope.

Implicit Types (db : Database) (e : Engine).

Lemma plus_dollar_inside (s : string) :
  plus_dollar name_class s = true ->
  has_char_outside_class (without_final_newline s) = false.
Proof.
  induction s as [| c rest IH]; [discriminate |].
  cbn [plus_dollar]. intros H.
  apply andb_true_iff in H as [Hc Hrest].
  assert (Hnl : Ascii.eqb c newline = false).
  { destruct (Ascii.eqb_spec c newline) as [-> | _]; [discriminate | easy]. }
  destruct rest as [| c' rest'].
  - cbn [without_final_newline]. rewrite Hnl.
    unfold has_char_outside_class. cbn. rewrite Hc. reflexivity.
  - change (without_final_newline (String c (String c' rest')))
      with (String c (without_final_newline (String c' rest'))).
    unfold has_char_outside_class in *.
    cbn [list_ascii_of_string existsb]. rewrite Hc. cbn [negb orb].
    apply orb_true_iff in Hrest as [Hend | Hmore].
    + destruct rest'; [| discriminate]. cbn in Hend. cbn.
      rewrite Hend. reflexivity.
    + apply IH. exact Hmore.
Qed.

(** A rejected name does not pass [validate_name]. *)
Lemma rejected_name_invalid (s : string) :
  rejected_name s -> valid_name s = false.
Proof.
  intros [-> | [-> | Hout]]; [reflexivity | reflexivity |].
  unfold valid_name. apply andb_false_iff. right.
  unfold name_regex_search.
  destruct (plus_dollar name_class s) eqn:Hmatch; [| reflexivity].
  apply plus_dollar_inside in Hmatch. congruence.
Qed.

Lemma invalid_among3 (s a b c : string) :
  valid_name s = false -> In s [a; b; c] ->
  valid_name a && valid_name b && valid_name c = false.
Proof.
  intros Hs [<- | [<- | [<- | []]]]; rewrite Hs;
    rewrite ?andb_false_r; reflexivity.
Qed.

Lemma retrieve_versions_invalid_name (project_name : string) db :
  valid_name project_name = false ->
  retrieve_versions project_name db =
    (Raise (DatabaseException "Invalid name"), open db).
Proof.
  intros Hinvalid.
  unfold retrieve_versions, database_context_manager,
    retrieve_versions_method.
  unfold bind at 1. rewrite validate_name_run, Hinvalid. reflexivity.
Qed.

Lemma retrieve_files_invalid_name (project_name version_name : string) db :
  valid_name project_name && valid_name version_name = false ->
  retrieve_files project_name version_name db =
    (Raise (DatabaseException "Invalid name"), open db).
Proof.
  intros Hinvalid.
  unfold retrieve_files, database_context_manager, retrieve_files_method.
  unfold bind at 1. rewrite validate_name_run.
  destruct (valid_name project_name); [| reflexivity].
  unfold bind at 1. rewrite validate_name_run.
  destruct (valid_name version_name); [discriminate | reflexivity].
Qed.

Lemma update_star_invalid_name (project_name version_name : string)
    (star : pyvalue) db :
  valid_name project_name && valid_name version_name = false ->
  update_star project_name version_name star db =
    (Raise (DatabaseException "Invalid name"), open db).
Proof.
  intros Hinvalid.
  unfold update_star, database_context_manager, update_star_method.
  unfold bind at 1. rewrite validate_name_run.
  destruct (valid_name project_name); [| reflexivity].
  unfold bind at 1. rewrite validate_name_run.
  destruct (valid_name version_name); [discriminate | reflexivity].
Qed.

Lemma invalid_among2 (s a b : string) :
  valid_name s = false -> In s [a; b] ->
  valid_name a && valid_name b = false.
Proof.
  intros Hs [<- | [<- | []]]; rewrite Hs;
    rewrite ?andb_false_r; reflexivity.
Qed.

End Validation.

(** C2, as stated, fails for [Engine.upload]: it writes the blob before
    [create_file] validates the names, so the call rejected for the name
    [Project?] has already put the blob of [foo] into the datastore. *)
Lemma rejected_upload_leaves_blob :
  has_char_outside_class "Project?" = true
  /\ fst (Engine.upload "Project?" "1.0" "fileA" (Datastore.BytesIO foo)
            0 sample_suffix (inject_Z 1000) 1000 1000 new_engine)
     = Raise (DatabaseException "Invalid name")
  /\ Engine.datastore new_engine !! SHA256_FOO = None
  /\ Engine.datastore
       (snd (Engine.upload "Project?" "1.0" "fileA" (Datastore.BytesIO foo)
               0 sample_suffix (inject_Z 1000) 1000 1000 new_engine))
       !! SHA256_FOO
     = Some {| Datastore.content := foo; Datastore.mtime := inject_Z 1000 |}.
Proof. repeat split; vm_compute; reflexivity. Qed.

(** C2, amended. For a name that is [.], [..] or has a character
    outside [[0-9a-zA-Z_.-]] elsewhere than in one final line feed, given
    as any of the names of a call: the five database entry points and
    [Engine.download] fail with the invalid-name error and leave the
    committed index unchanged (and the datastore, which only the engine
    touches); [Engine.upload] first runs [create_blob], and when that
    returns it fails with the invalid-name error, the committed index
    unchanged and the datastore as [create_blob] left it. *)
Theorem rejected_name_fails_before_the_index (s : string) :
  rejected_name s ->
  (forall db a b c sha256 age now,
     In s [a; b; c] ->
     exists db',
       Database.create_file a b c sha256 age now db
         = (Raise (DatabaseException "Invalid name"), db')
       /\ Database.committed db' = Database.committed db)
  /\ (forall db a b c,
        In s [a; b; c] ->
        exists db',
          Database.retrieve_file_sha256 a b c db
            = (Raise (DatabaseException "Invalid name"), db')
          /\ Database.committed db' = Database.committed db)
  /\ (forall db,
        exists db',
          Database.retrieve_versions s db
            = (Raise (DatabaseException "Invalid name"), db')
          /\ Database.committed db' = Database.committed db)
  /\ (forall db a b,
        In s [a; b] ->
        exists db',
          Database.retrieve_files a b db
            = (Raise (DatabaseException "Invalid name"), db')
          /\ Database.committed db' = Database.committed db)
  /\ (forall db a b star,
        In s [a; b] ->
        exists db',
          Database.update_star a b star db
            = (Raise (DatabaseException "Invalid name"), db')
          /\ Database.committed db' = Database.committed db)
  /\ (forall e a b c,
        In s [a; b; c] ->
        exists e',
          Engine.download a b c e
            = (Raise (DatabaseException "Invalid name"), e')
          /\ Database.committed (Engine.database e')
             = Database.committed (Engine.database e)
          /\ Engine.datastore e' = Engine.datastore e)
  /\ (forall e a b c stream age suffix wtime now_blob now_file r d1,
        In s [a; b; c] ->
        Datastore.create_blob stream age suffix wtime now_blob
          (Engine.datastore e) = (Ok r, d1) ->
        exists e',
          Engine.upload a b c stream age suffix wtime now_blob now_file e
            = (Raise (DatabaseException "Invalid name"), e')
          /\ Database.committed (Engine.database e')
             = Database.committed (Engine.database e)
          /\ Engine.datastore e' = d1).
Proof.
  intros Hrejected. apply rejected_name_invalid in Hrejected as Hs.
  repeat apply conj.
  - intros db a b c sha256 age now Hin. eexists. split.
    + apply create_file_invalid_name. exact (invalid_among3 s a b c Hs Hin).
    + reflexivity.
  - intros db a b c Hin. eexists. split.
    + apply retrieve_file_sha256_invalid_name.
      exact (invalid_among3 s a b c Hs Hin).
    + reflexivity.
  - intros db. eexists. split.
    + apply retrieve_versions_invalid_name. exact Hs.
    + reflexivity.
  - intros db a b Hin. eexists. split.
    + apply retrieve_files_invalid_name. exact (invalid_among2 s a b Hs Hin).
    + reflexivity.
  - intros db a b star Hin. eexists. split.
    + apply update_star_invalid_name. exact (invalid_among2 s a b Hs Hin).
    + reflexivity.
  - intros e a b c Hin. eexists. split.
    + unfold Engine.download, bind, Engine.on_database.
      rewrite (retrieve_file_sha256_invalid_name a b c _
                 (invalid_among3 s a b c Hs Hin)).
      reflexivity.
    + split; reflexivity.
  - intros e a b c stream age suffix wtime now_blob now_file r d1 Hin Hblob.
    eexists. split.
    + unfold Engine.upload, bind, Engine.on_datastore. rewrite Hblob.
      unfold Engine.on_database. cbn [Engine.database].
      rewrite (create_file_invalid_name a b c _ _ _ _
                 (invalid_among3 s a b c Hs Hin)).
      reflexivity.
    + split; reflexivity.
Qed.

(** Not covered by the theorem above: a name whose only character
    outside the class is one final line feed passes [validate_name],
    because [$] also matches just before a final newline. *)
Lemma final_newline_passes_validate_name :
  has_char_outside_class ("ProjectX" ++ String newline "") = true
  /\ valid_name ("ProjectX" ++ String newline "") = true
  /\ fst (Database.create_file ("ProjectX" ++ String newline "") "1.0"
            "fileA" SHA256_TEST1 0 1000 new_database) = Ok tt.
Proof. repeat split; vm_compute; reflexivity. Qed.

Lemma rejected_name_fails_before_the_index_witness :
  exists db',
    Database.create_file "Project?" "1.0" "fileA" SHA256_TEST1 0 1000
      new_database
      = (Raise (DatabaseException "Invalid name"), db')
    /\ Database.committed db' = Database.committed new_database.
Proof.
  assert (Hrejected : rejected_name "Project?")
    by (right; right; vm_compute; reflexivity).
  apply (proj1 (rejected_name_fails_before_the_index "Project?" Hrejected)
           new_database "Project?" "1.0" "fileA" SHA256_TEST1 0 1000).
  left. reflexivity.
Defined.

(** ** The connection around a method *)

Section ContextManager.

Import Database.

Lemma database_context_manager_ok {A : Type} (method : M Database A)
    (self db' : Database) (a : A) :
  method (open self) = (Ok a, db') ->
  database_context_manager method self = (Ok a, close db').
Proof.
  intros H. unfold database_context_manager. rewrite H. reflexivity.
Qed.

(** When the method raises, the generator is left at its [yield] and
    [close] is never called. *)
Lemma database_context_manager_raise {A : Type} (method : M Database A)
    (self db' : Database) (e : exn) :
  method (open self) = (Raise e, db') ->
  database_context_manager method self = (Raise e, db').
Proof.
  intros H. unfold database_context_manager. rewrite H. reflexivity.
Qed.

End ContextManager.

(** C6 fails on the code. A call that returns normally leaves the
    connection closed, but a call whose method raises returns with the
    connection it opened still open: after an invalid name, after a
    missing file, and after a duplicate file. *)
Theorem connection_left_open_when_method_raises :
  Database.connection new_database = None
  /\ Database.create_file "ProjectX" "1.0" "fileA" SHA256_TEST1 0 1000
       new_database
     = (Ok tt, database_fileA)
  /\ Database.connection database_fileA = None
  /\ Database.create_file "Project?" "1.0" "fileA" SHA256_TEST1 0 1000
       new_database
     = (Raise (DatabaseException "Invalid name"),
        {| Database.tables := Database.empty_tables;
           Database.connection := Some {| Database.journal := None |} |})
  /\ Database.retrieve_file_sha256 "ProjectX" "1.0" "fileA" new_database
     = (Raise (DatabaseException "File not found"),
        {| Database.tables := Database.empty_tables;
           Database.connection := Some {| Database.journal := None |} |})
  /\ Database.create_file "ProjectX" "1.0" "fileA" SHA256_TEST1 0 1000
       database_fileA
     = (Raise (DatabaseException "Unable to create file"),
        {| Database.tables := Database.tables database_fileA;
           Database.connection := Some {| Database.journal := None |} |}).
Proof. repeat split; vm_compute; reflexivity. Qed.

(** C7, as stated, fails: with the file row in the index and the blob
    gone from the directory, [download] raises the blob store's own
    not-found exception, the one [retrieve_blob] raises for any unknown
    hash. *)
Lemma download_missing_blob_is_not_found :
  fst (Database.retrieve_file_sha256 "ProjectX" "1.0" "fileA"
         (Engine.database engine_blob_removed)) = Ok SHA256_FOO
  /\ Engine.datastore engine_blob_removed !! SHA256_FOO = None
  /\ fst (Engine.download "ProjectX" "1.0" "fileA" engine_blob_removed)
     = Raise (DatastoreException "Blob not found")
  /\ fst (Datastore.retrieve_blob SHA256_EMPTY
            (Engine.datastore engine_blob_removed))
     = Raise (DatastoreException "Blob not found")
  /\ error_kind_of (DatastoreException "Blob not found") = not_found
  /\ error_kind_of (DatastoreException "Blob not found") <> internal.
Proof. repeat split; try (vm_compute; reflexivity). discriminate. Qed.

(** C7, amended. When the index resolves the three names to a hash and
    no blob of that name is in the directory, [download] fails with
    [DatastoreException('Blob not found')], the not-found error of the
    blob store, passed on unchanged; neither the committed index nor the
    directory is modified. *)
Theorem download_missing_blob
    (e : Engine.Engine) (project_name version_name file_name sha256 : string)
    (db1 : Database.Database) :
  Database.retrieve_file_sha256 project_name version_name file_name
    (Engine.database e) = (Ok sha256, db1) ->
  sha256_regex_search sha256 = true ->
  Engine.datastore e !! sha256 = None ->
  exists e',
    Engine.download project_name version_name file_name e
      = (Raise (DatastoreException "Blob not found"), e')
    /\ error_kind_of (DatastoreException "Blob not found") = not_found
    /\ Engine.datastore e' = Engine.datastore e
    /\ Database.committed (Engine.database e')
       = Database.committed (Engine.database e).
Proof.
  intros Hrow Hvalid Hmissing.
  assert (Hdb1 : Database.committed db1
                 = Database.committed (Engine.database e)).
  { destruct (valid_name project_name && valid_name version_name
              && valid_name file_name) eqn:Hnames.
    - rewrite (retrieve_file_sha256_run _ _ _ _ Hnames) in Hrow.
      cbn zeta in Hrow.
      destruct (length _ =? 1)%nat; [| discriminate].
      injection Hrow as _ <-. reflexivity.
    - rewrite (retrieve_file_sha256_invalid_name _ _ _ _ Hnames) in Hrow.
      discriminate. }
  eexists. split.
  - unfold Engine.download, bind, Engine.on_database. rewrite Hrow.
    unfold Engine.on_datastore. cbn [Engine.datastore].
    rewrite (retrieve_blob_missing _ _ Hvalid Hmissing). reflexivity.
  - split; [reflexivity |]. split; [reflexivity | exact Hdb1].
Qed.

Lemma download_missing_blob_witness :
  exists e',
    Engine.download "ProjectX" "1.0" "fileA" engine_blob_removed
      = (Raise (DatastoreException "Blob not found"), e')
    /\ error_kind_of (DatastoreException "Blob not found") = not_found
    /\ Engine.datastore e' = Engine.datastore engine_blob_removed
    /\ Database.committed (Engine.database e')
       = Database.committed (Engine.database engine_blob_removed).
Proof.
  apply (download_missing_blob engine_blob_removed
           "ProjectX" "1.0" "fileA" SHA256_FOO
           (snd (Database.retrieve_file_sha256 "ProjectX" "1.0" "fileA"
                   (Engine.database engine_blob_removed)))).
  - vm_compute. reflexivity.
  - vm_compute. reflexivity.
  - vm_compute. reflexivity.
Defined.

(** ** The constraints are an invariant of the index *)

Section Invariant.

Import Database.
Local Open Scope Z_scope.

Implicit Types (t : Tables) (db : Database).

Lemma NoDup_map_filter {A K : Type} (key : A -> K) (test : A -> bool)
    (l : list A) :
  NoDup (map key l) -> NoDup (map key (List.filter test l)).
Proof.
  induction l as [| a l IH]; intros Hnodup; [constructor |].
  cbn [map] in Hnodup. apply NoDup_cons in Hnodup as [Hnotin Hnodup].
  cbn [List.filter]. destruct (test a); [| apply IH; exact Hnodup].
  cbn [map]. apply NoDup_cons. split; [| apply IH; exact Hnodup].
  intros Hin. apply Hnotin.
  apply list_elem_of_In in Hin. apply list_elem_of_In.
  apply in_map_iff in Hin as (x & Hx & Hin).
  apply filter_In in Hin as [Hin _].
  rewrite <- Hx. apply in_map. exact Hin.
Qed.

Lemma create_file_well_formed (a b c sha256 : string) (age now : Z) db :
  well_formed (committed db) ->
  well_formed (committed (snd (create_file a b c sha256 age now db))).
Proof.
  intros Hwf.
  destruct (create_file a b c sha256 age now db) as [[[] | e] db'] eqn:Hrun.
  - destruct (create_file_ok _ _ _ _ _ _ _ _ Hwf Hrun)
      as (_ & _ & Hclosed & Hwf' & _).
    cbn [snd]. unfold committed. rewrite Hclosed. exact Hwf'.
  - cbn [snd].
    rewrite (create_file_raise_unchanged _ _ _ _ _ _ _ _ _ Hwf Hrun).
    exact Hwf.
Qed.

Lemma delete_versions_where_obsolete_well_formed (timestamp : Z) t :
  well_formed t -> well_formed (delete_versions_where_obsolete timestamp t).
Proof.
  intros Hwf. unfold delete_versions_where_obsolete.
  constructor; cbn [projects versions files].
  - exact (unique_project t Hwf).
  - apply NoDup_map_filter. exact (unique_version t Hwf).
  - apply NoDup_map_filter. exact (unique_file t Hwf).
  - apply NoDup_map_filter. exact (version_key t Hwf).
  - apply Forall_forall. intros v Hv.
    apply list_elem_of_In, filter_In in Hv as [Hv _].
    pose proof (version_project t Hwf) as Hfk.
    rewrite Forall_forall in Hfk. apply Hfk, list_elem_of_In, Hv.
  - apply Forall_forall. intros f Hf.
    apply list_elem_of_In, filter_In in Hf as [Hf Hkept].
    apply negb_true_iff in Hkept.
    pose proof (file_version t Hwf) as Hfk.
    rewrite Forall_forall in Hfk.
    specialize (Hfk f (proj2 (list_elem_of_In _ _) Hf)).
    apply in_map_iff in Hfk as (v & Hid & Hv).
    rewrite <- Hid. apply in_map. apply filter_In. split; [exact Hv |].
    destruct (obsolete timestamp v) eqn:Hobs; [| reflexivity].
    exfalso.
    assert (existsb (fun v0 => v_id v0 =? f_version_id f)
              (List.filter (obsolete timestamp) (versions t)) = true);
      [| congruence].
    apply existsb_exists. exists v. split.
    + apply filter_In. split; assumption.
    + apply Z.eqb_eq. exact Hid.
Qed.

Lemma update_version_star_well_formed (star : bool) (version_id : Z) t :
  well_formed t -> well_formed (update_version_star star version_id t).
Proof.
  intros Hwf. unfold update_version_star.
  set (g := fun v => if v_id v =? version_id
                     then {| v_id := v_id v; v_project_id := v_project_id v;
                             v_name := v_name v;
                             v_timestamp := v_timestamp v; v_star := star |}
                     else v).
  assert (Hkeys : forall {K : Type} (key : VersionRow -> K),
            (forall v, key (g v) = key v) ->
            map key (map g (versions t)) = map key (versions t)).
  { intros K key Hkey. rewrite map_map. apply map_ext. exact Hkey. }
  assert (Hg : forall v, v_id (g v) = v_id v
                         /\ v_project_id (g v) = v_project_id v
                         /\ v_name (g v) = v_name v).
  { intros v. unfold g. destruct (v_id v =? version_id); auto. }
  constructor; cbn [projects versions files].
  - exact (unique_project t Hwf).
  - rewrite (Hkeys _ (fun v => (v_project_id v, v_name v))).
    + exact (unique_version t Hwf).
    + intros v. destruct (Hg v) as (_ & -> & ->). reflexivity.
  - exact (unique_file t Hwf).
  - rewrite (Hkeys _ v_id); [exact (version_key t Hwf) |].
    intros v. apply Hg.
  - apply Forall_forall. intros v Hv.
    apply list_elem_of_In, in_map_iff in Hv as (v0 & <- & Hv0).
    destruct (Hg v0) as (_ & -> & _).
    pose proof (version_project t Hwf) as Hfk.
    rewrite Forall_forall in Hfk. apply Hfk, list_elem_of_In, Hv0.
  - rewrite (Hkeys _ v_id); [exact (file_version t Hwf) |].
    intros v. apply Hg.
Qed.

Lemma retrieve_versions_committed (a : string) db :
  committed (snd (retrieve_versions a db)) = committed db.
Proof.
  unfold retrieve_versions, database_context_manager,
    retrieve_versions_method.
  unfold bind at 1. rewrite validate_name_run.
  destruct (valid_name a); [| reflexivity].
  cbv [bind execute_begin query execute execute_rollback execute_commit
       raise ret open close connection tables journal].
  destruct (negb _); reflexivity.
Qed.

Lemma retrieve_files_committed (a b : string) db :
  committed (snd (retrieve_files a b db)) = committed db.
Proof.
  destruct (valid_name a && valid_name b) eqn:Hnames.
  2: { rewrite (retrieve_files_invalid_name _ _ _ Hnames). reflexivity. }
  apply andb_true_iff in Hnames as [Ha Hb].
  unfold retrieve_files, database_context_manager, retrieve_files_method.
  unfold bind at 1. rewrite validate_name_run, Ha.
  unfold bind at 1. rewrite validate_name_run, Hb.
  cbv [bind execute_begin query execute execute_rollback execute_commit
       raise ret open close connection tables journal].
  destruct (negb _); reflexivity.
Qed.

Lemma update_star_committed (a b : string) (star : pyvalue) db :
  committed (snd (update_star a b star db)) = committed db
  \/ exists (value : bool) (version_id : Z),
       committed (snd (update_star a b star db))
       = update_version_star value version_id (committed db).
Proof.
  destruct (valid_name a && valid_name b) eqn:Hnames.
  2: { left. rewrite (update_star_invalid_name _ _ _ _ Hnames).
       reflexivity. }
  apply andb_true_iff in Hnames as [Ha Hb].
  remember (update_star a b star db) as out eqn:Hout.
  unfold update_star, database_context_manager, update_star_method in Hout.
  unfold bind at 1 in Hout. rewrite validate_name_run, Ha in Hout.
  unfold bind at 1 in Hout. rewrite validate_name_run, Hb in Hout.
  destruct star as [value | | |];
    try (subst out; left; reflexivity).
  cbv [bind validate_star execute_begin query execute execute_rollback
       execute_commit raise ret open close connection tables journal]
    in Hout.
  destruct (negb _) in Hout; subst out; [left; reflexivity |].
  right. eexists _, _. reflexivity.
Qed.

Lemma retrieve_file_sha256_committed (a b c : string) db :
  committed (snd (retrieve_file_sha256 a b c db)) = committed db.
Proof.
  destruct (valid_name a && valid_name b && valid_name c) eqn:Hnames.
  - rewrite (retrieve_file_sha256_run _ _ _ _ Hnames). cbn zeta.
    destruct (length _ =? 1)%nat; reflexivity.
  - rewrite (retrieve_file_sha256_invalid_name _ _ _ _ Hnames). reflexivity.
Qed.

(** X17. Every state of the database that calls of its public
    methods can produce from a new database, failed calls included,
    satisfies the unique constraints and the foreign keys of the schema:
    no two projects of one name, no two versions of one name in a
    project, no two files of one name in a version, no file without its
    version, no version without its project. *)
Lemma reachable_well_formed db : reachable db -> well_formed (committed db).
Proof.
  induction 1 as [| db a b c sha256 age now _ IH | db a b c _ IH | db _ IH
                  | db a _ IH | db a b _ IH | db _ IH | db a b star _ IH
                  | db age now _ IH].
  - exact well_formed_empty.
  - apply create_file_well_formed. exact IH.
  - rewrite retrieve_file_sha256_committed. exact IH.
  - exact IH.
  - rewrite retrieve_versions_committed. exact IH.
  - rewrite retrieve_files_committed. exact IH.
  - exact IH.
  - destruct (update_star_committed a b star db)
      as [-> | (value & version_id & ->)]; [exact IH |].
    apply update_version_star_well_formed. exact IH.
  - rewrite delete_obsolete_versions_run.
    destruct (int64 (now - age)); cbn [snd]; [| exact IH].
    apply delete_versions_where_obsolete_well_formed. exact IH.
Qed.

End Invariant.

(** * Further properties of the package *)

(** ** What the validators accept *)

Section Accepted.

Local Open Scope string_scope.

(** Every character of [w] is in the class [cls]. *)
Lemma plus_dollar_iff (cls : ascii -> bool) (s : string) :
  plus_dollar cls s = true
  <-> exists w, w <> ""
        /\ forallb cls (list_ascii_of_string w) = true
        /\ (s = w \/ s = w ++ String newline "").
Proof.
  split.
  - induction s as [| c rest IH]; [discriminate |].
    cbn [plus_dollar]. intros H.
    apply andb_true_iff in H as [Hc H].
    apply orb_true_iff in H as [Hend | Hmore].
    + exists (String c "").
      split; [discriminate |]. split; [cbn; rewrite Hc; reflexivity |].
      destruct rest as [| c' [| c'' rest]]; try discriminate.
      * left. reflexivity.
      * cbn in Hend. apply Ascii.eqb_eq in Hend. subst c'.
        right. reflexivity.
    + destruct (IH Hmore) as (w & Hw & Hall & Hs).
      exists (String c w).
      split; [discriminate |].
      split; [cbn; rewrite Hc; exact Hall |].
      destruct Hs as [-> | ->]; [left | right]; reflexivity.
  - intros (w & Hw & Hall & Hs).
    assert (Hgoal : forall tail, at_dollar tail = true ->
              plus_dollar cls (w ++ tail) = true).
    { intros tail Htail. clear Hs.
      induction w as [| c w IH]; [congruence |].
      cbn in Hall. apply andb_true_iff in Hall as [Hc Hall].
      change (plus_dollar cls (String c w ++ tail))
        with (cls c && (at_dollar (w ++ tail) || plus_dollar cls (w ++ tail))).
      rewrite Hc. cbn [andb].
      destruct w as [| c' w'].
      - change ("" ++ tail) with tail. rewrite Htail. reflexivity.
      - rewrite IH; [apply orb_true_r | discriminate | exact Hall]. }
    destruct Hs as [-> | ->].
    + specialize (Hgoal "" eq_refl).
      assert (Hnil : w ++ "" = w).
      { clear. induction w as [| c w IH]; [reflexivity |].
        change (String c w ++ "") with (String c (w ++ "")).
        rewrite IH. reflexivity. }
      rewrite Hnil in Hgoal. exact Hgoal.
    + apply Hgoal. reflexivity.
Qed.

Lemma repeat_dollar_iff (cls : ascii -> bool) (n : nat) (s : string) :
  repeat_dollar cls n s = true
  <-> exists w, String.length w = n
        /\ forallb cls (list_ascii_of_string w) = true
        /\ (s = w \/ s = w ++ String newline "").
Proof.
  revert s. induction n as [| n IH]; intros s.
  - cbn [repeat_dollar]. split.
    + intros H. exists "". split; [reflexivity |]. split; [reflexivity |].
      destruct s as [| c [| c' rest]]; try discriminate.
      * left. reflexivity.
      * cbn in H. apply Ascii.eqb_eq in H. subst c. right. reflexivity.
    + intros (w & Hlen & _ & Hs).
      destruct w; [| discriminate].
      destruct Hs as [-> | ->]; reflexivity.
  - cbn [repeat_dollar]. split.
    + destruct s as [| c rest]; [discriminate |]. intros H.
      apply andb_true_iff in H as [Hc H].
      apply IH in H as (w & Hlen & Hall & Hs).
      exists (String c w).
      split; [cbn; rewrite Hlen; reflexivity |].
      split; [cbn; rewrite Hc; exact Hall |].
      destruct Hs as [-> | ->]; [left | right]; reflexivity.
    + intros (w & Hlen & Hall & Hs).
      destruct w as [| c w]; [discriminate |].
      cbn in Hlen, Hall. injection Hlen as Hlen.
      apply andb_true_iff in Hall as [Hc Hall].
      assert (Hrest : repeat_dollar cls n
                (match s with String _ rest => rest | _ => "" end) = true).
      { apply IH. exists w. split; [exact Hlen |]. split; [exact Hall |].
        destruct Hs as [-> | ->]; [left | right]; reflexivity. }
      destruct Hs as [-> | ->]; simpl in Hrest |- *;
        rewrite Hc; exact Hrest.
Qed.

End Accepted.

(** X1. [validate_name] lets a name through exactly when it is
    neither [.] nor [..] and is a non-empty run of characters of
    [[0-9a-zA-Z_.-]], possibly followed by one line feed; every other
    name raises the invalid-name error. The state is never touched. *)
Theorem validate_name_accepts_exactly {S : Type} (name : string) (st : S) :
  (Database.validate_name name st = (Ok tt, st)
   \/ Database.validate_name name st
      = (Raise (DatabaseException "Invalid name"), st))
  /\ (Database.validate_name name st = (Ok tt, st)
      <-> name <> "." /\ name <> ".."
          /\ exists w, w <> ""
               /\ forallb name_class (list_ascii_of_string w) = true
               /\ (name = w \/ name = (w ++ String newline "")%string)).
Proof.
  rewrite validate_name_run. unfold valid_name, name_regex_search.
  pose proof (plus_dollar_iff name_class name) as Hplus.
  destruct (String.eqb_spec name ".") as [-> | Hdot].
  { split; [right; reflexivity |]. split; [discriminate | tauto]. }
  destruct (String.eqb_spec name "..") as [-> | Hdots].
  { split; [right; reflexivity |]. split; [discriminate | tauto]. }
  cbn [orb negb andb].
  destruct (plus_dollar name_class name).
  - split; [left; reflexivity |]. split; [| reflexivity].
    intros _. split; [exact Hdot |]. split; [exact Hdots |].
    apply Hplus. reflexivity.
  - split; [right; reflexivity |]. split; [discriminate |].
    intros (_ & _ & Hw). apply Hplus in Hw. discriminate.
Qed.

(** X2. Both [validate_sha256] functions let a value through exactly
    when it is 64 characters of [[0-9a-f]], possibly followed by one
    line feed; every other value raises the invalid-hash error of the
    module, and the hex digest of any byte sequence is let through. *)
Theorem validate_sha256_accepts_exactly {S : Type} (sha256 : string)
    (st : S) :
  let accepted :=
    exists w, String.length w = 64%nat
      /\ forallb hex_class (list_ascii_of_string w) = true
      /\ (sha256 = w \/ sha256 = (w ++ String newline "")%string) in
  (Database.validate_sha256 sha256 st = (Ok tt, st) <-> accepted)
  /\ (Datastore.validate_sha256 sha256 st = (Ok tt, st) <-> accepted)
  /\ (~ accepted ->
      Database.validate_sha256 sha256 st
        = (Raise (DatabaseException "Invalid SHA-256 hash"), st)
      /\ Datastore.validate_sha256 sha256 st
         = (Raise (DatastoreException "Invalid SHA-256 hash"), st))
  /\ (forall msg : bytes,
        Database.validate_sha256 (hexlify (SHA256.digest msg)) st
          = (Ok tt, st)).
Proof.
  cbn zeta.
  pose proof (repeat_dollar_iff hex_class 64 sha256) as Hiff.
  fold (sha256_regex_search sha256) in Hiff.
  unfold Database.validate_sha256, Datastore.validate_sha256, raise, ret.
  split; [| split; [| split]].
  - rewrite <- Hiff. destruct (sha256_regex_search sha256); cbn [negb];
      split; intros H; first [reflexivity | discriminate H].
  - rewrite <- Hiff. destruct (sha256_regex_search sha256);
      split; intros H; first [reflexivity | discriminate H].
  - intros Hnot. rewrite <- Hiff in Hnot.
    destruct (sha256_regex_search sha256); [exfalso; auto |].
    split; reflexivity.
  - intros msg. rewrite hexdigest_valid. reflexivity.
Qed.

(** ** More on streams and blobs *)

Section Blobs.

Import Datastore.
Local Open Scope monad_scope.

Implicit Types (d : directory) (f : File).

(** Where the read loop leaves the stream. *)
Lemma iter_read_end (n : N) (fuel : nat) (s : Stream) :
  (0 < n)%N ->
  (length (data s) - pos s < fuel)%nat ->
  exists buffers s',
    iter_read fuel n s = Some (buffers, s')
    /\ data s' = data s
    /\ pos s' = Nat.max (pos s) (length (data s)).
Proof.
  intros Hn. revert s.
  induction fuel as [| fuel IH]; intros s Hfuel; [lia |].
  cbn [iter_read]. unfold read. rewrite slice_to_take.
  set (k := N.to_nat n).
  assert (Hk : (0 < k)%nat) by (subst k; lia).
  remember (drop (pos s) (data s)) as remaining eqn:Hrem.
  assert (Hlen : length remaining = (length (data s) - pos s)%nat)
    by (subst remaining; apply length_drop).
  destruct (take k remaining) as [| b buffer] eqn:Htake.
  - eexists [], _. split; [reflexivity |]. split; [reflexivity |].
    cbn [pos length].
    destruct remaining as [| x remaining];
      [cbn [length] in Hlen; lia |].
    destruct k; [lia | discriminate].
  - set (s1 := {| data := data s;
                  pos := (pos s + length (b :: buffer))%nat |}).
    assert (Hb : length (b :: buffer) = Nat.min k (length remaining))
      by (rewrite <- Htake; apply length_take).
    destruct (IH s1) as (buffers & s' & Hiter & Hdata & Hpos).
    { cbn [data pos s1]. cbn [length] in Hb |- *. lia. }
    rewrite Hiter. eexists (_ :: buffers), s'.
    split; [reflexivity |]. split; [exact Hdata |].
    rewrite Hpos. cbn [data pos s1]. cbn [length] in Hb |- *. lia.
Qed.

Lemma read_buffers_end (s : Stream) :
  data (snd (read_buffers s)) = data s
  /\ pos (snd (read_buffers s)) = Nat.max (pos s) (length (data s)).
Proof.
  unfold read_buffers.
  destruct (iter_read_end BUFFER_SIZE (S (length (data s))) s)
    as (buffers & s' & Hiter & Hdata & Hpos);
    [exact BUFFER_SIZE_pos | lia |].
  rewrite Hiter. auto.
Qed.

Lemma sha256_sum_end (s : Stream) :
  data (snd (sha256_sum s)) = data s
  /\ pos (snd (sha256_sum s)) = Nat.max (pos s) (length (data s)).
Proof.
  unfold sha256_sum.
  pose proof (read_buffers_end s) as H.
  destruct (read_buffers s) as [buffers s']. exact H.
Qed.

Lemma string_length_append (a b : string) :
  String.length (a ++ b)%string = (String.length a + String.length b)%nat.
Proof.
  induction a as [| c a IH]; [reflexivity |].
  change (String c a ++ b)%string with (String c (a ++ b)%string).
  cbn [String.length]. rewrite IH. reflexivity.
Qed.

Lemma temp_name_differs (sha256 suffix : string) :
  (sha256 ++ "-" ++ suffix)%string <> sha256.
Proof.
  intros H. apply (f_equal String.length) in H.
  rewrite string_length_append in H.
  change ("-" ++ suffix)%string with (String "-" suffix) in H.
  cbn [String.length] in H. lia.
Qed.

(** The two halves of [create_blob] on a stream at any position. *)
Lemma create_blob_temp_any_stream (stream : Stream) (suffix : string)
    (wtime : Q) d :
  let sha256 :=
    hexlify (SHA256.digest (drop (pos stream) (data stream))) in
  let temp := (sha256 ++ "-" ++ suffix)%string in
  d !! temp = None ->
  exists stream',
    create_blob_temp stream suffix wtime d =
      (Ok (sha256, temp, stream'),
       <[temp := {| content := data stream; mtime := wtime |}]> d).
Proof.
  intros sha256 temp Hfree. unfold create_blob_temp.
  destruct (sha256_sum_spec stream) as (s1 & Hsum & Hdata1).
  rewrite Hsum. fold sha256. fold temp.
  unfold bind at 1. unfold open_x. rewrite Hfree.
  destruct (read_buffers_spec (seek 0 s1))
    as (buffers & s3 & Hread & Hcat & Hdata3).
  change (drop (pos (seek 0 s1)) (data (seek 0 s1))) with (data s1) in Hcat.
  rewrite Hdata1 in Hcat. rewrite Hread.
  unfold bind.
  erewrite write_all_spec by apply lookup_insert_eq.
  exists s3. unfold ret. rewrite insert_insert_eq. cbn [app].
  rewrite Hcat. reflexivity.
Qed.

Lemma create_blob_any_stream (stream : Stream) (age : Z) (suffix : string)
    (wtime : Q) (now : Z) d :
  let sha256 :=
    hexlify (SHA256.digest (drop (pos stream) (data stream))) in
  int64 (now - age) = true ->
  d !! (sha256 ++ "-" ++ suffix)%string = None ->
  exists stream',
    create_blob stream age suffix wtime now d =
      (Ok (sha256, stream'),
       <[sha256 := {| content := data stream;
                      mtime := inject_Z (now - age) |}]> d).
Proof.
  intros sha256 Hrange Hfree. unfold create_blob.
  destruct (create_blob_temp_any_stream stream suffix wtime d Hfree)
    as (s' & Htemp).
  unfold bind at 1. rewrite Htemp. fold sha256.
  unfold create_blob_publish, bind, utime, replace, ret.
  rewrite Hrange. cbn [negb].
  rewrite lookup_insert_eq. cbn [content].
  rewrite lookup_insert_eq.
  exists s'. f_equal.
  rewrite insert_insert_eq, delete_insert_eq.
  rewrite delete_id by exact Hfree. reflexivity.
Qed.

Lemma create_blob_any_stream_overflow (stream : Stream) (age : Z)
    (suffix : string) (wtime : Q) (now : Z) d :
  let temp :=
    (hexlify (SHA256.digest (drop (pos stream) (data stream)))
     ++ "-" ++ suffix)%string in
  int64 (now - age) = false ->
  d !! temp = None ->
  create_blob stream age suffix wtime now d =
    (Raise OverflowError,
     <[temp := {| content := data stream; mtime := wtime |}]> d).
Proof.
  intros temp Hrange Hfree. unfold create_blob.
  destruct (create_blob_temp_any_stream stream suffix wtime d Hfree)
    as (s' & Htemp).
  unfold bind at 1. rewrite Htemp.
  unfold create_blob_publish, bind, utime. rewrite Hrange. reflexivity.
Qed.

End Blobs.

(** X3. [sha256_sum] hashes the part of the stream after its current
    position and leaves the stream exhausted: a second call on the same
    stream, without a [seek], returns the hash of the empty string. *)
Theorem sha256_sum_consumes_stream (s : Datastore.Stream) :
  fst (Datastore.sha256_sum s)
    = hexlify (SHA256.digest
                 (drop (Datastore.pos s) (Datastore.data s)))
  /\ fst (Datastore.sha256_sum (snd (Datastore.sha256_sum s)))
     = SHA256_EMPTY.
Proof.
  destruct (sha256_sum_spec s) as (s1 & Hsum & _).
  split; [rewrite Hsum; reflexivity |].
  destruct (sha256_sum_end s) as [Hdata Hpos].
  destruct (sha256_sum_spec (snd (Datastore.sha256_sum s)))
    as (s2 & Hsum2 & _).
  rewrite Hsum2. cbn [fst].
  rewrite drop_ge by (rewrite Hpos, Hdata; lia).
  vm_compute. reflexivity.
Qed.

(** X4. When the temporary name is free and the timestamp [now - age]
    is a 64-bit integer, [create_blob] returns the hash of the part of
    the stream after its current position, and stores the whole stream,
    rewound, under that name with mtime [now - age]; the temporary file
    is gone and every other entry is as it was. When the temporary name
    is free and the timestamp is not a 64-bit integer, it raises
    [OverflowError] at [os.utime] and leaves the written temporary file
    behind, unpublished. When the temporary name is taken, it raises
    [FileExistsError] and changes nothing. *)
Theorem create_blob_effect (stream : Datastore.Stream) (age : Z)
    (suffix : string) (wtime : Q) (now : Z) (d : Datastore.directory) :
  let sha256 :=
    hexlify (SHA256.digest
               (drop (Datastore.pos stream) (Datastore.data stream))) in
  let temp := (sha256 ++ "-" ++ suffix)%string in
  match d !! temp with
  | None =>
      if int64 (now - age) then
        exists stream' d',
          Datastore.create_blob stream age suffix wtime now d
            = (Ok (sha256, stream'), d')
          /\ d' !! sha256
             = Some {| Datastore.content := Datastore.data stream;
                       Datastore.mtime := inject_Z (now - age) |}
          /\ d' !! temp = None
          /\ forall name, name <> sha256 -> d' !! name = d !! name
      else
        Datastore.create_blob stream age suffix wtime now d
          = (Raise OverflowError,
             <[temp := {| Datastore.content := Datastore.data stream;
                          Datastore.mtime := wtime |}]> d)
  | Some _ =>
      Datastore.create_blob stream age suffix wtime now d
        = (Raise FileExistsError, d)
  end.
Proof.
  intros sha256 temp.
  destruct (d !! temp) as [f |] eqn:Htemp.
  - unfold Datastore.create_blob, bind.
    rewrite create_blob_temp_exists; [reflexivity |].
    destruct (sha256_sum_spec stream) as (s' & Hsum & _).
    rewrite Hsum. cbn [fst]. fold sha256. fold temp. eauto.
  - destruct (int64 (now - age)) eqn:Hrange.
    2: { exact (create_blob_any_stream_overflow stream age suffix wtime now
                  d Hrange Htemp). }
    destruct (create_blob_any_stream stream age suffix wtime now d Hrange
                Htemp) as (stream' & Hrun).
    eexists stream', _. split; [exact Hrun |].
    split; [apply lookup_insert_eq |]. split.
    + rewrite lookup_insert_ne; [exact Htemp |].
      intros Heq. symmetry in Heq. exact (temp_name_differs _ _ Heq).
    + intros name Hne. apply lookup_insert_ne.
      intros Heq. apply Hne. symmetry. exact Heq.
Qed.

(** The blob of a stream that was not at its start is stored under the
    hash of the unread part, not under the hash of what it contains. *)
Lemma create_blob_after_partial_read :
  exists stream' sha256 d',
    Datastore.create_blob {| Datastore.data := foo; Datastore.pos := 1 |}
      0 sample_suffix (inject_Z 1000) 1000 ∅
      = (Ok (sha256, stream'), d')
    /\ hexlify (SHA256.digest foo) = SHA256_FOO
    /\ sha256 <> SHA256_FOO
    /\ Datastore.content <$> d' !! sha256 = Some foo.
Proof.
  eexists _, _, _. split; [vm_compute; reflexivity |].
  split; [vm_compute; reflexivity |].
  split; [vm_compute; discriminate | vm_compute; reflexivity].
Qed.

(** X5. Writing the same bytes twice, with free temporary names and
    timestamps that are 64-bit integers, gives the same hash both times
    and one blob: the directory after the second [create_blob] is the
    one the second call alone would have produced, with the bytes
    unchanged and the mtime of the second call. *)
Theorem create_blob_twice (b : bytes) (age1 age2 : Z)
    (suffix1 suffix2 : string) (wtime1 wtime2 : Q) (now1 now2 : Z)
    (d : Datastore.directory) :
  let sha256 := hexlify (SHA256.digest b) in
  d !! (sha256 ++ "-" ++ suffix1)%string = None ->
  d !! (sha256 ++ "-" ++ suffix2)%string = None ->
  (- 2 ^ 63 <= now1 - age1 < 2 ^ 63)%Z ->
  (- 2 ^ 63 <= now2 - age2 < 2 ^ 63)%Z ->
  exists s1 s2 d1,
    Datastore.create_blob (Datastore.BytesIO b) age1 suffix1 wtime1 now1 d
      = (Ok (sha256, s1), d1)
    /\ Datastore.create_blob (Datastore.BytesIO b) age2 suffix2 wtime2 now2
         d1
       = (Ok (sha256, s2),
          <[sha256 := {| Datastore.content := b;
                         Datastore.mtime := inject_Z (now2 - age2) |}]> d).
Proof.
  intros sha256 Hfree1 Hfree2 Hrange1 Hrange2.
  apply int64_iff in Hrange1, Hrange2.
  destruct (create_blob_spec b age1 suffix1 wtime1 now1 d Hrange1 Hfree1)
    as (s1 & Hrun1).
  fold sha256 in Hrun1.
  set (d1 := <[sha256 := {| Datastore.content := b;
                            Datastore.mtime := inject_Z (now1 - age1) |}]> d)
    in *.
  assert (Hfree2' : d1 !! (sha256 ++ "-" ++ suffix2)%string = None).
  { unfold d1. rewrite lookup_insert_ne; [exact Hfree2 |].
    intros Heq. symmetry in Heq. exact (temp_name_differs _ _ Heq). }
  destruct (create_blob_spec b age2 suffix2 wtime2 now2 d1 Hrange2 Hfree2')
    as (s2 & Hrun2).
  fold sha256 in Hrun2.
  exists s1, s2, d1. split; [exact Hrun1 |].
  rewrite Hrun2. unfold d1. rewrite insert_insert_eq. reflexivity.
Qed.

Lemma create_blob_twice_witness :
  exists s1 s2 d1,
    Datastore.create_blob (Datastore.BytesIO foo) 120 sample_suffix
      (inject_Z 1000) 1000 ∅
      = (Ok (hexlify (SHA256.digest foo), s1), d1)
    /\ Datastore.create_blob (Datastore.BytesIO foo) 0 sample_suffix
         (inject_Z 1010) 1010 d1
       = (Ok (hexlify (SHA256.digest foo), s2),
          <[hexlify (SHA256.digest foo) :=
              {| Datastore.content := foo;
                 Datastore.mtime := inject_Z (1010 - 0) |}]> ∅).
Proof.
  apply (create_blob_twice foo 120 0 sample_suffix sample_suffix
           (inject_Z 1000) (inject_Z 1010) 1000 1010 ∅).
  - reflexivity.
  - reflexivity.
  - lia.
  - lia.
Defined.

(** X6. Whenever [create_blob] returns, the blob it wrote is read
    back by [retrieve_blob] under the returned hash: the stream that
    [retrieve_blob] returns holds the bytes of the written stream, from
    their start, and the directory is as [create_blob] left it. *)
Theorem create_blob_retrieve_blob (stream stream' : Datastore.Stream)
    (age : Z) (suffix : string) (wtime : Q) (now : Z) (sha256 : string)
    (d d' : Datastore.directory) :
  Datastore.create_blob stream age suffix wtime now d
    = (Ok (sha256, stream'), d') ->
  Datastore.retrieve_blob sha256 d'
    = (Ok (Datastore.BytesIO (Datastore.data stream)), d').
Proof.
  intros Hrun.
  destruct (d !! (hexlify (SHA256.digest
                             (drop (Datastore.pos stream)
                                   (Datastore.data stream)))
                  ++ "-" ++ suffix)%string) as [f |] eqn:Htemp.
  { unfold Datastore.create_blob, bind in Hrun.
    rewrite create_blob_temp_exists in Hrun; [discriminate Hrun |].
    destruct (sha256_sum_spec stream) as (s' & Hsum & _).
    rewrite Hsum. cbn [fst]. eauto. }
  destruct (int64 (now - age)) eqn:Hrange.
  2: { rewrite (create_blob_any_stream_overflow stream age suffix wtime now
                  d Hrange Htemp) in Hrun. discriminate Hrun. }
  destruct (create_blob_any_stream stream age suffix wtime now d Hrange
              Htemp) as (s' & Hspec).
  rewrite Hspec in Hrun. injection Hrun as <- _ <-.
  apply (retrieve_blob_found _ _
           {| Datastore.content := Datastore.data stream;
              Datastore.mtime := inject_Z (now - age) |}
           (hexdigest_valid _) (lookup_insert_eq _ _ _)).
Qed.

Lemma create_blob_retrieve_blob_witness :
  Datastore.create_blob (Datastore.BytesIO foo) 0 sample_suffix
    (inject_Z 1000) 1000 directory_two_blobs
  = (Ok (SHA256_FOO, {| Datastore.data := foo; Datastore.pos := 3 |}),
     <[SHA256_FOO := {| Datastore.content := foo;
                        Datastore.mtime := inject_Z 1000 |}]>
       directory_two_blobs)
  /\ Datastore.retrieve_blob SHA256_FOO
       (<[SHA256_FOO := {| Datastore.content := foo;
                           Datastore.mtime := inject_Z 1000 |}]>
          directory_two_blobs)
     = (Ok (Datastore.BytesIO (Datastore.data (Datastore.BytesIO foo))),
        <[SHA256_FOO := {| Datastore.content := foo;
                           Datastore.mtime := inject_Z 1000 |}]>
          directory_two_blobs).
Proof.
  assert (Hrun :
    Datastore.create_blob (Datastore.BytesIO foo) 0 sample_suffix
      (inject_Z 1000) 1000 directory_two_blobs
    = (Ok (SHA256_FOO, {| Datastore.data := foo; Datastore.pos := 3 |}),
       <[SHA256_FOO := {| Datastore.content := foo;
                          Datastore.mtime := inject_Z 1000 |}]>
         directory_two_blobs))
    by (vm_compute; reflexivity).
  split; [exact Hrun |].
  exact (create_blob_retrieve_blob _ _ _ _ _ _ _ _ _ Hrun).
Defined.

(** X7. [retrieve_blob] never changes the directory and only ever
    opens an entry whose name has the shape of a hash: it returns the
    content of the entry of that name, or raises the invalid-hash error,
    or, for a well-formed name with no entry, the blob-not-found error.
    In particular the name of a temporary file is always refused. *)
Theorem retrieve_blob_only_reads_blobs (sha256 : string)
    (d : Datastore.directory) :
  snd (Datastore.retrieve_blob sha256 d) = d
  /\ match fst (Datastore.retrieve_blob sha256 d) with
     | Ok stream =>
         sha256_regex_search sha256 = true
         /\ exists f, d !! sha256 = Some f
              /\ stream = Datastore.BytesIO (Datastore.content f)
     | Raise e =>
         (sha256_regex_search sha256 = false
          /\ e = DatastoreException "Invalid SHA-256 hash")
         \/ (sha256_regex_search sha256 = true /\ d !! sha256 = None
             /\ e = DatastoreException "Blob not found")
     end
  /\ (forall (msg : bytes) (suffix : string),
        fst (Datastore.retrieve_blob
               (hexlify (SHA256.digest msg) ++ "-" ++ suffix)%string d)
        = Raise (DatastoreException "Invalid SHA-256 hash")).
Proof.
  unfold Datastore.retrieve_blob, bind, Datastore.validate_sha256.
  split; [| split].
  - destruct (sha256_regex_search sha256); [| reflexivity].
    cbn. destruct (d !! sha256); reflexivity.
  - destruct (sha256_regex_search sha256); cbn; [| auto].
    destruct (d !! sha256) as [f |] eqn:Hf; cbn; eauto 6.
  - intros msg suffix. rewrite temp_name_not_hash. reflexivity.
Qed.

(** X8. [delete_unreferenced_blobs] run on its own is idempotent: a
    second call with the same clock reading and the same live hashes
    completes and removes nothing more; and a call only ever removes
    entries, it never adds or alters one. *)
Theorem delete_unreferenced_blobs_idempotent (sha256s : list string)
    (now : Z) (d : Datastore.directory) :
  exists d1,
    Datastore.delete_unreferenced_blobs sha256s now d = (Ok tt, d1)
    /\ Datastore.delete_unreferenced_blobs sha256s now d1 = (Ok tt, d1)
    /\ d1 ⊆ d.
Proof.
  destruct (delete_unreferenced_blobs_spec sha256s now d)
    as (d1 & Hrun1 & Hlook1).
  destruct (delete_unreferenced_blobs_spec sha256s now d1)
    as (d2 & Hrun2 & Hlook2).
  exists d1. split; [exact Hrun1 |]. split.
  - rewrite Hrun2. f_equal. apply map_eq. intros name.
    rewrite Hlook2.
    destruct (d1 !! name) as [f |] eqn:Hf; [| reflexivity].
    rewrite Hlook1 in Hf.
    destruct (d !! name) as [f0 |]; [| discriminate].
    destruct (unreferenced_and_old now sha256s name f0) eqn:Hold;
      [discriminate |].
    injection Hf as <-. rewrite Hold. reflexivity.
  - apply map_subseteq_spec. intros name f Hf.
    rewrite Hlook1 in Hf.
    destruct (d !! name) as [f0 |]; [| discriminate].
    destruct (unreferenced_and_old now sha256s name f0);
      [discriminate | exact Hf].
Qed.

(** ** More on the index *)

Section IndexEffects.

Import Database.
Local Open Scope Z_scope.

Implicit Types (t : Tables) (db : Database).

Lemma insert_or_ignore_project_shape (name : string) t :
  let t1 := insert_or_ignore_project name t in
  versions t1 = versions t /\ files t1 = files t
  /\ exists new, projects t1 = (projects t ++ new)%list
       /\ (length new <= 1)%nat
       /\ Forall (fun p => p_name p = name) new.
Proof.
  unfold insert_or_ignore_project.
  destruct (existsb _ (projects t)); cbn [projects versions files].
  - repeat split. exists []. rewrite app_nil_r. repeat split; auto.
  - repeat split. eexists [_]. repeat split; auto.
Qed.

Lemma insert_or_ignore_version_shape (project_id : Z) (name : string)
    (timestamp : Z) t :
  let t2 := snd (insert_or_ignore_version project_id name timestamp t) in
  projects t2 = projects t /\ files t2 = files t
  /\ exists new, versions t2 = (versions t ++ new)%list
       /\ (length new <= 1)%nat
       /\ Forall (fun v => v_name v = name /\ v_timestamp v = timestamp
                           /\ v_star v = false) new.
Proof.
  unfold insert_or_ignore_version.
  destruct (existsb _ (versions t)); cbn [snd projects versions files].
  - repeat split. exists []. rewrite app_nil_r. repeat split; auto.
  - destruct (negb _); cbn [snd projects versions files].
    + repeat split. exists []. rewrite app_nil_r. repeat split; auto.
    + repeat split. eexists [_]. repeat split; auto.
Qed.

End IndexEffects.

(** X9. A successful [create_file] only appends rows: at most one
    project row, with the given name; at most one version row, with the
    given name, timestamp [now - age] and no star; and exactly one file
    row with the given name and hash, attached to the version of that
    name in the project of that name. Rows that were there are unchanged;
    in particular the timestamp and the star of an existing version are
    not touched. *)
Theorem create_file_appends
    (db db' : Database.Database) (project_name version_name file_name
    sha256 : string) (age now : Z) :
  well_formed (Database.committed db) ->
  Database.create_file project_name version_name file_name sha256 age now db
    = (Ok tt, db') ->
  exists new_projects new_versions f p v,
    Database.projects (Database.committed db')
      = (Database.projects (Database.committed db) ++ new_projects)%list
    /\ Database.versions (Database.committed db')
       = (Database.versions (Database.committed db) ++ new_versions)%list
    /\ Database.files (Database.committed db')
       = (Database.files (Database.committed db) ++ [f])%list
    /\ (length new_projects <= 1)%nat
    /\ Forall (fun p => Database.p_name p = project_name) new_projects
    /\ (length new_versions <= 1)%nat
    /\ Forall (fun v => Database.v_name v = version_name
                        /\ Database.v_timestamp v = now - age
                        /\ Database.v_star v = false) new_versions
    /\ Database.f_name f = file_name
    /\ Database.f_sha256 f = sha256
    /\ In p (Database.projects (Database.committed db'))
    /\ In v (Database.versions (Database.committed db'))
    /\ Database.p_name p = project_name
    /\ Database.v_name v = version_name
    /\ Database.v_project_id v = Database.p_id p
    /\ Database.f_version_id f = Database.v_id v.
Proof.
  intros Hwf Hrun. rewrite (create_file_run _ _ _ _ _ _ _ Hwf) in Hrun.
  destruct (negb _); [discriminate |].
  destruct (negb _); [discriminate |].
  destruct (negb _); [discriminate |].
  destruct (create_file_statements_spec project_name version_name file_name
              sha256 (now - age) (Database.committed db) Hwf)
    as (p & v & t2 & _ & Hins2 & _ & Hstmts & Hp & Hpname & Hv & Hvproject
        & Hvname & _ & Hwf2).
  cbn zeta in Hins2. rewrite Hstmts in Hrun.
  rewrite (insert_file_spec _ _ _ _ (in_map Database.v_id _ _ Hv)) in Hrun.
  destruct (existsb _ (Database.files t2)); [discriminate |].
  injection Hrun as <-.
  remember (Database.committed db) as t eqn:Ht.
  cbn [Database.committed Database.connection Database.tables
       Database.projects Database.versions Database.files].
  destruct (insert_or_ignore_project_shape project_name t)
    as (Hversions1 & Hfiles1 & new_projects & Hprojects1 & Hlen1 & Hall1).
  destruct (insert_or_ignore_version_shape (Database.p_id p) version_name
              (now - age)
              (Database.insert_or_ignore_project project_name t))
    as (Hprojects2 & Hfiles2 & new_versions & Hversions2 & Hlen2 & Hall2).
  rewrite Hins2 in Hprojects2, Hfiles2, Hversions2. cbn [snd] in *.
  exists new_projects, new_versions. eexists. exists p, v.
  rewrite Hprojects2, Hprojects1, Hversions2, Hversions1, Hfiles2, Hfiles1.
  rewrite Hprojects2, Hprojects1 in Hp.
  rewrite Hversions2, Hversions1 in Hv.
  repeat apply conj; try reflexivity; assumption.
Qed.

Lemma create_file_appends_witness :
  exists new_projects new_versions f p v,
    Database.projects (Database.committed database_fileAB)
      = (Database.projects (Database.committed database_fileA)
         ++ new_projects)%list
    /\ Database.versions (Database.committed database_fileAB)
       = (Database.versions (Database.committed database_fileA)
          ++ new_versions)%list
    /\ Database.files (Database.committed database_fileAB)
       = (Database.files (Database.committed database_fileA) ++ [f])%list
    /\ (length new_projects <= 1)%nat
    /\ Forall (fun p => Database.p_name p = "ProjectX") new_projects
    /\ (length new_versions <= 1)%nat
    /\ Forall (fun v => Database.v_name v = "1.0"
                        /\ Database.v_timestamp v = 1000 - 0
                        /\ Database.v_star v = false) new_versions
    /\ Database.f_name f = "fileB"
    /\ Database.f_sha256 f = SHA256_TEST2
    /\ In p (Database.projects (Database.committed database_fileAB))
    /\ In v (Database.versions (Database.committed database_fileAB))
    /\ Database.p_name p = "ProjectX"
    /\ Database.v_name v = "1.0"
    /\ Database.v_project_id v = Database.p_id p
    /\ Database.f_version_id f = Database.v_id v.
Proof.
  apply (create_file_appends database_fileA database_fileAB
           "ProjectX" "1.0" "fileB" SHA256_TEST2 0 1000).
  - solve_well_formed.
  - vm_compute. reflexivity.
Defined.

(** ** Queries *)

Section Queries.

Import Database.
Local Open Scope Z_scope.

Implicit Types (t : Tables) (db : Database).

Lemma insert_sorted_Permutation {A : Type} (le : A -> A -> bool) (x : A)
    (l : list A) :
  Permutation (x :: l) (insert_sorted le x l).
Proof.
  induction l as [| y l IH]; [reflexivity |].
  cbn [insert_sorted]. destruct (le x y); [reflexivity |].
  rewrite perm_swap. apply perm_skip. exact IH.
Qed.

Lemma order_by_Permutation {A : Type} (le : A -> A -> bool) (l : list A) :
  Permutation l (order_by le l).
Proof.
  induction l as [| x l IH]; [reflexivity |].
  cbn [order_by fold_right]. fold (order_by le l).
  rewrite <- insert_sorted_Permutation. apply perm_skip. exact IH.
Qed.

Lemma insert_sorted_Sorted {A : Type} (le : A -> A -> bool) (x : A)
    (l : list A) :
  (forall a b, le a b = true \/ le b a = true) ->
  Sorted (fun a b => le a b = true) l ->
  Sorted (fun a b => le a b = true) (insert_sorted le x l).
Proof.
  intros Htotal Hsorted.
  induction l as [| y l IH]; [repeat constructor |].
  cbn [insert_sorted]. destruct (le x y) eqn:Hxy.
  - constructor; [exact Hsorted | constructor; exact Hxy].
  - apply Sorted_inv in Hsorted as [Hsorted Hhd].
    constructor; [apply IH; exact Hsorted |].
    assert (Hyx : le y x = true)
      by (destruct (Htotal x y); congruence).
    destruct l as [| z l]; [constructor; exact Hyx |].
    cbn [insert_sorted]. destruct (le x z);
      constructor; [exact Hyx |].
    apply HdRel_inv in Hhd. exact Hhd.
Qed.

Lemma order_by_Sorted {A : Type} (le : A -> A -> bool) (l : list A) :
  (forall a b, le a b = true \/ le b a = true) ->
  Sorted (fun a b => le a b = true) (order_by le l).
Proof.
  intros Htotal. induction l as [| x l IH]; [constructor |].
  cbn [order_by fold_right]. fold (order_by le l).
  apply insert_sorted_Sorted; assumption.
Qed.

Lemma Sorted_map_rel {A B : Type} (f : A -> B) (R : A -> A -> Prop)
    (R' : B -> B -> Prop) (l : list A) :
  (forall a b, R a b -> R' (f a) (f b)) ->
  Sorted R l -> Sorted R' (map f l).
Proof.
  intros HR. induction 1 as [| a l Hsorted IH Hhd]; [constructor |].
  cbn [map]. constructor; [exact IH |].
  destruct Hhd; constructor. apply HR. assumption.
Qed.

Lemma distinct_NoDup (l : list string) : NoDup (distinct l).
Proof.
  induction l as [| x l IH]; [constructor |].
  cbn [distinct]. apply NoDup_cons. split.
  - rewrite list_elem_of_In, filter_In, negb_true_iff.
    intros [_ H]. rewrite String.eqb_refl in H. discriminate.
  - eapply sublist_NoDup; [exact IH | apply filter_sublist].
Qed.

(** The join that resolves a version from its two names. *)
Lemma select_version_ids_by_names_unique (project_name version_name : string)
    t (p : ProjectRow) (v : VersionRow) :
  well_formed t ->
  In p (projects t) -> p_name p = project_name ->
  In v (versions t) -> v_project_id v = p_id p -> v_name v = version_name ->
  select_version_ids_by_names project_name version_name t = [v_id v].
Proof.
  intros Hwf Hp Hpname Hv Hvproject Hvname.
  unfold select_version_ids_by_names.
  assert (Hinner : forall v',
    flat_map (fun p' =>
      if (p_id p' =? v_project_id v')
         && String.eqb (p_name p') project_name
         && String.eqb (v_name v') version_name
      then [v_id v'] else []) (projects t)
    = if (v_project_id v' =? p_id p) && String.eqb (v_name v') version_name
      then [v_id v'] else []).
  { intros v'.
    rewrite (flat_map_unique_key p_name _ _ p (unique_project t Hwf) Hp).
    - rewrite (proj2 (String.eqb_eq _ _) Hpname), andb_true_r.
      rewrite (Z.eqb_sym (p_id p)). reflexivity.
    - intros q _ Hq.
      destruct (String.eqb_spec (p_name q) project_name) as [Heq | Hne];
        [congruence |].
      rewrite andb_false_r. reflexivity. }
  rewrite (flat_map_ext _ _ Hinner).
  rewrite (flat_map_unique_key (fun v => (v_project_id v, v_name v))
             _ _ v (unique_version t Hwf) Hv).
  - rewrite Hvproject, Z.eqb_refl, (proj2 (String.eqb_eq _ _) Hvname).
    reflexivity.
  - intros v' _ Hv'.
    destruct (Z.eqb_spec (v_project_id v') (p_id p)) as [Heq | Hne];
      [| reflexivity].
    destruct (String.eqb_spec (v_name v') version_name) as [Heq' | Hne'];
      [| reflexivity].
    exfalso. apply Hv'. congruence.
Qed.

Lemma select_version_ids_by_names_In (project_name version_name : string)
    t (version_id : Z) :
  In version_id (select_version_ids_by_names project_name version_name t) ->
  exists p v,
    In p (projects t) /\ p_name p = project_name
    /\ In v (versions t) /\ v_project_id v = p_id p
    /\ v_name v = version_name /\ v_id v = version_id.
Proof.
  unfold select_version_ids_by_names. intros Hin.
  apply in_flat_map in Hin as (v & Hv & Hin).
  apply in_flat_map in Hin as (p & Hp & Hin).
  destruct (_ && _) eqn:Hcond in Hin; [| destruct Hin].
  destruct Hin as [<- | []].
  repeat (apply andb_true_iff in Hcond as [Hcond ?]).
  exists p, v.
  repeat match goal with
         | H : (_ =? _) = true |- _ => apply Z.eqb_eq in H
         | H : String.eqb _ _ = true |- _ => apply String.eqb_eq in H
         end.
  repeat split; auto.
Qed.

(** The outcomes of the two-name lookup on a well-formed index. *)
Lemma select_version_ids_by_names_cases (project_name version_name : string)
    t :
  well_formed t ->
  (select_version_ids_by_names project_name version_name t = []
   /\ ~ exists p v,
         In p (projects t) /\ p_name p = project_name
         /\ In v (versions t) /\ v_project_id v = p_id p
         /\ v_name v = version_name)
  \/ exists p v,
       In p (projects t) /\ p_name p = project_name
       /\ In v (versions t) /\ v_project_id v = p_id p
       /\ v_name v = version_name
       /\ select_version_ids_by_names project_name version_name t
          = [v_id v].
Proof.
  intros Hwf.
  destruct (select_version_ids_by_names project_name version_name t)
    as [| version_id rest] eqn:Hsel.
  - left. split; [reflexivity |].
    intros (p & v & Hp & Hpname & Hv & Hvproject & Hvname).
    rewrite (select_version_ids_by_names_unique _ _ _ p v Hwf Hp Hpname Hv
               Hvproject Hvname) in Hsel.
    discriminate.
  - right.
    destruct (select_version_ids_by_names_In project_name version_name t
                version_id)
      as (p & v & Hp & Hpname & Hv & Hvproject & Hvname & _).
    { rewrite Hsel. left. reflexivity. }
    exists p, v. repeat (split; [assumption |]).
    rewrite <- Hsel.
    apply (select_version_ids_by_names_unique _ _ _ p v); assumption.
Qed.

(** The same for the three-name join. *)
Lemma select_file_sha256s_cases (project_name version_name file_name : string)
    t :
  well_formed t ->
  (select_file_sha256s project_name version_name file_name t = []
   /\ ~ exists p v f,
         In p (projects t) /\ p_name p = project_name
         /\ In v (versions t) /\ v_project_id v = p_id p
         /\ v_name v = version_name
         /\ In f (files t) /\ f_version_id f = v_id v
         /\ f_name f = file_name)
  \/ exists p v f,
       In p (projects t) /\ p_name p = project_name
       /\ In v (versions t) /\ v_project_id v = p_id p
       /\ v_name v = version_name
       /\ In f (files t) /\ f_version_id f = v_id v
       /\ f_name f = file_name
       /\ select_file_sha256s project_name version_name file_name t
          = [f_sha256 f].
Proof.
  intros Hwf.
  destruct (select_file_sha256s project_name version_name file_name t)
    as [| h rest] eqn:Hsel.
  - left. split; [reflexivity |].
    intros (p & v & f & Hp & Hpname & Hv & Hvproject & Hvname & Hf
            & Hfversion & Hfname).
    rewrite (select_file_sha256s_unique _ _ _ t p v f Hwf Hp Hpname Hv
               Hvproject Hvname Hf Hfversion Hfname) in Hsel.
    discriminate.
  - right.
    destruct (select_file_sha256s_In project_name version_name file_name h t)
      as (p & v & f & Hp & Hpname & Hv & Hvproject & Hvname & Hf
          & Hfversion & Hfname & _).
    { rewrite Hsel. left. reflexivity. }
    exists p, v, f. repeat (split; [assumption |]).
    rewrite <- Hsel.
    apply (select_file_sha256s_unique _ _ _ t p v f); assumption.
Qed.

End Queries.

(** X10. On a well-formed index [retrieve_file_sha256] returns a hash
    exactly when the three names are let through by [validate_name] and
    the file of that name exists in the version of that name of the
    project of that name, and then it is that file's hash; otherwise it
    raises the invalid-name error or the file-not-found error. The
    committed index is never changed. *)
Theorem retrieve_file_sha256_exact (db : Database.Database)
    (project_name version_name file_name : string) :
  well_formed (Database.committed db) ->
  let found (h : string) :=
    exists p v f,
      In p (Database.projects (Database.committed db))
      /\ Database.p_name p = project_name
      /\ In v (Database.versions (Database.committed db))
      /\ Database.v_project_id v = Database.p_id p
      /\ Database.v_name v = version_name
      /\ In f (Database.files (Database.committed db))
      /\ Database.f_version_id f = Database.v_id v
      /\ Database.f_name f = file_name
      /\ Database.f_sha256 f = h in
  let valid :=
    valid_name project_name && valid_name version_name
    && valid_name file_name in
  Database.committed
    (snd (Database.retrieve_file_sha256 project_name version_name
            file_name db)) = Database.committed db
  /\ match fst (Database.retrieve_file_sha256 project_name version_name
                  file_name db) with
     | Ok h => valid = true /\ found h
     | Raise e =>
         (valid = false /\ e = DatabaseException "Invalid name")
         \/ (valid = true /\ e = DatabaseException "File not found"
             /\ forall h, ~ found h)
     end.
Proof.
  intros Hwf found valid.
  split; [apply retrieve_file_sha256_committed |].
  destruct valid eqn:Hvalid; subst valid.
  2: { rewrite (retrieve_file_sha256_invalid_name _ _ _ _ Hvalid).
       left. split; reflexivity. }
  rewrite (retrieve_file_sha256_run _ _ _ _ Hvalid). cbn zeta.
  destruct (select_file_sha256s_cases project_name version_name file_name
              _ Hwf)
    as [[Hsel Hnone] | (p & v & f & Hp & Hpname & Hv & Hvproject & Hvname
                        & Hf & Hfversion & Hfname & Hsel)];
    rewrite Hsel; cbn.
  - right. split; [reflexivity |]. split; [reflexivity |].
    intros h (p & v & f & H). apply Hnone. exists p, v, f. tauto.
  - split; [reflexivity |]. exists p, v, f. tauto.
Qed.

Lemma retrieve_file_sha256_exact_witness :
  Database.committed
    (snd (Database.retrieve_file_sha256 "ProjectX" "1.0" "fileC"
            database_fileAB)) = Database.committed database_fileAB
  /\ fst (Database.retrieve_file_sha256 "ProjectX" "1.0" "fileB"
            database_fileAB) = Ok SHA256_TEST2
  /\ fst (Database.retrieve_file_sha256 "ProjectX" "1.0" "fileC"
            database_fileAB) = Raise (DatabaseException "File not found").
Proof.
  assert (Hwf : well_formed (Database.committed database_fileAB))
    by solve_well_formed.
  split; [| split; vm_compute; reflexivity].
  exact (proj1 (retrieve_file_sha256_exact database_fileAB
                  "ProjectX" "1.0" "fileC" Hwf)).
Defined.

(** X11. [retrieve_projects] always succeeds and returns the project
    names, each as often as it is in the table, in ascending order of
    the byte-wise string comparison; it does not change the committed
    index and leaves the connection closed. *)
Theorem retrieve_projects_sorted (db : Database.Database) :
  exists names,
    Database.retrieve_projects db
      = (Ok names, {| Database.tables := Database.committed db;
                      Database.connection := None |})
    /\ Sorted (fun a b => String.leb a b = true) names
    /\ Permutation
         (map Database.p_name (Database.projects (Database.committed db)))
         names.
Proof.
  eexists. split; [reflexivity |]. split.
  - apply order_by_Sorted. apply String.leb_total.
  - apply order_by_Permutation.
Qed.

Section Listings.

Import Database.
Local Open Scope Z_scope.

Implicit Types (t : Tables) (db : Database).

Lemma select_project_ids_cases (project_name : string) t :
  well_formed t ->
  (select_project_ids project_name t = []
   /\ ~ exists p, In p (projects t) /\ p_name p = project_name)
  \/ exists p, In p (projects t) /\ p_name p = project_name
       /\ select_project_ids project_name t = [p_id p].
Proof.
  intros Hwf. unfold select_project_ids.
  destruct (List.filter _ (projects t)) as [| p rest] eqn:Hsel.
  - left. split; [reflexivity |]. intros (p & Hp & Hpname).
    assert (Hin : In p (List.filter
                          (fun p => String.eqb (p_name p) project_name)
                          (projects t))).
    { apply filter_In. split; [exact Hp |].
      apply String.eqb_eq. exact Hpname. }
    rewrite Hsel in Hin. destruct Hin.
  - right.
    assert (Hin : In p (List.filter
                          (fun p => String.eqb (p_name p) project_name)
                          (projects t)))
      by (rewrite Hsel; left; reflexivity).
    apply filter_In in Hin as [Hp Hpname].
    apply String.eqb_eq in Hpname.
    exists p. split; [exact Hp |]. split; [exact Hpname |].
    rewrite <- Hsel.
    rewrite (filter_unique_key p_name _ _ p (unique_project t Hwf) Hp);
      [reflexivity |].
    intros y. rewrite Hpname. apply project_test.
Qed.

Lemma retrieve_versions_run (project_name : string) db :
  valid_name project_name = true ->
  retrieve_versions project_name db =
    let rows := select_project_ids project_name (committed db) in
    if (length rows =? 1)%nat
    then
      (Ok (map (fun row => (v_name row, v_timestamp row, v_star row))
             (select_versions_of_project (nth 0 rows 0) (committed db))),
       {| tables := committed db; connection := None |})
    else (Raise (DatabaseException "Project not found"), open db).
Proof.
  intros Hvalid.
  unfold retrieve_versions, database_context_manager,
    retrieve_versions_method.
  unfold bind at 1. rewrite validate_name_run, Hvalid.
  cbv [bind execute_begin query execute execute_rollback execute_commit
       raise ret open close connection tables journal].
  destruct (length _ =? 1)%nat; reflexivity.
Qed.

Lemma retrieve_files_run (project_name version_name : string) db :
  valid_name project_name && valid_name version_name = true ->
  retrieve_files project_name version_name db =
    let rows := select_version_ids_by_names project_name version_name
                  (committed db) in
    if (length rows =? 1)%nat
    then
      (Ok (map (fun row => (f_name row, f_sha256 row))
             (order_by (fun a b => String.leb (f_name a) (f_name b))
                (List.filter (fun f => f_version_id f =? nth 0 rows 0)
                   (files (committed db))))),
       {| tables := committed db; connection := None |})
    else (Raise (DatabaseException "Version not found"), open db).
Proof.
  intros Hvalid. apply andb_true_iff in Hvalid as [Ha Hb].
  unfold retrieve_files, database_context_manager, retrieve_files_method.
  unfold bind at 1. rewrite validate_name_run, Ha.
  unfold bind at 1. rewrite validate_name_run, Hb.
  cbv [bind execute_begin query execute execute_rollback execute_commit
       raise ret open close connection tables journal].
  destruct (length _ =? 1)%nat; reflexivity.
Qed.

Lemma update_star_run (project_name version_name : string) (star : bool) db :
  valid_name project_name && valid_name version_name = true ->
  update_star project_name version_name (PyBool star) db =
    let rows := select_version_ids_by_names project_name version_name
                  (committed db) in
    if (length rows =? 1)%nat
    then
      (Ok tt,
       {| tables := update_version_star star (nth 0 rows 0) (committed db);
          connection := None |})
    else (Raise (DatabaseException "Version not found"), open db).
Proof.
  intros Hvalid. apply andb_true_iff in Hvalid as [Ha Hb].
  unfold update_star, database_context_manager, update_star_method.
  unfold bind at 1. rewrite validate_name_run, Ha.
  unfold bind at 1. rewrite validate_name_run, Hb.
  cbv [bind validate_star execute_begin query execute execute_rollback
       execute_commit raise ret open close connection tables journal].
  destruct (length _ =? 1)%nat; reflexivity.
Qed.

End Listings.

(** X12. On a well-formed index and for a name let through by
    [validate_name], [retrieve_versions] raises the project-not-found
    error exactly when no project has the name; otherwise it returns
    name, timestamp and star of exactly the versions of that project,
    newest first (timestamps never increase along the list). *)
Theorem retrieve_versions_sorted (db : Database.Database)
    (project_name : string) :
  well_formed (Database.committed db) ->
  valid_name project_name = true ->
  match fst (Database.retrieve_versions project_name db) with
  | Ok rows =>
      exists p,
        In p (Database.projects (Database.committed db))
        /\ Database.p_name p = project_name
        /\ Sorted (fun a b => (snd (fst b) <= snd (fst a))%Z) rows
        /\ Permutation
             (map (fun v => (Database.v_name v, Database.v_timestamp v,
                             Database.v_star v))
                  (List.filter
                     (fun v => (Database.v_project_id v
                                =? Database.p_id p)%Z)
                     (Database.versions (Database.committed db))))
             rows
  | Raise e =>
      e = DatabaseException "Project not found"
      /\ ~ exists p,
             In p (Database.projects (Database.committed db))
             /\ Database.p_name p = project_name
  end.
Proof.
  intros Hwf Hvalid.
  rewrite (retrieve_versions_run _ _ Hvalid). cbn zeta.
  destruct (select_project_ids_cases project_name _ Hwf)
    as [[Hsel Hnone] | (p & Hp & Hpname & Hsel)]; rewrite Hsel; cbn.
  - split; [reflexivity | exact Hnone].
  - exists p. split; [exact Hp |]. split; [exact Hpname |]. split.
    + apply (Sorted_map_rel _
               (fun a b => (Database.v_timestamp b
                            <=? Database.v_timestamp a)%Z = true)).
      * intros a b Hab. cbn. apply Z.leb_le. exact Hab.
      * apply order_by_Sorted. intros a b.
        rewrite !Z.leb_le. lia.
    + apply Permutation_map. unfold Database.select_versions_of_project.
      etransitivity; apply order_by_Permutation.
Qed.

Lemma retrieve_versions_sorted_witness :
  fst (Database.retrieve_versions "ProjectX" database_two_projects)
    = Ok [("2.0", 980, true); ("1.0", 940, true)]
  /\ match fst (Database.retrieve_versions "ProjectZ"
                  database_two_projects) with
     | Ok rows => False
     | Raise e =>
         e = DatabaseException "Project not found"
         /\ ~ exists p,
                In p (Database.projects
                        (Database.committed database_two_projects))
                /\ Database.p_name p = "ProjectZ"
     end.
Proof.
  split; [vm_compute; reflexivity |].
  assert (Hwf : well_formed (Database.committed database_two_projects))
    by solve_well_formed.
  pose proof (retrieve_versions_sorted database_two_projects "ProjectZ"
                Hwf eq_refl) as H.
  destruct (fst (Database.retrieve_versions "ProjectZ"
                   database_two_projects)) as [rows | e] eqn:Hrun.
  - vm_compute in Hrun. discriminate Hrun.
  - exact H.
Defined.

(** X13. On a well-formed index and for names let through by
    [validate_name], [retrieve_files] raises the version-not-found error
    exactly when the project has no version of that name (or there is no
    such project); otherwise it returns name and hash of exactly the
    files of that version, in ascending order of their names. *)
Theorem retrieve_files_sorted (db : Database.Database)
    (project_name version_name : string) :
  well_formed (Database.committed db) ->
  valid_name project_name && valid_name version_name = true ->
  match fst (Database.retrieve_files project_name version_name db) with
  | Ok rows =>
      exists p v,
        In p (Database.projects (Database.committed db))
        /\ Database.p_name p = project_name
        /\ In v (Database.versions (Database.committed db))
        /\ Database.v_project_id v = Database.p_id p
        /\ Database.v_name v = version_name
        /\ Sorted (fun a b => String.leb (fst a) (fst b) = true) rows
        /\ Permutation
             (map (fun f => (Database.f_name f, Database.f_sha256 f))
                  (List.filter
                     (fun f => (Database.f_version_id f
                                =? Database.v_id v)%Z)
                     (Database.files (Database.committed db))))
             rows
  | Raise e =>
      e = DatabaseException "Version not found"
      /\ ~ exists p v,
             In p (Database.projects (Database.committed db))
             /\ Database.p_name p = project_name
             /\ In v (Database.versions (Database.committed db))
             /\ Database.v_project_id v = Database.p_id p
             /\ Database.v_name v = version_name
  end.
Proof.
  intros Hwf Hvalid.
  rewrite (retrieve_files_run _ _ _ Hvalid). cbn zeta.
  destruct (select_version_ids_by_names_cases project_name version_name
              _ Hwf)
    as [[Hsel Hnone] | (p & v & Hp & Hpname & Hv & Hvproject & Hvname
                        & Hsel)]; rewrite Hsel; cbn.
  - split; [reflexivity | exact Hnone].
  - exists p, v. repeat (split; [assumption |]). split.
    + apply (Sorted_map_rel _
               (fun a b => String.leb (Database.f_name a)
                             (Database.f_name b) = true)).
      * intros a b Hab. exact Hab.
      * apply order_by_Sorted. intros a b. apply String.leb_total.
    + apply Permutation_map. apply order_by_Permutation.
Qed.

Lemma retrieve_files_sorted_witness :
  fst (Database.retrieve_files "ProjectX" "1.0" database_fileAB)
    = Ok [("fileA", SHA256_TEST1); ("fileB", SHA256_TEST2)]
  /\ match fst (Database.retrieve_files "ProjectX" "2.0"
                  database_fileAB) with
     | Ok rows => False
     | Raise e =>
         e = DatabaseException "Version not found"
         /\ ~ exists p v,
                In p (Database.projects
                        (Database.committed database_fileAB))
                /\ Database.p_name p = "ProjectX"
                /\ In v (Database.versions
                           (Database.committed database_fileAB))
                /\ Database.v_project_id v = Database.p_id p
                /\ Database.v_name v = "2.0"
     end.
Proof.
  split; [vm_compute; reflexivity |].
  assert (Hwf : well_formed (Database.committed database_fileAB))
    by solve_well_formed.
  pose proof (retrieve_files_sorted database_fileAB "ProjectX" "2.0"
                Hwf eq_refl) as H.
  destruct (fst (Database.retrieve_files "ProjectX" "2.0" database_fileAB))
    as [rows | e] eqn:Hrun.
  - vm_compute in Hrun. discriminate Hrun.
  - exact H.
Defined.

(** X14. [retrieve_sha256s] always succeeds and returns each hash
    that some file row carries exactly once, and nothing else. *)
Theorem retrieve_sha256s_distinct (db : Database.Database) :
  exists sha256s,
    Database.retrieve_sha256s db
      = (Ok sha256s, {| Database.tables := Database.committed db;
                        Database.connection := None |})
    /\ NoDup sha256s
    /\ forall h,
         In h sha256s
         <-> exists f, In f (Database.files (Database.committed db))
                       /\ Database.f_sha256 f = h.
Proof.
  eexists. split; [apply retrieve_sha256s_run |].
  split; [apply distinct_NoDup |].
  intros h. rewrite distinct_In, in_map_iff.
  split; intros (f & H1 & H2); exists f; auto.
Qed.

Section Stars.

Import Database.
Local Open Scope Z_scope.

Implicit Types (t : Tables) (db : Database).

Lemma NoDup_map_In_inj {A K : Type} (key : A -> K) (l : list A) (x y : A) :
  NoDup (map key l) -> In x l -> In y l -> key x = key y -> x = y.
Proof.
  intros Hnodup Hx Hy Heq.
  induction l as [| a l IH]; [destruct Hx |].
  cbn [map] in Hnodup. apply NoDup_cons in Hnodup as [Hnotin Hnodup].
  rewrite list_elem_of_In in Hnotin.
  destruct Hx as [-> | Hx], Hy as [-> | Hy]; auto.
  - exfalso. apply Hnotin. rewrite Heq. apply in_map. exact Hy.
  - exfalso. apply Hnotin. rewrite <- Heq. apply in_map. exact Hx.
Qed.

Lemma update_version_star_twice (star : bool) (version_id : Z) t :
  update_version_star star version_id
    (update_version_star star version_id t)
  = update_version_star star version_id t.
Proof.
  unfold update_version_star. cbn [projects versions files]. f_equal.
  rewrite map_map. apply map_ext. intros v.
  destruct (v_id v =? version_id) eqn:Hid; cbn [v_id]; rewrite Hid;
    reflexivity.
Qed.

Lemma update_star_invalid_star (project_name version_name : string)
    (star : pyvalue) db :
  valid_name project_name && valid_name version_name = true ->
  (forall b, star <> PyBool b) ->
  update_star project_name version_name star db =
    (Raise (DatabaseException "Invalid star state"), open db).
Proof.
  intros Hvalid Hstar. apply andb_true_iff in Hvalid as [Ha Hb].
  unfold update_star, database_context_manager, update_star_method.
  unfold bind at 1. rewrite validate_name_run, Ha.
  unfold bind at 1. rewrite validate_name_run, Hb.
  destruct star as [b | | |]; try reflexivity.
  exfalso. exact (Hstar b eq_refl).
Qed.

End Stars.

(** X15. For an existing version of a well-formed index,
    [update_star] succeeds and changes only the star of that version: its
    id, project, name and timestamp stay, every other version row, all
    project rows and all file rows are unchanged. Setting the same value
    again succeeds and changes nothing. *)
Theorem update_star_sets_one_star (db : Database.Database)
    (project_name version_name : string) (star : bool)
    (p : Database.ProjectRow) (v : Database.VersionRow) :
  well_formed (Database.committed db) ->
  valid_name project_name && valid_name version_name = true ->
  In p (Database.projects (Database.committed db)) ->
  Database.p_name p = project_name ->
  In v (Database.versions (Database.committed db)) ->
  Database.v_project_id v = Database.p_id p ->
  Database.v_name v = version_name ->
  exists db',
    Database.update_star project_name version_name (PyBool star) db
      = (Ok tt, db')
    /\ Database.projects (Database.committed db')
       = Database.projects (Database.committed db)
    /\ Database.files (Database.committed db')
       = Database.files (Database.committed db)
    /\ In {| Database.v_id := Database.v_id v;
             Database.v_project_id := Database.v_project_id v;
             Database.v_name := Database.v_name v;
             Database.v_timestamp := Database.v_timestamp v;
             Database.v_star := star |}
          (Database.versions (Database.committed db'))
    /\ (forall x,
          In x (Database.versions (Database.committed db)) -> x <> v ->
          In x (Database.versions (Database.committed db')))
    /\ length (Database.versions (Database.committed db'))
       = length (Database.versions (Database.committed db))
    /\ exists db'',
         Database.update_star project_name version_name (PyBool star) db'
           = (Ok tt, db'')
         /\ Database.committed db'' = Database.committed db'.
Proof.
  intros Hwf Hvalid Hp Hpname Hv Hvproject Hvname.
  assert (Hrun : Database.update_star project_name version_name
                   (PyBool star) db
                 = (Ok tt,
                    {| Database.tables :=
                         Database.update_version_star star (Database.v_id v)
                           (Database.committed db);
                       Database.connection := None |})).
  { rewrite (update_star_run _ _ _ _ Hvalid). cbn zeta.
    rewrite (select_version_ids_by_names_unique _ _ _ p v Hwf Hp Hpname Hv
               Hvproject Hvname).
    reflexivity. }
  remember (Database.committed db) as t eqn:Ht.
  remember (Database.update_version_star star (Database.v_id v) t)
    as t' eqn:Ht'.
  eexists. split; [exact Hrun |].
  cbn [Database.committed Database.connection Database.tables].
  assert (Hv' : In {| Database.v_id := Database.v_id v;
                      Database.v_project_id := Database.v_project_id v;
                      Database.v_name := Database.v_name v;
                      Database.v_timestamp := Database.v_timestamp v;
                      Database.v_star := star |}
                   (Database.versions t')).
  { subst t'. unfold Database.update_version_star. cbn [Database.versions].
    apply in_map_iff. exists v. split; [| exact Hv].
    rewrite Z.eqb_refl. reflexivity. }
  assert (Hwf' : well_formed t')
    by (subst t'; apply update_version_star_well_formed; exact Hwf).
  split; [subst t'; reflexivity |]. split; [subst t'; reflexivity |].
  split; [exact Hv' |].
  split; [| split].
  - intros x Hx Hne.
    subst t'. unfold Database.update_version_star. cbn [Database.versions].
    apply in_map_iff. exists x. split; [| exact Hx].
    destruct (Z.eqb_spec (Database.v_id x) (Database.v_id v)) as [Heq | _];
      [| reflexivity].
    exfalso. apply Hne.
    exact (NoDup_map_In_inj Database.v_id _ x v (version_key t Hwf)
             Hx Hv Heq).
  - subst t'. unfold Database.update_version_star. cbn [Database.versions].
    apply length_map.
  - assert (Hp' : In p (Database.projects t')) by (subst t'; exact Hp).
    eexists. split.
    + rewrite (update_star_run _ _ _ _ Hvalid). cbn zeta.
      cbn [Database.committed Database.connection Database.tables].
      rewrite (select_version_ids_by_names_unique _ _ _ p _ Hwf' Hp' Hpname
                 Hv' Hvproject Hvname).
      reflexivity.
    + cbn [nth Database.v_id Database.committed Database.connection
           Database.tables].
      subst t'. apply update_version_star_twice.
Qed.

Lemma update_star_sets_one_star_witness :
  exists db',
    Database.update_star "ProjectX" "1.0" (PyBool true) database_fileA
      = (Ok tt, db')
    /\ In {| Database.v_id := 1; Database.v_project_id := 1;
             Database.v_name := "1.0"; Database.v_timestamp := 1000;
             Database.v_star := true |}
          (Database.versions (Database.committed db'))
    /\ exists db'',
         Database.update_star "ProjectX" "1.0" (PyBool true) db'
           = (Ok tt, db'')
         /\ Database.committed db'' = Database.committed db'.
Proof.
  destruct (update_star_sets_one_star database_fileA "ProjectX" "1.0" true
              {| Database.p_id := 1; Database.p_name := "ProjectX" |}
              {| Database.v_id := 1; Database.v_project_id := 1;
                 Database.v_name := "1.0"; Database.v_timestamp := 1000;
                 Database.v_star := false |})
    as (db' & Hrun & _ & _ & Hv & _ & _ & Hagain).
  - solve_well_formed.
  - reflexivity.
  - vm_compute. left. reflexivity.
  - reflexivity.
  - vm_compute. left. reflexivity.
  - reflexivity.
  - reflexivity.
  - exists db'. split; [exact Hrun |]. split; [exact Hv | exact Hagain].
Defined.

(** X16. On a well-formed index [update_star] succeeds exactly when
    the names are let through by [validate_name], the star is a boolean
    and the version exists. Otherwise it raises, in this order of
    precedence, the invalid-name error, the invalid-star-state error (for
    anything that is not a boolean, an integer included) or the
    version-not-found error, and the committed index is unchanged. *)
Theorem update_star_outcomes (db : Database.Database)
    (project_name version_name : string) (star : pyvalue) :
  well_formed (Database.committed db) ->
  let valid := valid_name project_name && valid_name version_name in
  let exists_version :=
    exists p v,
      In p (Database.projects (Database.committed db))
      /\ Database.p_name p = project_name
      /\ In v (Database.versions (Database.committed db))
      /\ Database.v_project_id v = Database.p_id p
      /\ Database.v_name v = version_name in
  match fst (Database.update_star project_name version_name star db) with
  | Ok _ => valid = true /\ (exists b, star = PyBool b) /\ exists_version
  | Raise e =>
      Database.committed
        (snd (Database.update_star project_name version_name star db))
      = Database.committed db
      /\ ((valid = false /\ e = DatabaseException "Invalid name")
          \/ (valid = true /\ (forall b, star <> PyBool b)
              /\ e = DatabaseException "Invalid star state")
          \/ (valid = true /\ (exists b, star = PyBool b)
              /\ ~ exists_version
              /\ e = DatabaseException "Version not found"))
  end.
Proof.
  intros Hwf valid exists_version.
  destruct valid eqn:Hvalid; subst valid.
  2: { rewrite (update_star_invalid_name _ _ _ _ Hvalid). cbn.
       split; [reflexivity |]. left. split; reflexivity. }
  destruct star as [b | z | s |].
  2-4: rewrite (update_star_invalid_star _ _ _ _ Hvalid)
         by (intros b; discriminate);
       cbn; (split; [reflexivity |]); right; left;
       (split; [reflexivity |]); (split; [| reflexivity]);
       intros b; discriminate.
  rewrite (update_star_run _ _ _ _ Hvalid). cbn zeta.
  destruct (select_version_ids_by_names_cases project_name version_name
              _ Hwf)
    as [[Hsel Hnone] | (p & v & Hp & Hpname & Hv & Hvproject & Hvname
                        & Hsel)]; rewrite Hsel; cbn.
  - split; [reflexivity |]. right. right.
    split; [reflexivity |]. split; [eauto |].
    split; [exact Hnone | reflexivity].
  - split; [reflexivity |]. split; [eauto |].
    exists p, v. tauto.
Qed.

Lemma update_star_outcomes_witness :
  fst (Database.update_star "ProjectX" "1.0" (PyInt 1) database_fileA)
    = Raise (DatabaseException "Invalid star state")
  /\ fst (Database.update_star "ProjectX" "2.0" (PyBool true)
            database_fileA)
     = Raise (DatabaseException "Version not found")
  /\ Database.committed
       (snd (Database.update_star "ProjectX" "2.0" (PyBool true)
               database_fileA))
     = Database.committed database_fileA.
Proof.
  split; [vm_compute; reflexivity |].
  split; [vm_compute; reflexivity |].
  assert (Hwf : well_formed (Database.committed database_fileA))
    by solve_well_formed.
  pose proof (update_star_outcomes database_fileA "ProjectX" "2.0"
                (PyBool true) Hwf) as H.
  cbn zeta in H.
  destruct (fst (Database.update_star "ProjectX" "2.0" (PyBool true)
                   database_fileA)) as [[] | e] eqn:Hrun.
  - vm_compute in Hrun. discriminate Hrun.
  - exact (proj1 H).
Defined.

Lemma reachable_well_formed_witness :
  well_formed (Database.committed database_two_projects).
Proof.
  apply reachable_well_formed.
  cbv beta zeta delta [database_two_projects].
  apply reachable_update_star, reachable_update_star.
  apply reachable_create_file, reachable_create_file.
  apply reachable_create_file, reachable_create_file.
  apply reachable_new.
Defined.

(** ** More on uploads *)

Section Uploads.

Import Datastore Database Engine.
Local Open Scope Z_scope.

Implicit Types (t : Tables) (db : Database) (e : Engine).

Lemma insert_or_ignore_project_new (name : string) t :
  projects (insert_or_ignore_project name t) = projects t
  \/ projects (insert_or_ignore_project name t)
     = (projects t ++ [{| p_id := next_id (map p_id (projects t));
                          p_name := name |}])%list.
Proof.
  unfold insert_or_ignore_project.
  destruct (existsb _ (projects t)); [left | right]; reflexivity.
Qed.

(** The file INSERT of [create_file] is accepted when the file is not
    there yet. *)
Lemma create_file_statements_fresh
    (project_name version_name file_name sha256 : string) (timestamp : Z) t :
  well_formed t ->
  (~ exists p v f,
       In p (projects t) /\ p_name p = project_name
       /\ In v (versions t) /\ v_project_id v = p_id p
       /\ v_name v = version_name
       /\ In f (files t) /\ f_version_id f = v_id v
       /\ f_name f = file_name) ->
  exists t3,
    create_file_statements project_name version_name file_name sha256
      timestamp t = (Ok tt, t3).
Proof.
  intros Hwf Hnone.
  destruct (create_file_statements_spec project_name version_name file_name
              sha256 timestamp t Hwf)
    as (p & v & t2 & _ & Hins2 & _ & Hstmts & Hp & Hpname & Hv & Hvproject
        & Hvname & Hfiles & Hwf2).
  cbn zeta in Hins2. rewrite Hstmts.
  rewrite (insert_file_spec _ _ _ _ (in_map v_id _ _ Hv)).
  destruct (existsb _ (files t2)) eqn:Hdup; [| eauto].
  exfalso.
  apply (existsb_true_key (fun f => (f_version_id f, f_name f))
           _ _ (v_id v, file_name) (file_test (v_id v) file_name)) in Hdup
    as (f & Hf & Hkey).
  injection Hkey as Hfversion Hfname.
  rewrite Hfiles in Hf.
  destruct (insert_or_ignore_project_shape project_name t)
    as (Hversions1 & _ & _).
  destruct (insert_or_ignore_version_shape (p_id p) version_name timestamp
              (insert_or_ignore_project project_name t))
    as (Hprojects2 & _ & new_versions & Hversions2 & _).
  rewrite Hins2 in Hprojects2, Hversions2. cbn [snd] in *.
  rewrite Hversions1 in Hversions2.
  (* the version the file references is an old one *)
  assert (Hvold : In v (versions t)).
  { pose proof (file_version t Hwf) as Hfk. rewrite Forall_forall in Hfk.
    specialize (Hfk f (proj2 (list_elem_of_In _ _) Hf)).
    apply in_map_iff in Hfk as (v1 & Hid & Hv1).
    assert (Hv1' : In v1 (versions t2))
      by (rewrite Hversions2; apply in_or_app; left; exact Hv1).
    assert (v1 = v); [| subst; exact Hv1].
    apply (NoDup_map_In_inj v_id (versions t2)); auto.
    - exact (version_key t2 Hwf2).
    - congruence. }
  (* so its project is an old one too *)
  assert (Hpold : In p (projects t)).
  { rewrite Hprojects2 in Hp.
    destruct (insert_or_ignore_project_new project_name t) as [Heq | Heq];
      rewrite Heq in Hp; [exact Hp |].
    apply in_app_or in Hp as [Hp | [<- | []]]; [exact Hp |].
    exfalso. cbn [p_id] in Hvproject.
    pose proof (version_project t Hwf) as Hfk. rewrite Forall_forall in Hfk.
    specialize (Hfk v (proj2 (list_elem_of_In _ _) Hvold)).
    rewrite Hvproject in Hfk. exact (next_id_fresh _ Hfk). }
  apply Hnone. exists p, v, f. tauto.
Qed.

End Uploads.

(** X18. On a well-formed index, when no file of that name exists yet
    ([retrieve_file_sha256] answers file-not-found), the temporary name
    is free, and the timestamps [now - age] of the blob and of the
    version are 64-bit integers, the upload of a byte sequence
    succeeds. *)
Theorem upload_succeeds (e : Engine.Engine)
    (project_name version_name file_name : string) (b : bytes) (age : Z)
    (suffix : string) (wtime : Q) (now_blob now_file : Z) :
  well_formed (Database.committed (Engine.database e)) ->
  fst (Database.retrieve_file_sha256 project_name version_name file_name
         (Engine.database e))
    = Raise (DatabaseException "File not found") ->
  Engine.datastore e !! (hexlify (SHA256.digest b) ++ "-" ++ suffix)%string
    = None ->
  (- 2 ^ 63 <= now_blob - age < 2 ^ 63)%Z ->
  (- 2 ^ 63 <= now_file - age < 2 ^ 63)%Z ->
  exists e',
    Engine.upload project_name version_name file_name (Datastore.BytesIO b)
      age suffix wtime now_blob now_file e = (Ok tt, e').
Proof.
  intros Hwf Hmissing Hfree Hblob_range Hfile_range.
  apply int64_iff in Hblob_range, Hfile_range.
  destruct (valid_name project_name && valid_name version_name
            && valid_name file_name) eqn:Hvalid.
  2: { rewrite (retrieve_file_sha256_invalid_name _ _ _ _ Hvalid)
         in Hmissing. discriminate. }
  rewrite (retrieve_file_sha256_run _ _ _ _ Hvalid) in Hmissing.
  cbn zeta in Hmissing.
  destruct (select_file_sha256s_cases project_name version_name file_name
              _ Hwf)
    as [[Hsel Hnone] | (p & v & f & _ & _ & _ & _ & _ & _ & _ & _ & Hsel)];
    rewrite Hsel in Hmissing; [| discriminate].
  destruct (create_file_statements_fresh project_name version_name file_name
              (hexlify (SHA256.digest b)) (now_file - age) _ Hwf Hnone)
    as (t3 & Hstmts).
  destruct (create_blob_spec b age suffix wtime now_blob
              (Engine.datastore e) Hblob_range Hfree) as (stream' & Hblob).
  eexists. unfold Engine.upload, bind, Engine.on_datastore.
  rewrite Hblob. cbn [fst].
  unfold Engine.on_database. cbn [Engine.database].
  rewrite (create_file_run _ _ _ _ _ _ _ Hwf), Hvalid, hexdigest_valid,
    Hfile_range, Hstmts.
  reflexivity.
Qed.

Lemma upload_succeeds_witness :
  exists e',
    Engine.upload "ProjectX" "1.0" "fileB" (Datastore.BytesIO foo)
      0 sample_suffix (inject_Z 1010) 1010 1010 engine_with_foo
    = (Ok tt, e').
Proof.
  apply (upload_succeeds engine_with_foo "ProjectX" "1.0" "fileB" foo 0
           sample_suffix (inject_Z 1010) 1010 1010).
  - solve_well_formed.
  - vm_compute. reflexivity.
  - vm_compute. reflexivity.
  - lia.
  - lia.
Defined.

(** X19. When an upload whose temporary name is free, and whose
    timestamps [now - age] of the blob and of the version are 64-bit
    integers, fails, it fails in [create_file], with the invalid-name or
    the duplicate-file error (never with the invalid-hash error); the
    committed index is unchanged but the blob has been written and stays
    in the datastore. *)
Theorem upload_failure_keeps_blob (e e' : Engine.Engine)
    (project_name version_name file_name : string) (b : bytes) (age : Z)
    (suffix : string) (wtime : Q) (now_blob now_file : Z) (err : exn) :
  well_formed (Database.committed (Engine.database e)) ->
  Engine.datastore e !! (hexlify (SHA256.digest b) ++ "-" ++ suffix)%string
    = None ->
  (- 2 ^ 63 <= now_blob - age < 2 ^ 63)%Z ->
  (- 2 ^ 63 <= now_file - age < 2 ^ 63)%Z ->
  Engine.upload project_name version_name file_name (Datastore.BytesIO b)
    age suffix wtime now_blob now_file e = (Raise err, e') ->
  (err = DatabaseException "Invalid name"
   \/ err = DatabaseException "Unable to create file")
  /\ Database.committed (Engine.database e')
     = Database.committed (Engine.database e)
  /\ Engine.datastore e'
     = <[hexlify (SHA256.digest b) :=
           {| Datastore.content := b;
              Datastore.mtime := inject_Z (now_blob - age) |}]>
         (Engine.datastore e).
Proof.
  intros Hwf Hfree Hblob_range Hfile_range Hup.
  apply int64_iff in Hblob_range, Hfile_range.
  destruct (create_blob_spec b age suffix wtime now_blob
              (Engine.datastore e) Hblob_range Hfree) as (stream' & Hblob).
  unfold Engine.upload, bind, Engine.on_datastore in Hup.
  rewrite Hblob in Hup. cbn [fst] in Hup.
  unfold Engine.on_database in Hup. cbn [Engine.database] in Hup.
  rewrite (create_file_run _ _ _ _ _ _ _ Hwf), hexdigest_valid, Hfile_range
    in Hup.
  cbn [negb] in Hup.
  destruct (negb _).
  - injection Hup as <- <-. auto.
  - destruct (create_file_statements _ _ _ _ _ _) as [[[] | err'] t3];
      [discriminate |].
    injection Hup as <- <-. auto.
Qed.

Lemma upload_failure_keeps_blob_witness :
  (DatabaseException "Unable to create file"
   = DatabaseException "Invalid name"
   \/ DatabaseException "Unable to create file"
      = DatabaseException "Unable to create file")
  /\ Database.committed
       (Engine.database
          (snd (Engine.upload "ProjectX" "1.0" "fileA"
                  (Datastore.BytesIO []) 0 sample_suffix (inject_Z 1010)
                  1010 1010 engine_with_foo)))
     = Database.committed (Engine.database engine_with_foo)
  /\ Engine.datastore
       (snd (Engine.upload "ProjectX" "1.0" "fileA"
               (Datastore.BytesIO []) 0 sample_suffix (inject_Z 1010)
               1010 1010 engine_with_foo))
     = <[hexlify (SHA256.digest []) :=
           {| Datastore.content := [];
              Datastore.mtime := inject_Z (1010 - 0) |}]>
         (Engine.datastore engine_with_foo).
Proof.
  apply (upload_failure_keeps_blob engine_with_foo _ "ProjectX" "1.0"
           "fileA" [] 0 sample_suffix (inject_Z 1010) 1010 1010).
  - solve_well_formed.
  - vm_compute. reflexivity.
  - lia.
  - lia.
  - vm_compute. reflexivity.
Defined.

(** ** Cleanup and the files that stay *)

Section CleanupKeeps.

Import Datastore Database Engine.
Local Open Scope Z_scope.

Implicit Types (t : Tables) (db : Database) (e : Engine).

(** What a successful download has found. *)
Lemma download_ok (e : Engine) (project_name version_name file_name : string)
    (stream : Stream) :
  well_formed (committed (database e)) ->
  fst (download project_name version_name file_name e) = Ok stream ->
  valid_name project_name && valid_name version_name
    && valid_name file_name = true
  /\ exists p v f blob,
       In p (projects (committed (database e)))
       /\ p_name p = project_name
       /\ In v (versions (committed (database e)))
       /\ v_project_id v = p_id p /\ v_name v = version_name
       /\ In f (files (committed (database e)))
       /\ f_version_id f = v_id v /\ f_name f = file_name
       /\ sha256_regex_search (f_sha256 f) = true
       /\ datastore e !! f_sha256 f = Some blob
       /\ stream = BytesIO (content blob).
Proof.
  intros Hwf Hdown.
  unfold download, bind, on_database in Hdown.
  destruct (valid_name project_name && valid_name version_name
            && valid_name file_name) eqn:Hvalid.
  2: { rewrite (retrieve_file_sha256_invalid_name _ _ _ _ Hvalid) in Hdown.
       discriminate. }
  split; [reflexivity |].
  rewrite (retrieve_file_sha256_run _ _ _ _ Hvalid) in Hdown.
  cbn zeta in Hdown.
  destruct (select_file_sha256s_cases project_name version_name file_name
              _ Hwf)
    as [[Hsel _] | (p & v & f & Hp & Hpname & Hv & Hvproject & Hvname
                    & Hf & Hfversion & Hfname & Hsel)];
    rewrite Hsel in Hdown; [discriminate |].
  cbn [length Nat.eqb nth] in Hdown.
  unfold on_datastore in Hdown. cbn [datastore] in Hdown.
  unfold retrieve_blob, bind, Datastore.validate_sha256 in Hdown.
  destruct (sha256_regex_search (f_sha256 f)) eqn:Hsha; [| discriminate].
  cbn in Hdown.
  destruct (datastore e !! f_sha256 f) as [blob |] eqn:Hblob;
    [| discriminate].
  cbn in Hdown. injection Hdown as <-.
  exists p, v, f, blob. tauto.
Qed.

End CleanupKeeps.

(** X20. A [cleanup()] whose timestamp [now - obsolete_age] is a
    64-bit integer never breaks a download of a file whose version is
    starred or younger than the obsolete age: if [download] returned a
    stream before, and the version is not obsolete at the clock reading
    of the cleanup, then the cleanup completes and [download] returns
    the same bytes after it. *)
Theorem cleanup_preserves_download (e : Engine.Engine)
    (project_name version_name file_name : string)
    (stream : Datastore.Stream)
    (p : Database.ProjectRow) (v : Database.VersionRow)
    (now_versions now_blobs : Z) :
  well_formed (Database.committed (Engine.database e)) ->
  fst (Engine.download project_name version_name file_name e) = Ok stream ->
  In p (Database.projects (Database.committed (Engine.database e))) ->
  Database.p_name p = project_name ->
  In v (Database.versions (Database.committed (Engine.database e))) ->
  Database.v_project_id v = Database.p_id p ->
  Database.v_name v = version_name ->
  Database.v_star v = true
  \/ (now_versions - Engine.obsolete_age e < Database.v_timestamp v)%Z ->
  (- 2 ^ 63 <= now_versions - Engine.obsolete_age e < 2 ^ 63)%Z ->
  exists e',
    Engine.cleanup now_versions now_blobs e = (Ok tt, e')
    /\ fst (Engine.download project_name version_name file_name e')
       = Ok stream.
Proof.
  intros Hwf Hdown Hp Hpname Hv Hvproject Hvname Hkept Hrange.
  apply int64_iff in Hrange.
  destruct (download_ok e _ _ _ _ Hwf Hdown)
    as (Hvalid & p' & v' & f & blob & Hp' & Hpname' & Hv' & Hvproject'
        & Hvname' & Hf & Hfversion & Hfname & Hsha & Hblob & ->).
  set (t := Database.committed (Engine.database e)) in *.
  assert (p' = p) as ->.
  { apply (NoDup_map_In_inj Database.p_name (Database.projects t)); auto.
    - exact (unique_project t Hwf).
    - congruence. }
  assert (v' = v) as ->.
  { apply (NoDup_map_In_inj
             (fun v => (Database.v_project_id v, Database.v_name v))
             (Database.versions t)); auto.
    - exact (unique_version t Hwf).
    - cbn beta. congruence. }
  pose proof (cleanup_run now_versions now_blobs e) as Hrun.
  cbn zeta in Hrun. rewrite Hrange in Hrun. fold t in Hrun.
  set (timestamp := (now_versions - Engine.obsolete_age e)%Z) in *.
  set (t' := Database.delete_versions_where_obsolete timestamp t) in *.
  set (live := Database.distinct
                 (map Database.f_sha256 (Database.files t'))) in *.
  destruct (delete_unreferenced_blobs_spec live now_blobs
              (Engine.datastore e)) as (d' & Hscan & Hlook).
  rewrite Hscan in Hrun.
  eexists. split; [exact Hrun |].
  assert (Hnot : Database.obsolete timestamp v = false).
  { destruct (Database.obsolete timestamp v) eqn:Hobs; [| reflexivity].
    apply obsolete_iff in Hobs as [Hstar Hold].
    destruct Hkept as [Hkept | Hkept]; [congruence | lia]. }
  assert (Hwf' : well_formed t')
    by (apply delete_versions_where_obsolete_well_formed; exact Hwf).
  assert (Hv'' : In v (Database.versions t')).
  { unfold t', Database.delete_versions_where_obsolete.
    cbn [Database.versions]. apply filter_In.
    split; [exact Hv | rewrite Hnot; reflexivity]. }
  assert (Hf' : In f (Database.files t')).
  { unfold t', Database.delete_versions_where_obsolete.
    cbn [Database.files]. apply filter_In. split; [exact Hf |].
    apply negb_true_iff.
    destruct (existsb _ _) eqn:Hex; [| reflexivity].
    exfalso. apply cascade_iff in Hex as (v2 & Hv2 & Hid & Hobs).
    assert (v2 = v).
    { apply (NoDup_map_In_inj Database.v_id (Database.versions t)); auto.
      - exact (version_key t Hwf).
      - congruence. }
    subst v2.
    assert (Database.obsolete timestamp v = true)
      by (apply obsolete_iff; exact Hobs).
    congruence. }
  assert (Hlive : In (Database.f_sha256 f) live).
  { unfold live. apply distinct_In. apply in_map. exact Hf'. }
  assert (Hblob' : d' !! Database.f_sha256 f = Some blob).
  { rewrite Hlook, Hblob.
    rewrite (proj2 (unreferenced_and_old_false now_blobs live _ blob));
      [reflexivity | right; exact Hlive]. }
  unfold Engine.download, bind, Engine.on_database.
  cbn [Engine.database].
  rewrite (retrieve_file_sha256_run _ _ _ _ Hvalid). cbn zeta.
  change (Database.committed _) with t'.
  rewrite (select_file_sha256s_unique _ _ _ t' p v f Hwf' Hp Hpname Hv''
             Hvproject Hvname Hf' Hfversion Hfname).
  cbn [length Nat.eqb nth]. unfold Engine.on_datastore.
  cbn [Engine.datastore].
  rewrite (retrieve_blob_found _ _ blob Hsha Hblob'). reflexivity.
Qed.

Lemma cleanup_preserves_download_witness :
  exists e',
    Engine.cleanup 5000 5000 engine_with_foo = (Ok tt, e')
    /\ fst (Engine.download "ProjectX" "1.0" "fileA" e')
       = Ok (Datastore.BytesIO foo).
Proof.
  apply (cleanup_preserves_download engine_with_foo "ProjectX" "1.0" "fileA"
           (Datastore.BytesIO foo)
           {| Database.p_id := 1; Database.p_name := "ProjectX" |}
           {| Database.v_id := 1; Database.v_project_id := 1;
              Database.v_name := "1.0"; Database.v_timestamp := 1000;
              Database.v_star := false |}
           5000 5000).
  - solve_well_formed.
  - vm_compute. reflexivity.
  - vm_compute. left. reflexivity.
  - reflexivity.
  - vm_compute. left. reflexivity.
  - reflexivity.
  - reflexivity.
  - right. vm_compute. reflexivity.
  - vm_compute. split; [discriminate | reflexivity].
Defined.

(** ** The version listing *)

Section VersionListing.

Import Database Engine.
Local Open Scope Z_scope.





End VersionListing.



(** X22. For a positive number of seconds [format_expiry] names one
    count and one unit, and the count is in the unit's range: seconds
    are exact and below 60, minutes are between 1 and 59 and within 30
    seconds of the input, hours are between 1 and 23, days are at least
    1. Hours and days are rounded from the rounded minutes (and hours),
    so they can be half a unit and half of each smaller unit away from
    the input: 5370 seconds, under an hour and a half, is shown as
    2 hours. *)
Theorem format_expiry_rounding (expiry : Z) :
  (0 < expiry)%Z ->
  exists (count : Z) (unit : string) (size : Z),
    Engine.format_expiry expiry
    = ("expires in " ++ Engine.format_unit count unit)%string
    /\ (1 <= count)%Z
    /\ ((unit = "second" /\ size = 1%Z /\ count = expiry
         /\ (count < 60)%Z)
        \/ (unit = "minute" /\ size = 60%Z /\ (count < 60)%Z
            /\ (- 30 <= expiry - count * size < 30)%Z)
        \/ (unit = "hour" /\ size = 3600%Z /\ (count < 24)%Z
            /\ (- 1830 <= expiry - count * size < 1770)%Z)
        \/ (unit = "day" /\ size = 86400%Z
            /\ (- 45030 <= expiry - count * size < 41370)%Z)).
Proof.
  intros Hpos. unfold Engine.format_expiry, Engine.format_approximate.
  destruct (Z.leb_spec expiry 0) as [Hle | _]; [lia |].
  destruct (Z.geb_spec expiry 60) as [Hminute | Hsecond].
  2: { exists expiry, "second", 1%Z.
       split; [reflexivity |]. split; [lia |]. left. repeat split; lia. }
  cbn zeta.
  pose proof (Z.div_mod (expiry + 30) 60 ltac:(lia)) as Hm.
  pose proof (Z.mod_pos_bound (expiry + 30) 60 ltac:(lia)) as Hm'.
  set (minutes := ((expiry + 30) / 60)%Z) in *.
  destruct (Z.geb_spec minutes 60) as [Hhour | Hminute'].
  2: { exists minutes, "minute", 60%Z.
       split; [reflexivity |]. split; [lia |].
       right. left. repeat split; lia. }
  pose proof (Z.div_mod (minutes + 30) 60 ltac:(lia)) as Hh.
  pose proof (Z.mod_pos_bound (minutes + 30) 60 ltac:(lia)) as Hh'.
  set (hours := ((minutes + 30) / 60)%Z) in *.
  destruct (Z.geb_spec hours 24) as [Hday | Hhour'].
  2: { exists hours, "hour", 3600%Z.
       split; [reflexivity |]. split; [lia |].
       right. right. left. repeat split; lia. }
  pose proof (Z.div_mod (hours + 12) 24 ltac:(lia)) as Hd.
  pose proof (Z.mod_pos_bound (hours + 12) 24 ltac:(lia)) as Hd'.
  set (days := ((hours + 12) / 24)%Z) in *.
  exists days, "day", 86400%Z.
  split; [reflexivity |]. split; [lia |].
  right. right. right. repeat split; lia.
Qed.

Lemma format_expiry_rounding_witness :
  exists (count : Z) (unit : string) (size : Z),
    Engine.format_expiry 5370
    = ("expires in " ++ Engine.format_unit count unit)%string
    /\ (1 <= count)%Z
    /\ ((unit = "second" /\ size = 1%Z /\ count = 5370%Z
         /\ (count < 60)%Z)
        \/ (unit = "minute" /\ size = 60%Z /\ (count < 60)%Z
            /\ (- 30 <= 5370 - count * size < 30)%Z)
        \/ (unit = "hour" /\ size = 3600%Z /\ (count < 24)%Z
            /\ (- 1830 <= 5370 - count * size < 1770)%Z)
        \/ (unit = "day" /\ size = 86400%Z
            /\ (- 45030 <= 5370 - count * size < 41370)%Z)).
Proof.
  apply (format_expiry_rounding 5370). lia.
Defined.

(** The input of the doc comment above. *)
Example format_expiry_double_rounding :
  Engine.format_expiry 5370 = "expires in 2 hours".
Proof. vm_compute. reflexivity. Qed.

(** ** Timestamps outside the 64-bit range *)

(** X23. A timestamp [now - age] that is not a 64-bit integer cannot
    be bound to a statement: [delete_obsolete_versions] raises
    [OverflowError] and deletes nothing, and [create_file], called with
    names and a hash that pass validation, raises [OverflowError] at the
    version INSERT, inside its transaction, and commits nothing. Either
    call returns with the connection still open. *)
Theorem timestamp_overflow_commits_nothing (db : Database.Database)
    (project_name version_name file_name sha256 : string) (age now : Z) :
  well_formed (Database.committed db) ->
  (now - age < - 2 ^ 63 \/ 2 ^ 63 <= now - age)%Z ->
  valid_name project_name && valid_name version_name
    && valid_name file_name = true ->
  sha256_regex_search sha256 = true ->
  (exists db',
     Database.delete_obsolete_versions age now db
       = (Raise OverflowError, db')
     /\ Database.committed db' = Database.committed db
     /\ Database.connection db' <> None)
  /\ (exists db',
        Database.create_file project_name version_name file_name sha256
          age now db = (Raise OverflowError, db')
        /\ Database.committed db' = Database.committed db
        /\ Database.connection db' <> None).
Proof.
  intros Hwf Hrange Hnames Hsha. apply int64_false in Hrange.
  split; eexists.
  - rewrite delete_obsolete_versions_run, Hrange.
    split; [reflexivity |]. split; [reflexivity | discriminate].
  - rewrite (create_file_run _ _ _ _ _ _ _ Hwf), Hnames, Hsha, Hrange.
    split; [reflexivity |]. split; [reflexivity | discriminate].
Qed.

Lemma timestamp_overflow_commits_nothing_witness :
  (exists db',
     Database.delete_obsolete_versions (- 2 ^ 64) 1000 database_fileAB
       = (Raise OverflowError, db')
     /\ Database.committed db' = Database.committed database_fileAB
     /\ Database.connection db' <> None)
  /\ (exists db',
        Database.create_file "ProjectX" "1.0" "fileA" SHA256_TEST1
          (- 2 ^ 64) 1000 database_fileAB = (Raise OverflowError, db')
        /\ Database.committed db' = Database.committed database_fileAB
        /\ Database.connection db' <> None).
Proof.
  apply (timestamp_overflow_commits_nothing database_fileAB
           "ProjectX" "1.0" "fileA" SHA256_TEST1 (- 2 ^ 64) 1000).
  - solve_well_formed.
  - right. vm_compute. discriminate.
  - vm_compute. reflexivity.
  - vm_compute. reflexivity.
Defined.

(** Two versions of one project with the same timestamp are listed by
    name, whatever the order they were created in. *)
Example retrieve_versions_equal_timestamps :
  fst (Database.retrieve_versions "ProjectX"
         (snd (Database.create_file "ProjectX" "1.0" "fileA" SHA256_TEST1
                 0 1000
                 (snd (Database.create_file "ProjectX" "2.0" "fileA"
                         SHA256_TEST1 0 1000 new_database)))))
  = Ok [("1.0", 1000%Z, false); ("2.0", 1000%Z, false)].
Proof. vm_compute. reflexivity. Qed.
